(** * IMX662 sensor drivers: register-level control core

    Shallow embedding of the exposure, gain, timing and streaming code of the
    IMX662 front-ends

    - [Mipi]: IMX662_driver/imx662_mipi.c (NXP ISP front-end),
    - [Fr]:   IMX662_driver/fr_imx662.c (V4L2 front-end with a control handler),
    - [Rpi]:  IMX662_driver/imx662.c (V4L2 front-end, exposure in lines),
    - [Esp]:  components/imx662/imx662.c (ESP-IDF front-end),

    followed by the properties of that code.  C integers are modelled as [Z]
    with the wrap-around of their width written out; the sensor's register
    file is a finite map from 16-bit addresses to bytes. *)

From Stdlib Require Import ZArith List Lia Bool.
From stdpp Require Import base gmap list.
Local Open Scope Z_scope.

(** ** Machine integers *)

Definition u8 (z : Z) : Z := z mod 2 ^ 8.
Definition u16 (z : Z) : Z := z mod 2 ^ 16.
Definition u32 (z : Z) : Z := z mod 2 ^ 32.
Definition u64 (z : Z) : Z := z mod 2 ^ 64.

(** Conversion of a 32-bit pattern to the signed type of the same width. *)
Definition s32 (z : Z) : Z :=
  let w := u32 z in if w <? 2 ^ 31 then w else w - 2 ^ 32.

(** C truth value of an integer, and the integer value of a [bool]. *)
Definition truthy (z : Z) : bool := negb (z =? 0).
Definition of_bool (b : bool) : Z := if b then 1 else 0.

(** ** The I2C collaborator

    The register file of the sensor, the trace of the register writes that
    reached it (oldest first), and a script of transfer outcomes: every bus
    transfer consumes the head of the script and fails when it is negative;
    an exhausted script means that every further transfer succeeds. *)

Record i2c_bus : Type := mk_bus {
  regs : gmap Z Z;
  wlog : list (Z * Z);
  script : list Z
}.

Definition reg_get (b : i2c_bus) (a : Z) : Z := default 0 (regs b !! a).

(** Modelled from the spec: the bus transport of the host ([i2c_master_send],
    [i2c_master_recv], [i2c_transfer]) is missing from the sources.  Following
    "read(address, byte_count) -> value | BusError; write(address,
    byte_count, value) -> ok | BusError": one transfer answers 0, or the
    negative error at the head of the script, which it consumes. *)
Definition i2c_transfer (b : i2c_bus) : Z * i2c_bus :=
  match script b with
  | [] => (0, b)
  | e :: rest =>
      (if e <? 0 then e else 0, mk_bus (regs b) (wlog b) rest)
  end.

(** The byte [v] lands in register [a]. *)
Definition reg_store (b : i2c_bus) (a v : Z) : i2c_bus :=
  mk_bus (<[a := v]> (regs b)) (wlog b ++ [(a, v)]) (script b).

Definition healthy (b : i2c_bus) : Prop := script b = [].

(** Computations that use the bus. *)
Definition io (A : Type) : Type := i2c_bus -> A * i2c_bus.
Definition io_ret {A : Type} (a : A) : io A := fun b => (a, b).
Definition io_bind {A B : Type} (c : io A) (k : A -> io B) : io B :=
  fun b => let '(a, b') := c b in k a b'.

Notation "'let*' x ':=' c 'in' k" := (io_bind c (fun x => k))
  (at level 10, x pattern, c at level 100, k at level 200).

(** ** Host framework

    Media bus format codes of the kernel's uapi header media-bus-format.h. *)

Definition MEDIA_BUS_FMT_SRGGB10_1X10 : Z := 0x300f.
Definition MEDIA_BUS_FMT_SRGGB12_1X12 : Z := 0x3012.

(** What a driver sees of a [struct v4l2_ctrl]: the value ([s32]), the
    range ([s64] bounds and default, [u64] step) and the grabbed flag. *)
Record v4l2_ctrl : Type := mk_ctrl {
  val : Z;
  minimum : Z;
  maximum : Z;
  step : Z;
  default_value : Z;
  grabbed : bool
}.

Definition clamp_to_range (v lo hi : Z) : Z :=
  if v <? lo then lo else if v >? hi then hi else v.

(** Modelled from the spec: the range update of the host control framework
    ([__v4l2_ctrl_modify_range]) is missing from the sources.  Following
    "recompute the exposure control's legal range (min/max integration
    lines) and, if the currently-held exposure value now falls outside that
    range, clamp it to the nearest bound and re-apply": the new bounds, step
    and default are stored and the held value is clamped to the nearest
    bound.  The drivers below add the re-application through their
    [s_ctrl] operation. *)
Definition ctrl_range_update (c : v4l2_ctrl) (min max step def : Z) : v4l2_ctrl :=
  mk_ctrl (clamp_to_range (val c) min max) min max step def (grabbed c).

(** ** The serializer/deserializer link collaborator

    Calls into the link partner are recorded in order; each call consumes
    the head of a script of outcomes (non-zero is an error), and an
    exhausted script means success. *)

Inductive link_op : Type :=
  | SerSetupStreaming (code : Z)
  | DesSetupStreaming
  | DesStartStreaming
  | DesStopStreaming
  | SerBypassPclkDis.

Record gmsl_link : Type := mk_link {
  link_trace : list link_op;
  link_script : list Z
}.

(** Modelled from the spec: the drivers of the serializer/deserializer pair
    (max96792, max96793) are missing from the sources.  Following "treated as an
    opaque power/start/stop dependency": a call is recorded and answers
    with the head of the script. *)
Definition link_call (op : link_op) (g : gmsl_link) : Z * gmsl_link :=
  match link_script g with
  | [] => (0, mk_link (link_trace g ++ [op]) [])
  | e :: rest => (e, mk_link (link_trace g ++ [op]) rest)
  end.

(** ** imx662_mipi.c *)

Module Mipi.

Definition IMX662_MAX_RETRIES : nat := 10.

Definition IMX662_K_FACTOR : Z := 1000.
Definition IMX662_M_FACTOR : Z := 1000000.
Definition IMX662_G_FACTOR : Z := 1000000000.

Definition IMX662_MAX_GAIN_DEC : Z := 240.
Definition IMX662_MAX_GAIN_DB : Z := 72.

Definition IMX662_MIN_SHR0_LENGTH : Z := 4.
Definition IMX662_MIN_SHR0_CLEAR_LENGTH : Z := 8.
Definition IMX662_MIN_SHR0_RHS1_DIST : Z := 5.
Definition IMX662_MIN_SHR1_LENGTH : Z := 5.
Definition IMX662_MIN_INTEGRATION_LINES : Z := 1.
Definition IMX662_MAX_VS_INTEGRATION_LINES : Z := 66.
Definition IMX662_MIN_VS_INTEGRATION_LINES : Z := 2.
Definition IMX662_BRL : Z := 1120.
Definition IMX662_MAX_BOUNDS_HEIGHT : Z := 1250.

Definition IMX662_TWO_LANE_MODE : Z := 1.
Definition IMX662_FOUR_LANE_MODE : Z := 3.
Definition IMX662_BINNING_MODE : Z := 1.

Definition IMX662_INCK : Z := 74250000.
Definition IMX662_LINE_TIME_H990 : Z := 13333.
Definition IMX662_LINE_TIME_H660 : Z := 8904.

(** enum mode_index *)
Definition IMX662_ALL_PIXEL_INDEX : Z := 0.
Definition IMX662_CROP_INDEX : Z := 1.
Definition IMX662_BINNING_INDEX : Z := 2.
Definition IMX662_BINNING_CROP_INDEX : Z := 3.
Definition IMX662_DOL_INDEX : Z := 4.
Definition IMX662_CLEAR_INDEX : Z := 5.

(** enum data_rate_mode *)
Definition IMX662_2376_MBPS : Z := 0.
Definition IMX662_720_MBPS : Z := 6.
Definition IMX662_594_MBPS : Z := 7.

(** Register addresses (imx662_regs.h). *)
Definition STANDBY : Z := 0x3000.
Definition REGHOLD : Z := 0x3001.
Definition XMSTA : Z := 0x3002.
Definition DATARATE_SEL : Z := 0x3015.
Definition ADDMODE : Z := 0x301B.
Definition VMAX_LOW : Z := 0x3028.
Definition VMAX_MID : Z := 0x3029.
Definition VMAX_HIGH : Z := 0x302A.
Definition HMAX_LOW : Z := 0x302C.
Definition HMAX_HIGH : Z := 0x302D.
Definition LANEMODE : Z := 0x3040.
Definition SHR0_LOW : Z := 0x3050.
Definition SHR0_MID : Z := 0x3051.
Definition SHR0_HIGH : Z := 0x3052.
Definition SHR1_LOW : Z := 0x3054.
Definition RHS1_LOW : Z := 0x3060.
Definition RHS1_MID : Z := 0x3061.
Definition RHS1_HIGH : Z := 0x3062.
Definition GAIN_LOW : Z := 0x3070.
Definition GAIN_HIGH : Z := 0x3071.
Definition BLKLEVEL_LOW : Z := 0x30DC.
Definition BLKLEVEL_HIGH : Z := 0x30DD.

(** *** The gain table *)

Definition IMX662_GAIN_REG_LEN : Z := 241.

Definition gain_reg2times : list Z :=
  [ 1024; 1060; 1097; 1136; 1176; 1217; 1260; 1304; 1350; 1397; 1446; 1497;
    1550; 1604; 1661; 1719; 1780; 1842; 1907; 1974; 2043; 2115; 2189; 2266;
    2346; 2428; 2514; 2602; 2693; 2788; 2886; 2987; 3092; 3201; 3314; 3430;
    3551; 3675; 3805; 3938; 4077; 4220; 4368; 4522; 4681; 4845; 5015; 5192;
    5374; 5563; 5758; 5961; 6170; 6387; 6611; 6844; 7084; 7333; 7591; 7858;
    8134; 8420; 8716; 9022; 9339; 9667; 10007; 10359; 10723; 11099; 11489;
    11893; 12311; 12744; 13192; 13655; 14135; 14632; 15146; 15678; 16229;
    16800; 17390; 18001; 18634; 19289; 19966; 20668; 21394; 22146; 22925;
    23730; 24564; 25427; 26321; 27246; 28203; 29194; 30220; 31282; 32382;
    33520; 34698; 35917; 37179; 38486; 39838; 41238; 42687; 44188; 45740;
    47348; 49012; 50734; 52517; 54363; 56273; 58251; 60298; 62417; 64610;
    66881; 69231; 71664; 74182; 76789; 79488; 82281; 85173; 88166; 91264;
    94471; 97791; 101228; 104785; 108468; 112279; 116225; 120310; 124537;
    128914; 133444; 138134; 142988; 148013; 153215; 158599; 164172; 169942;
    175914; 182096; 188495; 195119; 201976; 209074; 216421; 224027; 231900;
    240049; 248485; 257217; 266256; 275613; 285299; 295325; 305703; 316446;
    327567; 339078; 350994; 363329; 376097; 389314; 402995; 417157; 431817;
    446992; 462700; 478961; 495793; 513216; 531251; 549921; 569246; 589250;
    609958; 631393; 653582; 676550; 700326; 724936; 750412; 776783; 804081;
    832338; 861589; 891867; 923209; 955652; 989236; 1024000; 1059986; 1097236;
    1135795; 1175709; 1217026; 1259795; 1304067; 1349895; 1397333; 1446438;
    1497269; 1549887; 1604353; 1660734; 1719095; 1779508; 1842044; 1906777;
    1973786; 2043149; 2114949; 2189273; 2266209; 2345848; 2428287; 2513622;
    2601956; 2693394; 2788046; 2886024; 2987445; 3092431; 3201105; 3313599;
    3430046; 3550585; 3675361; 3804521; 3938220; 4076617 ].

(** [gain_reg2times[i]] *)
Definition gain_at (i : Z) : Z := nth (Z.to_nat i) gain_reg2times 0.

(** The [while ((l + 1) < r)] loop of [imx662_get_gain_reg]; [fuel] bounds
    the number of iterations. *)
Fixpoint gain_search (fuel : nat) (gain l r : Z) : Z * Z :=
  match fuel with
  | O => (l, r)
  | S fuel' =>
      if u32 (l + 1) <? r then
        let mid := u32 (l + r) / 2 in
        if gain_at mid >? gain
        then gain_search fuel' gain l mid
        else gain_search fuel' gain mid r
      else (l, r)
  end.

(** [static u32 imx662_get_gain_reg(u32 gain)] *)
Definition imx662_get_gain_reg (gain : Z) : Z :=
  if gain <? gain_at 0 then 0
  else if gain >? gain_at (IMX662_GAIN_REG_LEN - 1) then 240
  else
    let '(l, r) :=
      gain_search (Z.to_nat IMX662_GAIN_REG_LEN) gain 0 (IMX662_GAIN_REG_LEN - 1) in
    if u32 (gain - gain_at l) <? u32 (gain_at r - gain) then l else r.

(** *** Device state *)

(** The fields of [struct vvcam_ae_info_s] that the timing code uses. *)
Record vvcam_ae_info_s : Type := mk_ae {
  def_frm_len_lines : Z;
  curr_frm_len_lines : Z;
  one_line_exp_time_ns : Z;
  max_integration_line : Z;
  min_integration_line : Z;
  max_vsintegration_line : Z;
  min_vsintegration_line : Z;
  cur_fps : Z;
  max_fps : Z;
  min_fps : Z
}.

Record vvcam_mode_info_s : Type := mk_mode {
  index : Z;
  bit_width : Z;
  ae_info : vvcam_ae_info_s
}.

Record imx662 : Type := mk_sensor {
  powered_on : Z;
  format_code : Z;
  cur_mode : vvcam_mode_info_s;
  stream_status : Z;
  gmsl : bool;                (* strcmp(sensor->gmsl, "gmsl") == 0 *)
  data_rate_val : Z;          (* ctrls.data_rate->val *)
  data_rate_cur_val : Z       (* ctrls.data_rate->cur.val *)
}.

Definition set_ae (s : imx662) (ae : vvcam_ae_info_s) : imx662 :=
  mk_sensor (powered_on s) (format_code s)
            (mk_mode (index (cur_mode s)) (bit_width (cur_mode s)) ae)
            (stream_status s) (gmsl s) (data_rate_val s) (data_rate_cur_val s).

Definition set_one_line_exp_time_ns (s : imx662) (v : Z) : imx662 :=
  let ae := ae_info (cur_mode s) in
  set_ae s (mk_ae (def_frm_len_lines ae) (curr_frm_len_lines ae) v
                  (max_integration_line ae) (min_integration_line ae)
                  (max_vsintegration_line ae) (min_vsintegration_line ae)
                  (cur_fps ae) (max_fps ae) (min_fps ae)).

Definition set_data_rate_ctrl (s : imx662) (v : Z) : imx662 :=
  mk_sensor (powered_on s) (format_code s) (cur_mode s)
            (stream_status s) (gmsl s) v v.


(** [pimx662_mode_info[]]: the timing part of the six modes. *)
Definition linear_mode (idx line_time fps_cur fps_max : Z) : vvcam_mode_info_s :=
  mk_mode idx 12
    (mk_ae IMX662_MAX_BOUNDS_HEIGHT IMX662_MAX_BOUNDS_HEIGHT line_time
           (IMX662_MAX_BOUNDS_HEIGHT - 4) IMX662_MIN_INTEGRATION_LINES
           0 0
           (fps_cur * 1024) (fps_max * 1024) (5 * 1024)).

Definition dol_mode : vvcam_mode_info_s :=
  mk_mode IMX662_DOL_INDEX 12
    (mk_ae IMX662_MAX_BOUNDS_HEIGHT IMX662_MAX_BOUNDS_HEIGHT IMX662_LINE_TIME_H990
           (2 * IMX662_MAX_BOUNDS_HEIGHT - IMX662_MAX_VS_INTEGRATION_LINES)
           IMX662_MIN_INTEGRATION_LINES
           IMX662_MAX_VS_INTEGRATION_LINES IMX662_MIN_VS_INTEGRATION_LINES
           (30 * 1024) (30 * 1024) (1 * 1024)).

Definition clear_mode : vvcam_mode_info_s :=
  mk_mode IMX662_CLEAR_INDEX 12
    (mk_ae (IMX662_MAX_BOUNDS_HEIGHT * 2) (IMX662_MAX_BOUNDS_HEIGHT * 2)
           IMX662_LINE_TIME_H990
           (IMX662_MAX_BOUNDS_HEIGHT * 2 - 4) 8
           0 0
           (30 * 1024) (30 * 1024) (5 * 1024)).

Definition pimx662_mode_info : list vvcam_mode_info_s :=
  [ linear_mode IMX662_ALL_PIXEL_INDEX IMX662_LINE_TIME_H990 30 60;
    linear_mode IMX662_CROP_INDEX IMX662_LINE_TIME_H990 60 60;
    linear_mode IMX662_BINNING_INDEX IMX662_LINE_TIME_H660 90 90;
    linear_mode IMX662_BINNING_CROP_INDEX IMX662_LINE_TIME_H660 60 100;
    dol_mode;
    clear_mode ].

(** *** Register access *)

(** The retry loop of [imx662_write_reg]: up to [n] sends, stopping at the
    first one that is acknowledged; [ret] is the outcome of the last send. *)
Fixpoint send_retry (n : nat) (a v ret : Z) : io Z :=
  fun b =>
    match n with
    | O => (ret, b)
    | S n' =>
        let '(e, b') := i2c_transfer b in
        if e <? 0 then send_retry n' a v e b' else (e, reg_store b' a v)
    end.

(** [static int imx662_write_reg(struct imx662 *sensor, u16 reg, u8 val)] *)
Definition imx662_write_reg (reg val : Z) : io Z :=
  let* ret := send_retry IMX662_MAX_RETRIES (u16 reg) (u8 val) 0 in
  if ret <? 0 then io_ret ret else io_ret 0.

(** [static int imx662_read_reg(struct imx662 *sensor, u16 reg, u8 *val)];
    [old] is the content of [*val] on entry, left in place on failure. *)
Definition imx662_read_reg (reg old : Z) : io (Z * Z) :=
  fun b =>
    let '(e1, b1) := i2c_transfer b in
    if e1 <? 0 then ((-1, old), b1)
    else
      let '(e2, b2) := i2c_transfer b1 in
      if e2 <? 0 then ((-1, old), b2)
      else ((0, u8 (reg_get b2 (u16 reg))), b2).

(** *** Exposure *)

(** The integration-line count of a request: [which_control = 0] is the
    ISP path (10 fractional bits), anything else the V4L2 control path.  The
    product and the quotient are 64-bit, the result is stored in a [u32].
    (A zero line time is a division by zero in C; [Z] division yields 0.) *)
Definition integration_lines (s : imx662) (exp which_control : Z) : Z :=
  let line := one_line_exp_time_ns (ae_info (cur_mode s)) in
  if which_control =? 0
  then u32 ((Z.shiftr exp 10 * IMX662_K_FACTOR) / line)
  else u32 ((exp * IMX662_K_FACTOR) / line).

(** The value of [reg_shr0] that [imx662_set_exp] writes. *)
Definition set_exp_reg_shr0 (s : imx662) (exp which_control : Z) : Z :=
  let ae := ae_info (cur_mode s) in
  let frame_length := curr_frm_len_lines ae in
  let itl := integration_lines s exp which_control in
  let itl := if itl >? max_integration_line ae then max_integration_line ae else itl in
  let itl := if itl <? min_integration_line ae then min_integration_line ae else itl in
  let reg_shr0 :=
    if index (cur_mode s) =? IMX662_DOL_INDEX then
      let r := u32 (2 * frame_length - itl) in
      let r := if truthy (r mod 2) then u32 (r - 1) else r in
      if r >? u32 (2 * frame_length - IMX662_MIN_INTEGRATION_LINES)
      then u32 (2 * frame_length - IMX662_MIN_INTEGRATION_LINES) else r
    else
      let r := u32 (frame_length - itl) in
      if r >? u32 (frame_length - IMX662_MIN_INTEGRATION_LINES)
      then u32 (frame_length - IMX662_MIN_INTEGRATION_LINES) else r in
  let min_shr0 :=
    if index (cur_mode s) =? IMX662_CLEAR_INDEX
    then IMX662_MIN_SHR0_CLEAR_LENGTH else IMX662_MIN_SHR0_LENGTH in
  Z.max min_shr0 reg_shr0.

(** [static int imx662_set_exp(struct imx662 *sensor, u32 exp, u8 which_control)] *)
Definition imx662_set_exp (s : imx662) (exp which_control : Z) : io Z :=
  let reg_shr0 := set_exp_reg_shr0 s exp which_control in
  let* ret := imx662_write_reg REGHOLD 1 in
  let* r1 := imx662_write_reg SHR0_HIGH (Z.land (Z.shiftr reg_shr0 16) 0xff) in
  let* r2 := imx662_write_reg SHR0_MID (Z.land (Z.shiftr reg_shr0 8) 0xff) in
  let* r3 := imx662_write_reg SHR0_LOW (Z.land reg_shr0 0xff) in
  let* r4 := imx662_write_reg REGHOLD 0 in
  io_ret (Z.lor (Z.lor (Z.lor (Z.lor ret r1) r2) r3) r4).

(** [static int imx662_get_exp_register(struct imx662 *sensor, u32 *reg_shr0)] *)
Definition imx662_get_exp_register : io (Z * Z) :=
  let* (ret, val) := imx662_read_reg SHR0_HIGH 0 in
  let reg_shr0 := val in
  let* (r1, val) := imx662_read_reg SHR0_MID val in
  let reg_shr0 := u32 (Z.shiftl reg_shr0 8 + val) in
  let* (r2, val) := imx662_read_reg SHR0_LOW val in
  let reg_shr0 := u32 (Z.shiftl reg_shr0 8 + val) in
  io_ret (Z.lor (Z.lor ret r1) r2, reg_shr0).

(** The clamped integration-line target of a sub-exposure request. *)
Definition vs_integration_lines (s : imx662) (exp which_control : Z) : Z :=
  let ae := ae_info (cur_mode s) in
  let itl := integration_lines s exp which_control in
  let itl := if itl <? min_vsintegration_line ae then min_vsintegration_line ae else itl in
  if itl >? max_vsintegration_line ae then max_vsintegration_line ae else itl.

(** The value of [reg_rhs1] that [imx662_set_vs_exp] writes, from the
    shutter [reg_shr0] read back and the clamped target [itl]. *)
Definition set_vs_exp_reg_rhs1 (reg_shr0 itl : Z) : Z :=
  let reg_shr1 := IMX662_MIN_SHR1_LENGTH in
  let reg_rhs1 := u32 (reg_shr0 - IMX662_MIN_SHR0_RHS1_DIST) in
  let reg_rhs1 := Z.max (2 * IMX662_BRL - 1) reg_rhs1 in
  let reg_rhs1 := if reg_shr0 <=? reg_rhs1 then u32 (reg_shr0 - 5) else reg_rhs1 in
  if u32 (reg_rhs1 - reg_shr1) >? itl then
    let r := u32 (itl + reg_shr1) in
    if truthy (r mod 2) then r else u32 (r - 1)
  else reg_rhs1.

(** [static int imx662_set_vs_exp(struct imx662 *sensor, u32 exp,
    unsigned int which_control)] *)
Definition imx662_set_vs_exp (s : imx662) (exp which_control : Z) : io Z :=
  let reg_shr1 := IMX662_MIN_SHR1_LENGTH in
  let* (ret, reg_shr0) := imx662_get_exp_register in
  if ret <? 0 then io_ret ret
  else
    let itl := vs_integration_lines s exp which_control in
    let reg_rhs1 := set_vs_exp_reg_rhs1 reg_shr0 itl in
    let* ret := imx662_write_reg REGHOLD 1 in
    let* r1 := imx662_write_reg SHR1_LOW reg_shr1 in
    let* r2 := imx662_write_reg RHS1_LOW (Z.land reg_rhs1 0xff) in
    let* r3 := imx662_write_reg RHS1_MID (Z.land (Z.shiftr reg_rhs1 8) 0xff) in
    let* r4 := imx662_write_reg RHS1_HIGH (Z.land (Z.shiftr reg_rhs1 16) 0xff) in
    let* r5 := imx662_write_reg REGHOLD 0 in
    io_ret (Z.lor (Z.lor (Z.lor (Z.lor (Z.lor ret r1) r2) r3) r4) r5).

(** *** Gain *)

(** [static int imx662_set_gain(struct imx662 *sensor, u32 gain, u8 which_control)] *)
Definition imx662_set_gain (s : imx662) (gain which_control : Z) : io Z :=
  let max_clear_hdr_gain := 80 in
  let gain_reg :=
    if which_control =? 0 then imx662_get_gain_reg gain
    else u32 (gain * IMX662_MAX_GAIN_DEC) / (IMX662_MAX_GAIN_DB * 10) in
  let gain_reg :=
    if (index (cur_mode s) =? IMX662_CLEAR_INDEX) && (gain_reg >? max_clear_hdr_gain)
    then max_clear_hdr_gain else gain_reg in
  let* ret := imx662_write_reg REGHOLD 1 in
  let* r1 := imx662_write_reg GAIN_HIGH (Z.land (Z.shiftr gain_reg 8) 0xff) in
  let* r2 := imx662_write_reg GAIN_LOW (Z.land gain_reg 0xff) in
  let* r3 := imx662_write_reg REGHOLD 0 in
  io_ret (Z.lor (Z.lor (Z.lor ret r1) r2) r3).

(** *** Black level *)

(** The value of [black_level_reg] in [imx662_set_black_level]; [val] is an
    [s64], and [>>] on it is an arithmetic shift. *)
Definition black_level_reg (s : imx662) (val : Z) : Z :=
  if format_code s =? MEDIA_BUS_FMT_SRGGB10_1X10 then val else Z.shiftr val 2.

(** [static int imx662_set_black_level(struct imx662 *sensor, s64 val,
    u32 which_control)] *)
Definition imx662_set_black_level (s : imx662) (val which_control : Z) : io Z :=
  let reg := black_level_reg s val in
  let* ret := imx662_write_reg REGHOLD 1 in
  let* r1 := imx662_write_reg BLKLEVEL_HIGH (Z.land (Z.shiftr reg 8) 0xff) in
  let* r2 := imx662_write_reg BLKLEVEL_LOW (Z.land reg 0xff) in
  let* r3 := imx662_write_reg REGHOLD 0 in
  let ret := Z.lor (Z.lor (Z.lor ret r1) r2) r3 in
  if ret <? 0 then io_ret ret else io_ret 0.

(** *** Frame rate *)

(** The frame rate after the left shift of the V4L2 path and the clamp to
    the mode's [min_fps, max_fps]. *)
Definition set_fps_clamped (s : imx662) (fps which_control : Z) : Z :=
  let ae := ae_info (cur_mode s) in
  let fps := if which_control =? 1 then u32 (Z.shiftl fps 10) else fps in
  if fps >? max_fps ae then max_fps ae
  else if fps <? min_fps ae then min_fps ae
  else fps.

(** [IMX662_G_FACTOR / ((fps >> 10) * line_time)]: the product is a [u32],
    the quotient 64-bit, stored in the [u32] [fps_reg].  (A zero product is
    a division by zero in C; [Z] division yields 0.) *)
Definition set_fps_quotient (s : imx662) (fps : Z) : Z :=
  let line_time := one_line_exp_time_ns (ae_info (cur_mode s)) in
  u32 (IMX662_G_FACTOR / u32 (Z.shiftr fps 10 * line_time)).

(** The value of [fps_reg] that [imx662_set_fps] writes to VMAX. *)
Definition set_fps_reg (s : imx662) (fps which_control : Z) : Z :=
  let fps_reg := set_fps_quotient s (set_fps_clamped s fps which_control) in
  let fps_reg :=
    if index (cur_mode s) =? IMX662_DOL_INDEX then fps_reg / 2 else fps_reg in
  if truthy (fps_reg mod 2) then u32 (fps_reg + 1) else fps_reg.

(** [static int imx662_set_fps(struct imx662 *sensor, u32 fps, u8 which_control)] *)
Definition imx662_set_fps (s : imx662) (fps which_control : Z) : io (Z * imx662) :=
  let ae := ae_info (cur_mode s) in
  let fps' := set_fps_clamped s fps which_control in
  let fps_reg := set_fps_reg s fps which_control in
  let* ret := imx662_write_reg REGHOLD 1 in
  let* r1 := imx662_write_reg VMAX_HIGH (Z.land (u8 (Z.shiftr fps_reg 16)) 0xff) in
  let* r2 := imx662_write_reg VMAX_MID (Z.land (u8 (Z.shiftr fps_reg 8)) 0xff) in
  let* r3 := imx662_write_reg VMAX_LOW (u8 (Z.land fps_reg 0xff)) in
  let* r4 := imx662_write_reg REGHOLD 0 in
  let ret := Z.lor (Z.lor (Z.lor (Z.lor ret r1) r2) r3) r4 in
  if ret <? 0 then io_ret (ret, s)
  else
    let max_il :=
      if index (cur_mode s) =? IMX662_DOL_INDEX
      then u32 (2 * fps_reg - 2 - max_vsintegration_line ae)
      else if index (cur_mode s) =? IMX662_CLEAR_INDEX
      then u32 (fps_reg - min_integration_line ae)
      else u32 (fps_reg - min_integration_line ae) in
    io_ret (ret,
            set_ae s (mk_ae (def_frm_len_lines ae) fps_reg (one_line_exp_time_ns ae)
                            max_il (min_integration_line ae)
                            (max_vsintegration_line ae) (min_vsintegration_line ae)
                            fps' (max_fps ae) (min_fps ae))).

(** *** Data rate and line length *)

(** [static int imx662_adjust_hmax_register(struct imx662 *sensor)] *)
Definition imx662_adjust_hmax_register (s : imx662) : io (Z * imx662) :=
  let* (ret, data_rate) := imx662_read_reg DATARATE_SEL 255 in
  if ret <? 0 then io_ret (ret, s)
  else
    let* (ret, binning_mode) := imx662_read_reg ADDMODE 255 in
    if ret <? 0 then io_ret (ret, s)
    else
      let hmax : option Z :=
        if (data_rate =? IMX662_720_MBPS) && truthy (Z.lnot binning_mode)
        then Some 660
        else if data_rate =? IMX662_594_MBPS
        then Some (if truthy binning_mode then 660 else 990)
        else None in
      match hmax with
      | None => io_ret (-1, s)
      | Some hmax =>
          let* ret := imx662_write_reg REGHOLD 1 in
          let* r1 := imx662_write_reg HMAX_HIGH (Z.land (Z.shiftr hmax 8) 0xff) in
          let* r2 := imx662_write_reg HMAX_LOW (Z.land hmax 0xff) in
          let* r3 := imx662_write_reg REGHOLD 0 in
          let ret := Z.lor (Z.lor (Z.lor ret r1) r2) r3 in
          if truthy ret then io_ret (ret, s)
          else
            io_ret (0, set_one_line_exp_time_ns s
                         (u32 ((hmax * IMX662_G_FACTOR) / IMX662_INCK)))
      end.

(** [static int imx662_change_data_rate(struct imx662 *sensor, u8 data_rate)] *)
Definition imx662_change_data_rate (s : imx662) (data_rate : Z) : io (Z * imx662) :=
  let data_rate := u8 data_rate in
  let* (ret, current_lane_mode) := imx662_read_reg LANEMODE 0 in
  if ret <? 0 then io_ret (ret, s)
  else
    let* ret :=
      (if current_lane_mode =? IMX662_TWO_LANE_MODE
       then imx662_write_reg LANEMODE IMX662_FOUR_LANE_MODE
       else io_ret ret) in
    if ret <? 0 then io_ret (ret, s)
    else
      let* (ret, current_binning_mode) := imx662_read_reg ADDMODE 0 in
      if ret <? 0 then io_ret (ret, s)
      else
        let unsupported :=
          if current_binning_mode =? IMX662_BINNING_MODE
          then negb (data_rate =? IMX662_594_MBPS)
          else negb (data_rate =? IMX662_720_MBPS) && negb (data_rate =? IMX662_594_MBPS) in
        if unsupported then
          (* change_datarate: *)
          let* ret := imx662_write_reg DATARATE_SEL IMX662_594_MBPS in
          io_ret (ret, set_data_rate_ctrl s IMX662_594_MBPS)
        else
          let* ret := imx662_write_reg DATARATE_SEL data_rate in
          if ret <? 0 then io_ret (ret, s) else io_ret (0, s).

(** [static int imx662_set_data_rate(struct imx662 *sensor, u8 data_rate)] *)
Definition imx662_set_data_rate (s : imx662) (data_rate : Z) : io (Z * imx662) :=
  let* (ret, s) := imx662_change_data_rate s data_rate in
  if ret <? 0 then io_ret (ret, s)
  else
    let* (ret, s) := imx662_adjust_hmax_register s in
    io_ret (ret, s).

(** *** Streaming *)


(** *** Further registers, tables and error codes *)

Definition GAIN_1_LOW : Z := 0x3072.
Definition GAIN_1_HIGH : Z := 0x3073.
Definition EXP_GAIN : Z := 0x3081.
Definition XVS_DRV_XHS_DRV : Z := 0x30A6.
Definition EXTMODE : Z := 0x30CE.
Definition TPG_EN_DUOUT : Z := 0x30E0.
Definition TPG_PATSEL_DUOUT : Z := 0x30E2.
Definition TPG_COLORWIDTH : Z := 0x30E4.
Definition TESTCLKEN : Z := 0x4900.

Definition ENXIO : Z := 6.
Definition ENOMEM : Z := 12.
Definition EINVAL : Z := 22.

(** enum sync_mode *)
Definition NO_SYNC : Z := 0.
Definition INTERNAL_SYNC : Z := 1.
Definition EXTERNAL_SYNC : Z := 2.

(** [exp_gain_bounds[5]] *)
Definition exp_gain_bounds : list Z := [1534; 3060; 6106; 12182; 24306].
Definition exp_gain_bound (i : nat) : Z := nth i exp_gain_bounds 0.

(** [ARRAY_SIZE(imx662_test_pattern_menu)] *)
Definition imx662_test_pattern_menu_size : Z := 13.

(** *** Table writes *)

(** The data bytes of one message land in consecutive registers. *)
Fixpoint burst_store (a : Z) (data : list Z) (b : i2c_bus) : i2c_bus :=
  match data with
  | [] => b
  | d :: rest => burst_store (a + 1) rest (reg_store b (u16 a) d)
  end.

(** Modelled from the spec: the sensor's side of a bus write is missing from
    the sources.  Following "Multi-byte values are transmitted
    address-ascending": the first two bytes of a message are the register
    address, high byte first, and the other bytes land in the registers
    from that address upwards. *)
Definition msg_deliver (send_buf : list Z) (b : i2c_bus) : i2c_bus :=
  match send_buf with
  | hi :: lo :: data => burst_store (Z.shiftl hi 8 + lo) data b
  | _ => b
  end.

(** The retry loop of [imx662_i2c_transfer]: up to [n] transfers of the
    message, stopping at the first one that is acknowledged; [ret] is the
    outcome of the last transfer. *)
Fixpoint transfer_retry (n : nat) (send_buf : list Z) (ret : Z) : io Z :=
  fun b =>
    match n with
    | O => (ret, b)
    | S n' =>
        let '(e, b') := i2c_transfer b in
        if e <? 0 then transfer_retry n' send_buf e b'
        else (e, msg_deliver send_buf b')
    end.

(** [static int imx662_i2c_transfer(const struct i2c_client *const
    i2c_client, u8 *send_buf, const u8 send_buf_len)] *)
Definition imx662_i2c_transfer (send_buf : list Z) : io Z :=
  let* ret := transfer_retry IMX662_MAX_RETRIES send_buf 0 in
  if ret <? 0 then io_ret ret else io_ret 0.

(** The first three bytes of a message: the address, high byte first, and
    the first data byte. *)
Definition msg_start (addr data : Z) : list Z :=
  [Z.land (Z.shiftr addr 8) 0xff; Z.land addr 0xff; Z.land data 0xff].

(** The [for] loop of [imx662_write_reg_arry] and what follows it;
    [prev_addr] is [reg_arry[i-1].addr] (a [u32]) and [send_buf] the message
    built so far. *)
Fixpoint write_reg_arry_loop (rest : list (Z * Z)) (prev_addr : Z) (send_buf : list Z)
  : io Z :=
  match rest with
  | [] =>
      if Z.of_nat (length send_buf) >? 0 then
        let* ret := imx662_i2c_transfer send_buf in
        io_ret ret
      else io_ret 0
  | (addr, data) :: rest' =>
      if (Z.of_nat (length send_buf) <? 8) && (u32 addr =? u32 (prev_addr + 1)) then
        write_reg_arry_loop rest' addr (send_buf ++ [Z.land data 0xff])
      else
        let* ret := imx662_i2c_transfer send_buf in
        if ret <? 0 then io_ret ret
        else write_reg_arry_loop rest' addr (msg_start addr data)
  end.

(** [static int imx662_write_reg_arry(struct imx662 *sensor, struct
    vvcam_sccb_data_s *reg_arry, u32 size)] for a table of at least one
    entry, [first :: rest], of (addr, data) pairs; the allocation of the
    buffer is taken to succeed. *)
Definition imx662_write_reg_arry (first : Z * Z) (rest : list (Z * Z)) : io Z :=
  write_reg_arry_loop rest (fst first) (msg_start (fst first) (snd first)).

(** *** Mode selection *)

Definition set_cur_mode (s : imx662) (m : vvcam_mode_info_s) : imx662 :=
  mk_sensor (powered_on s) (format_code s) m
            (stream_status s) (gmsl s) (data_rate_val s) (data_rate_cur_val s).

(** [static int imx662_set_sensor_mode(struct imx662 *sensor, void *pmode)];
    [pmode] is what [copy_from_user] delivers, [None] when it fails. *)
Definition imx662_set_sensor_mode (s : imx662) (pmode : option vvcam_mode_info_s)
  : Z * imx662 :=
  match pmode with
  | None => (- ENOMEM, s)
  | Some sensor_mode =>
      match find (fun m => index m =? index sensor_mode) pimx662_mode_info with
      | Some m => (0, set_cur_mode s m)
      | None => (- ENXIO, s)
      end
  end.

(** *** Synchronisation *)

(** [static int imx662_configure_triggering_pins(struct imx662 *sensor)];
    [extmode] is not initialised, [undef] is what it holds when the read
    fails. *)
Definition imx662_configure_triggering_pins (undef : Z) : io Z :=
  let* (_, extmode) := imx662_read_reg EXTMODE undef in
  let xvs_xhs_drv :=
    if extmode =? INTERNAL_SYNC then 0x0
    else if extmode =? EXTERNAL_SYNC then 0x3
    else 0xF in
  let* err := imx662_write_reg XVS_DRV_XHS_DRV xvs_xhs_drv in
  if truthy err then io_ret err else io_ret 0.

(** [static int imx662_set_sync_mode(struct imx662 *sensor, u32 val)] *)
Definition imx662_set_sync_mode (s : imx662) (val undef : Z) : io Z :=
  let extmode := if val =? EXTERNAL_SYNC then 1 else 0 in
  let pins : io Z :=
    let* err := imx662_configure_triggering_pins undef in
    if err <? 0 then io_ret (- EINVAL) else io_ret err in
  if powered_on s =? 1 then
    let* err := imx662_write_reg EXTMODE extmode in
    if err <? 0 then io_ret err else pins
  else pins.

(** *** Further gains *)

(** The value of [gain_reg] in [imx662_set_vs_gain]. *)
Definition vs_gain_reg (gain which_control : Z) : Z :=
  let max_vs_gain := 200 in
  let gain_reg :=
    if which_control =? 0 then imx662_get_gain_reg gain
    else u32 (gain * IMX662_MAX_GAIN_DEC) / (IMX662_MAX_GAIN_DB * 10) in
  if gain_reg >? max_vs_gain then max_vs_gain else gain_reg.

(** [static int imx662_set_vs_gain(struct imx662 *sensor, u32 gain,
    u8 which_control)] *)
Definition imx662_set_vs_gain (gain which_control : Z) : io Z :=
  let gain_reg := vs_gain_reg gain which_control in
  let* ret := imx662_write_reg REGHOLD 1 in
  let* r1 := imx662_write_reg GAIN_1_HIGH (Z.land (Z.shiftr gain_reg 8) 0xff) in
  let* r2 := imx662_write_reg GAIN_1_LOW (Z.land gain_reg 0xff) in
  let* r3 := imx662_write_reg REGHOLD 0 in
  io_ret (Z.lor (Z.lor (Z.lor ret r1) r2) r3).

(** The value of [gain_reg] in [imx662_set_exp_gain]. *)
Definition exp_gain_reg (gain which_control : Z) : Z :=
  let max_exp_gain := 5 in
  let gain_reg :=
    if which_control =? 0 then
      if gain <? exp_gain_bound 0 then 0
      else if gain <? exp_gain_bound 1 then 1
      else if gain <? exp_gain_bound 2 then 2
      else if gain <? exp_gain_bound 3 then 3
      else if gain <? exp_gain_bound 4 then 4
      else 5
    else gain in
  Z.min (u32 max_exp_gain) (u32 gain_reg).

(** [static int imx662_set_exp_gain(struct imx662 *sensor, u32 gain,
    u8 which_control)] *)
Definition imx662_set_exp_gain (gain which_control : Z) : io Z :=
  let* ret := imx662_write_reg EXP_GAIN (exp_gain_reg gain which_control) in
  io_ret ret.

(** *** Test pattern *)

(** [static int imx662_set_test_pattern(struct imx662 *sensor, u32 pattern)];
    the tables are [mode_enable_pattern_generator] and
    [mode_disable_pattern_generator] of imx662_regs.h. *)
Definition imx662_set_test_pattern (pattern : Z) : io Z :=
  if (pattern >? 0) && (pattern <? imx662_test_pattern_menu_size) then
    let* ret := imx662_write_reg_arry (BLKLEVEL_LOW, 0x00)
                  [(TPG_EN_DUOUT, 0x01); (TPG_COLORWIDTH, 0x00); (TESTCLKEN, 0x0A)] in
    if ret <? 0 then io_ret (- EINVAL)
    else
      let* ret := imx662_write_reg TPG_PATSEL_DUOUT (u32 (pattern - 1)) in
      io_ret ret
  else
    let* ret := imx662_write_reg_arry (BLKLEVEL_LOW, 0x32)
                  [(TPG_EN_DUOUT, 0x00); (TPG_COLORWIDTH, 0x00); (TESTCLKEN, 0x02)] in
    if ret <? 0 then io_ret (- EINVAL) else io_ret ret.

(** *** The control operation *)

Inductive ctrl_id : Type :=
  | V4L2_CID_GAIN
  | V4L2_CID_EXPOSURE
  | V4L2_CID_TEST_PATTERN
  | V4L2_CID_FRAME_RATE
  | V4L2_CID_BLACK_LEVEL
  | V4L2_CID_DATA_RATE
  | V4L2_CID_SYNC_MODE
  | V4L2_CID_VS_EXP
  | V4L2_CID_VS_GAIN
  | V4L2_CID_EXP_GAIN
  | V4L2_CID_other.

(** [static int imx662_s_ctrl(struct v4l2_ctrl *ctrl)] for the control [id]
    with [ctrl->val = v] (an [s32]); [undef] as in
    [imx662_configure_triggering_pins]. *)
Definition imx662_s_ctrl (s : imx662) (id : ctrl_id) (v undef : Z) : io (Z * imx662) :=
  if powered_on s =? 0 then io_ret (0, s)
  else
    match id with
    | V4L2_CID_GAIN =>
        let* ret := imx662_set_gain s (u32 v) 1 in io_ret (ret, s)
    | V4L2_CID_EXPOSURE =>
        let* ret := imx662_set_exp s (u32 v) 1 in io_ret (ret, s)
    | V4L2_CID_TEST_PATTERN =>
        let* ret := imx662_set_test_pattern (u32 v) in io_ret (ret, s)
    | V4L2_CID_FRAME_RATE => imx662_set_fps s (u32 v) 1
    | V4L2_CID_BLACK_LEVEL =>
        let* ret := imx662_set_black_level s v 1 in io_ret (ret, s)
    | V4L2_CID_DATA_RATE => imx662_set_data_rate s v
    | V4L2_CID_SYNC_MODE =>
        let* ret := imx662_set_sync_mode s (u32 v) undef in io_ret (ret, s)
    | V4L2_CID_VS_EXP =>
        let* ret := imx662_set_vs_exp s (u32 v) 1 in io_ret (ret, s)
    | V4L2_CID_VS_GAIN =>
        let* ret := imx662_set_vs_gain (u32 v) 1 in io_ret (ret, s)
    | V4L2_CID_EXP_GAIN =>
        let* ret := imx662_set_exp_gain (u32 v) 1 in io_ret (ret, s)
    | V4L2_CID_other => io_ret (- EINVAL, s)
    end.

End Mipi.


(** ** fr_imx662.c *)

Module Fr.

Definition IMX662_K_FACTOR : Z := 1000.
Definition IMX662_M_FACTOR : Z := 1000000.
Definition IMX662_G_FACTOR : Z := 1000000000.
Definition IMX662_XCLK_FREQ : Z := 74250000.

Definition IMX662_MODE_STANDBY : Z := 0x01.
Definition IMX662_MODE_STREAMING : Z := 0x00.

Definition IMX662_MIN_SHR0_LENGTH : Z := 4.
Definition IMX662_MIN_INTEGRATION_LINES : Z := 1.

Definition IMX662_BLACK_LEVEL_MIN : Z := 0.
Definition IMX662_BLACK_LEVEL_STEP : Z := 1.
Definition IMX662_MAX_BLACK_LEVEL_10BPP : Z := 1023.
Definition IMX662_MAX_BLACK_LEVEL_12BPP : Z := 4095.
Definition IMX662_DEFAULT_BLACK_LEVEL_10BPP : Z := 50.
Definition IMX662_DEFAULT_BLACK_LEVEL_12BPP : Z := 200.

Definition EINVAL : Z := 22.
Definition EIO : Z := 5.

(** Register addresses and sizes (fr_imx662_regs.h). *)
Definition STANDBY : Z := 0x3000.
Definition REGHOLD : Z := 0x3001.
Definition XMSTA : Z := 0x3002.
Definition INCK_SEL : Z := 0x3014.
Definition DATARATE_SEL : Z := 0x3015.
Definition WINMODE : Z := 0x3018.
Definition WDMODE : Z := 0x301A.
Definition ADDMODE : Z := 0x301B.
Definition VCMODE : Z := 0x301E.
Definition HREVERSE : Z := 0x3020.
Definition VREVERSE : Z := 0x3021.
Definition ADBIT : Z := 0x3022.
Definition MDBIT : Z := 0x3023.
Definition VMAX_LOW : Z := 0x3028.
Definition HMAX_LOW : Z := 0x302C.
Definition PIX_HST_LOW : Z := 0x303C.
Definition PIX_HST_HIGH : Z := 0x303D.
Definition PIX_HWIDTH_LOW : Z := 0x303E.
Definition PIX_HWIDTH_HIGH : Z := 0x303F.
Definition LANEMODE : Z := 0x3040.
Definition PIX_VST_LOW : Z := 0x3044.
Definition PIX_VST_HIGH : Z := 0x3045.
Definition PIX_VWIDTH_LOW : Z := 0x3046.
Definition PIX_VWIDTH_HIGH : Z := 0x3047.
Definition SHR0_LOW : Z := 0x3050.
Definition SHR0_MID : Z := 0x3051.
Definition SHR0_HIGH : Z := 0x3052.
Definition GAIN_LOW : Z := 0x3070.
Definition XVS_XHS_DRV : Z := 0x30A6.
Definition EXTMODE : Z := 0x30CE.
Definition BLKLEVEL_LOW : Z := 0x30DC.
Definition BLKLEVEL_HIGH : Z := 0x30DD.
Definition TPG_EN_DUOUT : Z := 0x30E0.
Definition TPG_PATSEL_DUOUT : Z := 0x30E2.
Definition TPG_COLORWIDTH : Z := 0x30E4.
Definition TESTCLKEN : Z := 0x4900.

Definition IMX662_DEFAULT_WIDTH : Z := 1920.
Definition IMX662_DEFAULT_HEIGHT : Z := 1080.
Definition IMX662_1280x720_WIDTH : Z := 1280.
Definition IMX662_1280x720_HEIGHT : Z := 720.
Definition IMX662_640x480_WIDTH : Z := 640.
Definition IMX662_640x480_HEIGHT : Z := 480.
Definition IMX662_MODE_BINNING_H2V2_WIDTH : Z := 968.
Definition IMX662_MODE_BINNING_H2V2_HEIGHT : Z := 550.
Definition IMX662_MIN_FRAME_LENGTH_DELTA : Z := 70.

Definition IMX662_TO_LOW_BYTE (x : Z) : Z := Z.land x 0xFF.
Definition IMX662_TO_MID_BYTE (x : Z) : Z := Z.shiftr x 8.

(** enum link_freq, operation_mode, sync_mode *)
Definition _GMSL_LINK_FREQ_1500 : Z := 0.
Definition _IMX662_LINK_FREQ_720 : Z := 1.
Definition _IMX662_LINK_FREQ_594 : Z := 2.
Definition MASTER_MODE : Z := 0.
Definition SLAVE_MODE : Z := 1.
Definition NO_SYNC : Z := 0.
Definition INTERNAL_SYNC : Z := 1.
Definition EXTERNAL_SYNC : Z := 2.

(** *** Register tables: (address, value) pairs; [struct imx662_reg] holds
    the value in a [u8]. *)

Definition mode_common_regs : list (Z * Z) :=
  [ (LANEMODE, 0x03); (INCK_SEL, 0x01);
    (0x3444, 0xac); (0x3460, 0x21); (0x3492, 0x08); (0x3a50, 0x62);
    (0x3a51, 0x01); (0x3a52, 0x19); (0x3b00, 0x39); (0x3b23, 0x2d);
    (0x3b45, 0x04); (0x3c0a, 0x1f); (0x3c0b, 0x1e); (0x3c38, 0x21);
    (0x3c44, 0x00); (0x3cb6, 0xd8); (0x3cc4, 0xda); (0x3e24, 0x79);
    (0x3e2c, 0x15); (0x3edc, 0x2d); (0x4498, 0x05); (0x449c, 0x19);
    (0x449d, 0x00); (0x449e, 0x32); (0x449f, 0x01); (0x44a0, 0x92);
    (0x44a2, 0x91); (0x44a4, 0x8c); (0x44a6, 0x87); (0x44a8, 0x82);
    (0x44aa, 0x78); (0x44ac, 0x6e); (0x44ae, 0x69); (0x44b0, 0x92);
    (0x44b2, 0x91); (0x44b4, 0x8c); (0x44b6, 0x87); (0x44b8, 0x82);
    (0x44ba, 0x78); (0x44bc, 0x6e); (0x44be, 0x69); (0x44c0, 0x7f);
    (0x44c1, 0x01); (0x44c2, 0x7f); (0x44c3, 0x01); (0x44c4, 0x7a);
    (0x44c5, 0x01); (0x44c6, 0x7a); (0x44c7, 0x01); (0x44c8, 0x70);
    (0x44c9, 0x01); (0x44ca, 0x6b); (0x44cb, 0x01); (0x44cc, 0x6b);
    (0x44cd, 0x01); (0x44ce, 0x5c); (0x44cf, 0x01); (0x44d0, 0x7f);
    (0x44d1, 0x01); (0x44d2, 0x7f); (0x44d3, 0x01); (0x44d4, 0x7a);
    (0x44d5, 0x01); (0x44d6, 0x7a); (0x44d7, 0x01); (0x44d8, 0x70);
    (0x44d9, 0x01); (0x44da, 0x6b); (0x44db, 0x01); (0x44dc, 0x6b);
    (0x44dd, 0x01); (0x44de, 0x5c); (0x44df, 0x01); (0x4534, 0x1c);
    (0x4535, 0x03); (0x4538, 0x1c); (0x4539, 0x1c); (0x453a, 0x1c);
    (0x453b, 0x1c); (0x453c, 0x1c); (0x453d, 0x1c); (0x453e, 0x1c);
    (0x453f, 0x1c); (0x4540, 0x1c); (0x4541, 0x03); (0x4542, 0x03);
    (0x4543, 0x03); (0x4544, 0x03); (0x4545, 0x03); (0x4546, 0x03);
    (0x4547, 0x03); (0x4548, 0x03); (0x4549, 0x03) ].

Definition raw12_framefmt_regs : list (Z * Z) :=
  [ (ADBIT, 0x01); (MDBIT, 0x01); (0x3A50, 0xFF); (0x3A51, 0x03); (0x3A52, 0x00) ].

Definition raw12_h2v2_framefmt_regs : list (Z * Z) :=
  [ (ADBIT, 0x00); (MDBIT, 0x01); (0x3A50, 0x62); (0x3A51, 0x01); (0x3A52, 0x19) ].

Definition raw10_framefmt_regs : list (Z * Z) :=
  [ (ADBIT, 0x00); (MDBIT, 0x00); (0x3A50, 0x62); (0x3A51, 0x01); (0x3A52, 0x19) ].

(** The window tables share their shape: start and size of the crop. *)
Definition mode_window (hst width vst height : Z) : list (Z * Z) :=
  [ (WINMODE, 0x04); (ADDMODE, 0x00); (WDMODE, 0x00); (VCMODE, 0x01);
    (PIX_HST_HIGH, u8 (IMX662_TO_MID_BYTE hst));
    (PIX_HST_LOW, u8 (IMX662_TO_LOW_BYTE hst));
    (PIX_HWIDTH_HIGH, u8 (IMX662_TO_MID_BYTE width));
    (PIX_HWIDTH_LOW, u8 (IMX662_TO_LOW_BYTE width));
    (PIX_VST_HIGH, u8 (IMX662_TO_MID_BYTE vst));
    (PIX_VST_LOW, u8 (IMX662_TO_LOW_BYTE vst));
    (PIX_VWIDTH_HIGH, u8 (IMX662_TO_MID_BYTE height));
    (PIX_VWIDTH_LOW, u8 (IMX662_TO_LOW_BYTE height)) ].

Definition mode_1920x1080 : list (Z * Z) :=
  mode_window 8 IMX662_DEFAULT_WIDTH 12 IMX662_DEFAULT_HEIGHT.
Definition mode_crop_1280x720 : list (Z * Z) :=
  mode_window 328 IMX662_1280x720_WIDTH 192 IMX662_1280x720_HEIGHT.
Definition mode_crop_640x480 : list (Z * Z) :=
  mode_window 640 IMX662_640x480_WIDTH 312 IMX662_640x480_HEIGHT.

Definition mode_h2v2_binning : list (Z * Z) :=
  [ (WINMODE, 0x00); (ADDMODE, 0x01); (WDMODE, 0x00); (VCMODE, 0x01) ].

Definition mode_enable_pattern_generator : list (Z * Z) :=
  [ (BLKLEVEL_LOW, 0x00); (TPG_EN_DUOUT, 0x01); (TPG_COLORWIDTH, 0x00);
    (TESTCLKEN, 0x0A) ].

Definition mode_disable_pattern_generator : list (Z * Z) :=
  [ (BLKLEVEL_LOW, 0x32); (TPG_EN_DUOUT, 0x00); (TPG_COLORWIDTH, 0x00);
    (TESTCLKEN, 0x02) ].

(** *** Modes *)

Record imx662_mode : Type := mk_mode {
  width : Z;
  height : Z;
  linkfreq : Z;
  pixel_rate : Z;
  min_fps : Z;
  hmax : Z;
  reg_list : list (Z * Z);
  reg_list_format : list (Z * Z)
}.

Definition modes_12bit : list imx662_mode :=
  [ mk_mode IMX662_DEFAULT_WIDTH IMX662_DEFAULT_HEIGHT _IMX662_LINK_FREQ_594
            144000000 1000000 0x3DE mode_1920x1080 raw12_framefmt_regs;
    mk_mode IMX662_1280x720_WIDTH IMX662_1280x720_HEIGHT _IMX662_LINK_FREQ_594
            96000000 1000000 0x3DE mode_crop_1280x720 raw12_framefmt_regs;
    mk_mode IMX662_640x480_WIDTH IMX662_640x480_HEIGHT _IMX662_LINK_FREQ_594
            48000000 1000000 0x3DE mode_crop_640x480 raw12_framefmt_regs;
    mk_mode IMX662_MODE_BINNING_H2V2_WIDTH IMX662_MODE_BINNING_H2V2_HEIGHT
            _IMX662_LINK_FREQ_594
            72600000 1000000 0x3DE mode_h2v2_binning raw12_h2v2_framefmt_regs ].

Definition modes_10bit : list imx662_mode :=
  [ mk_mode IMX662_DEFAULT_WIDTH IMX662_DEFAULT_HEIGHT _IMX662_LINK_FREQ_720
            216000000 1000000 0x294 mode_1920x1080 raw10_framefmt_regs;
    mk_mode IMX662_1280x720_WIDTH IMX662_1280x720_HEIGHT _IMX662_LINK_FREQ_720
            144000000 1000000 0x294 mode_crop_1280x720 raw10_framefmt_regs;
    mk_mode IMX662_640x480_WIDTH IMX662_640x480_HEIGHT _IMX662_LINK_FREQ_720
            72000000 1000000 0x294 mode_crop_640x480 raw10_framefmt_regs ].

(** *** Device state *)

(** The controls of the handler, in the order of their creation. *)
Inductive ctrl_id : Type :=
  | V4L2_CID_PIXEL_RATE
  | V4L2_CID_LINK_FREQ
  | V4L2_CID_VBLANK
  | V4L2_CID_HBLANK
  | V4L2_CID_EXPOSURE
  | V4L2_CID_FRAME_RATE
  | V4L2_CID_OPERATION_MODE
  | V4L2_CID_SYNC_MODE
  | V4L2_CID_BLACK_LEVEL
  | V4L2_CID_ANALOGUE_GAIN
  | V4L2_CID_HFLIP
  | V4L2_CID_VFLIP
  | V4L2_CID_TEST_PATTERN.

(** [struct imx662] with the controls of its handler and with the state of
    its collaborators: the serializer/deserializer link behind [ser_dev]
    and [dser_dev], the XMASTER pin, and runtime power management of the
    I2C client ([pm_usage] is its usage counter, [pm_resume] what the next
    [pm_runtime_get_sync] answers). *)
Record imx662 : Type := mk_sensor {
  fmt_code : Z;
  ctrls : ctrl_id -> v4l2_ctrl;
  line_time : Z;
  frame_length : Z;
  gmsl : bool;                (* strcmp(imx662->gmsl, "gmsl") == 0 *)
  mode : imx662_mode;
  streaming : bool;
  xmaster : Z;
  link : gmsl_link;
  pm_usage : Z;
  pm_resume : Z
}.

Definition set_ctrls (st : imx662) (c : ctrl_id -> v4l2_ctrl) : imx662 :=
  mk_sensor (fmt_code st) c (line_time st) (frame_length st) (gmsl st) (mode st)
            (streaming st) (xmaster st) (link st)
            (pm_usage st) (pm_resume st).

Definition set_frame_length (st : imx662) (v : Z) : imx662 :=
  mk_sensor (fmt_code st) (ctrls st) (line_time st) v (gmsl st) (mode st)
            (streaming st) (xmaster st) (link st)
            (pm_usage st) (pm_resume st).

Definition set_streaming (st : imx662) (v : bool) : imx662 :=
  mk_sensor (fmt_code st) (ctrls st) (line_time st) (frame_length st) (gmsl st)
            (mode st) v (xmaster st) (link st)
            (pm_usage st) (pm_resume st).

Definition set_xmaster (st : imx662) (v : Z) : imx662 :=
  mk_sensor (fmt_code st) (ctrls st) (line_time st) (frame_length st) (gmsl st)
            (mode st) (streaming st) v (link st)
            (pm_usage st) (pm_resume st).

Definition set_link (st : imx662) (g : gmsl_link) : imx662 :=
  mk_sensor (fmt_code st) (ctrls st) (line_time st) (frame_length st) (gmsl st)
            (mode st) (streaming st) (xmaster st) g
            (pm_usage st) (pm_resume st).

Definition set_pm_usage (st : imx662) (v : Z) : imx662 :=
  mk_sensor (fmt_code st) (ctrls st) (line_time st) (frame_length st) (gmsl st)
            (mode st) (streaming st) (xmaster st) (link st)
            v (pm_resume st).

Definition ctrl_id_eqb (a b : ctrl_id) : bool :=
  match a, b with
  | V4L2_CID_PIXEL_RATE, V4L2_CID_PIXEL_RATE
  | V4L2_CID_LINK_FREQ, V4L2_CID_LINK_FREQ
  | V4L2_CID_VBLANK, V4L2_CID_VBLANK
  | V4L2_CID_HBLANK, V4L2_CID_HBLANK
  | V4L2_CID_EXPOSURE, V4L2_CID_EXPOSURE
  | V4L2_CID_FRAME_RATE, V4L2_CID_FRAME_RATE
  | V4L2_CID_OPERATION_MODE, V4L2_CID_OPERATION_MODE
  | V4L2_CID_SYNC_MODE, V4L2_CID_SYNC_MODE
  | V4L2_CID_BLACK_LEVEL, V4L2_CID_BLACK_LEVEL
  | V4L2_CID_ANALOGUE_GAIN, V4L2_CID_ANALOGUE_GAIN
  | V4L2_CID_HFLIP, V4L2_CID_HFLIP
  | V4L2_CID_VFLIP, V4L2_CID_VFLIP
  | V4L2_CID_TEST_PATTERN, V4L2_CID_TEST_PATTERN => true
  | _, _ => false
  end.

(** The control [id] of the handler replaced by [c]. *)
Definition put_ctrl (st : imx662) (id : ctrl_id) (c : v4l2_ctrl) : imx662 :=
  set_ctrls st (fun i => if ctrl_id_eqb i id then c else ctrls st i).

(** *** Runtime power management *)

(** Modelled from the spec: runtime power management of the host is missing
    from the sources.  Following "apply register writes only when the device
    is powered" and "Physical power collaborator (consumed): power_on() ->
    ok|err, power_off() -> ok|err": the device is in use while the usage
    counter is positive; [pm_runtime_get_if_in_use] takes a reference only
    then. *)
Definition pm_runtime_get_if_in_use (st : imx662) : Z * imx662 :=
  if pm_usage st >? 0 then (1, set_pm_usage st (pm_usage st + 1)) else (0, st).

(** Modelled from the spec: [pm_runtime_get_sync] is missing from the sources;
    it takes a reference and answers what powering the device on
    answered. *)
Definition pm_runtime_get_sync (st : imx662) : Z * imx662 :=
  (pm_resume st, set_pm_usage st (pm_usage st + 1)).

(** Modelled from the spec: [pm_runtime_put] and [pm_runtime_put_noidle]
    are missing from the sources; they drop a reference. *)
Definition pm_runtime_put (st : imx662) : imx662 :=
  set_pm_usage st (pm_usage st - 1).

Definition pm_runtime_put_noidle (st : imx662) : imx662 :=
  set_pm_usage st (pm_usage st - 1).

(** *** Register access *)

(** [len] consecutive registers from [a] take the bytes of [v], least
    significant first. *)
Fixpoint store_le (len : nat) (a v : Z) (b : i2c_bus) : i2c_bus :=
  match len with
  | O => b
  | S len' => store_le len' (a + 1) (v / 256) (reg_store b (u16 a) (v mod 256))
  end.

(** [static int imx662_write_reg(struct imx662 *imx662, u16 reg, u32 len,
    u32 val)] *)
Definition imx662_write_reg (reg len val : Z) : io Z :=
  if u32 len >? 4 then io_ret (- EINVAL)
  else
    fun b =>
      let '(e, b') := i2c_transfer b in
      if e <? 0 then (- EIO, b')
      else (0, store_le (Z.to_nat (u32 len)) (u16 reg) (u32 val) b').

(** [static int imx662_write_hold_reg(struct imx662 *imx662, u16 reg,
    u32 len, u32 val)] *)
Definition imx662_write_hold_reg (reg len val : Z) : io Z :=
  let* ret := imx662_write_reg REGHOLD 1 0x01 in
  if truthy ret then io_ret ret
  else
    let* ret := imx662_write_reg reg len val in
    if truthy ret then
      (* reghold_off: *)
      let* ret := imx662_write_reg REGHOLD 1 0x00 in
      io_ret ret
    else
      let* ret := imx662_write_reg REGHOLD 1 0x00 in
      if truthy ret then io_ret ret else io_ret 0.

(** [static int imx662_write_table(struct imx662 *imx662,
    const struct imx662_reg *regs, u32 len)] *)
Fixpoint imx662_write_table (regs : list (Z * Z)) : io Z :=
  match regs with
  | [] => io_ret 0
  | (address, v) :: rest =>
      let* ret := imx662_write_reg address 1 v in
      if truthy ret then io_ret ret else imx662_write_table rest
  end.

(** *** The host control framework

    The driver calls into the control framework of the host, and the
    framework calls the driver's [s_ctrl] operation back.  The framework is
    not part of the sources; [s_ctrl] below stands for the operation it
    calls back. *)

(** [__v4l2_ctrl_modify_range]: the range update of the framework; a held
    value that the update changed is applied through [s_ctrl] before the
    update returns. *)
Definition __v4l2_ctrl_modify_range
    (s_ctrl : imx662 -> ctrl_id -> io (Z * imx662))
    (st : imx662) (id : ctrl_id) (min max step def : Z) : io imx662 :=
  let c := ctrls st id in
  let c' := ctrl_range_update c min max step def in
  let st := put_ctrl st id c' in
  if val c' =? val c then io_ret st
  else
    let* (_, st) := s_ctrl st id in
    io_ret st.

(** Modelled from the spec: [__v4l2_ctrl_s_ctrl] of the host control
    framework is missing from the sources.  The requested value is brought into
    the control's range, held, and applied through [s_ctrl] when it differs
    from the value held before. *)
Definition __v4l2_ctrl_s_ctrl
    (s_ctrl : imx662 -> ctrl_id -> io (Z * imx662))
    (st : imx662) (id : ctrl_id) (v : Z) : io (Z * imx662) :=
  let c := ctrls st id in
  let v := clamp_to_range (s32 v) (minimum c) (maximum c) in
  if v =? val c then io_ret (0, st)
  else
    s_ctrl (put_ctrl st id (mk_ctrl v (minimum c) (maximum c) (step c)
                                    (default_value c) (grabbed c))) id.

(** Modelled from the spec: [__v4l2_ctrl_handler_setup] of the host control
    framework is missing from the sources.  Following "apply every pending control
    value (exposure, gain, blanking, flips, test pattern) through the
    Translator before asserting the streaming bit": [s_ctrl] is called for
    the controls of the handler in the order of their creation, up to the
    first failure. *)
Fixpoint handler_setup_from
    (s_ctrl : imx662 -> ctrl_id -> io (Z * imx662))
    (ids : list ctrl_id) (st : imx662) : io (Z * imx662) :=
  match ids with
  | [] => io_ret (0, st)
  | id :: rest =>
      let* (ret, st) := s_ctrl st id in
      if truthy ret then io_ret (ret, st) else handler_setup_from s_ctrl rest st
  end.

Definition handler_ctrls : list ctrl_id :=
  [ V4L2_CID_PIXEL_RATE; V4L2_CID_LINK_FREQ; V4L2_CID_VBLANK; V4L2_CID_HBLANK;
    V4L2_CID_EXPOSURE; V4L2_CID_FRAME_RATE; V4L2_CID_OPERATION_MODE;
    V4L2_CID_SYNC_MODE; V4L2_CID_BLACK_LEVEL; V4L2_CID_ANALOGUE_GAIN;
    V4L2_CID_HFLIP; V4L2_CID_VFLIP; V4L2_CID_TEST_PATTERN ].

Definition __v4l2_ctrl_handler_setup
    (s_ctrl : imx662 -> ctrl_id -> io (Z * imx662)) (st : imx662)
  : io (Z * imx662) :=
  handler_setup_from s_ctrl handler_ctrls st.

(** Modelled from the spec: [__v4l2_ctrl_grab] of the host control framework
    is missing from the sources; the control is marked as not changeable. *)
Definition __v4l2_ctrl_grab (st : imx662) (id : ctrl_id) (grab : bool) : imx662 :=
  let c := ctrls st id in
  put_ctrl st id (mk_ctrl (val c) (minimum c) (maximum c) (step c)
                          (default_value c) grab).

(** *** Controls *)

(** [static int imx662_set_exposure(struct imx662 *imx662, u64 val)]: the
    sum of blanking and height is an [unsigned int], the difference a
    [u64]. *)
Definition set_exposure_shr0 (st : imx662) (v : Z) : Z :=
  u64 (u32 (val (ctrls st V4L2_CID_VBLANK) + height (mode st)) - u64 v).

Definition imx662_set_exposure (st : imx662) (v : Z) : io Z :=
  let exposure := set_exposure_shr0 st v in
  let* ret := imx662_write_hold_reg SHR0_LOW 3 exposure in
  io_ret ret.

(** The upper end of the exposure range in [imx662_adjust_exposure_range]. *)
Definition exposure_max (st : imx662) : Z :=
  u32 (val (ctrls st V4L2_CID_VBLANK) + height (mode st) - IMX662_MIN_SHR0_LENGTH).

(** [static int imx662_set_frame_rate(struct imx662 *imx662, u64 val)] *)
Definition imx662_set_frame_rate (st : imx662) (v : Z) : io Z :=
  let* ret := imx662_write_hold_reg VMAX_LOW 3 (frame_length st) in
  io_ret ret.

(** [static int imx662_set_test_pattern(struct imx662 *imx662, u32 val)] *)
Definition imx662_set_test_pattern (st : imx662) (v : Z) : io Z :=
  if truthy (u32 v) then
    let* ret := imx662_write_table mode_enable_pattern_generator in
    if truthy ret then io_ret ret
    else
      let* ret := imx662_write_reg TPG_PATSEL_DUOUT 1 (u32 v - 1) in
      if truthy ret then io_ret ret else io_ret 0
  else
    let* ret := imx662_write_table mode_disable_pattern_generator in
    if truthy ret then io_ret ret else io_ret 0.

(** The value of [black_level_reg] in [imx662_set_blklvl]; [val] is a
    [u64]. *)
Definition black_level_reg (st : imx662) (v : Z) : Z :=
  if fmt_code st =? MEDIA_BUS_FMT_SRGGB10_1X10 then u64 v else Z.shiftr (u64 v) 2.

(** [static int imx662_set_blklvl(struct imx662 *imx662, u64 val)] *)
Definition imx662_set_blklvl (st : imx662) (v : Z) : io Z :=
  let* ret := imx662_write_hold_reg BLKLEVEL_LOW 2 (black_level_reg st v) in
  io_ret ret.

(** [static int imx662_set_sync_mode(struct imx662 *imx662, u32 val)] *)
Definition imx662_set_sync_mode (st : imx662) (v : Z) : io Z :=
  let extmode := if u32 v =? EXTERNAL_SYNC then 1 else 0 in
  let* ret := imx662_write_reg EXTMODE 1 extmode in
  io_ret ret.

(** The hardware part of [imx662_set_ctrl]: everything after the first
    [switch]. *)
Definition apply_ctrl (st : imx662) (id : ctrl_id) : io (Z * imx662) :=
  let v := val (ctrls st id) in
  let '(in_use, st) := pm_runtime_get_if_in_use st in
  if in_use =? 0 then io_ret (0, st)
  else
    let* (ret, st) :=
      match id with
      | V4L2_CID_ANALOGUE_GAIN =>
          let* ret := imx662_write_hold_reg GAIN_LOW 2 v in io_ret (ret, st)
      | V4L2_CID_EXPOSURE =>
          let* ret := imx662_set_exposure st v in io_ret (ret, st)
      | V4L2_CID_TEST_PATTERN =>
          let* _ := imx662_set_test_pattern st v in io_ret (0, st)
      | V4L2_CID_HFLIP =>
          let* ret := imx662_write_reg HREVERSE 1 v in io_ret (ret, st)
      | V4L2_CID_VFLIP =>
          let* ret := imx662_write_reg VREVERSE 1 v in io_ret (ret, st)
      | V4L2_CID_FRAME_RATE =>
          let* ret := imx662_set_frame_rate st v in io_ret (ret, st)
      | V4L2_CID_BLACK_LEVEL =>
          let* ret := imx662_set_blklvl st v in io_ret (ret, st)
      | V4L2_CID_OPERATION_MODE =>
          io_ret (0, set_xmaster st (u32 v))
      | V4L2_CID_SYNC_MODE =>
          let* ret := imx662_set_sync_mode st v in io_ret (ret, st)
      | _ => io_ret (0, st)
      end in
    io_ret (ret, pm_runtime_put st).

(** [static void imx662_adjust_exposure_range(struct imx662 *imx662)]; the
    value that the framework re-applies goes through [imx662_set_ctrl] for
    the exposure control, whose first [switch] does nothing. *)
Definition imx662_adjust_exposure_range (st : imx662) : io imx662 :=
  __v4l2_ctrl_modify_range apply_ctrl st V4L2_CID_EXPOSURE
    IMX662_MIN_INTEGRATION_LINES (exposure_max st) 1 (exposure_max st).

(** [imx662_set_ctrl] for the vertical blanking control. *)
Definition set_ctrl_vblank (st : imx662) : io (Z * imx662) :=
  let* st := imx662_adjust_exposure_range st in
  apply_ctrl st V4L2_CID_VBLANK.

(** The frame length of [imx662_update_frame_rate]: a 64-bit unsigned
    quotient stored in a [u32], then forced even.  (A zero product is a
    division by zero in C; [Z] division yields 0.) *)
Definition update_frame_rate_quotient (st : imx662) (v : Z) : Z :=
  u32 ((IMX662_M_FACTOR * IMX662_G_FACTOR) / u64 (u64 v * line_time st)).

Definition update_frame_rate_length (st : imx662) (v : Z) : Z :=
  let fl := update_frame_rate_quotient st v in
  if truthy (fl mod 2) then u32 (fl + 1) else fl.

(** [static void imx662_update_frame_rate(struct imx662 *imx662, u64 val)] *)
Definition imx662_update_frame_rate (st : imx662) (v : Z) : io imx662 :=
  let st := set_frame_length st (update_frame_rate_length st v) in
  let update_vblank := u32 (frame_length st - height (mode st)) in
  let* st := __v4l2_ctrl_modify_range (fun st _ => set_ctrl_vblank st) st
               V4L2_CID_VBLANK update_vblank update_vblank 1 update_vblank in
  let* (_, st) := __v4l2_ctrl_s_ctrl (fun st _ => set_ctrl_vblank st) st
                    V4L2_CID_VBLANK update_vblank in
  io_ret st.

(** [static int imx662_set_ctrl(struct v4l2_ctrl *ctrl)]; [ctrl->val] is the
    value held by the control [id] of the handler. *)
Definition imx662_set_ctrl (st : imx662) (id : ctrl_id) : io (Z * imx662) :=
  let* st :=
    match id with
    | V4L2_CID_FRAME_RATE => imx662_update_frame_rate st (val (ctrls st id))
    | V4L2_CID_VBLANK => imx662_adjust_exposure_range st
    | _ => io_ret st
    end in
  apply_ctrl st id.

(** *** Mode entry and streaming *)

(** [static int imx662_set_hmax_register(struct imx662 *imx662)] *)
Definition imx662_set_hmax_register (st : imx662) : io Z :=
  imx662_write_hold_reg HMAX_LOW 2 (hmax (mode st)).

(** [static int imx662_set_data_rate(struct imx662 *imx662)] *)
Definition imx662_set_data_rate (st : imx662) : io Z :=
  if linkfreq (mode st) =? _IMX662_LINK_FREQ_720
  then imx662_write_reg DATARATE_SEL 1 0x06
  else if linkfreq (mode st) =? _IMX662_LINK_FREQ_594
  then imx662_write_reg DATARATE_SEL 1 0x07
  else io_ret 1.

(** [static int imx662_configure_triggering_pins(struct imx662 *imx662)] *)
Definition imx662_configure_triggering_pins (st : imx662) : io Z :=
  let op := val (ctrls st V4L2_CID_OPERATION_MODE) in
  if op =? MASTER_MODE then
    let xvs_xhs_drv :=
      if val (ctrls st V4L2_CID_SYNC_MODE) =? INTERNAL_SYNC then 0x0 else 0xF in
    imx662_write_reg XVS_XHS_DRV 1 xvs_xhs_drv
  else if op =? SLAVE_MODE then imx662_write_reg XVS_XHS_DRV 1 0xF
  else io_ret (- EINVAL).

(** [static int imx662_set_mode(struct imx662 *imx662)] *)
Definition imx662_set_mode (st : imx662) : io Z :=
  let* ret := imx662_write_table mode_common_regs in
  if truthy ret then io_ret ret
  else
    let* ret := imx662_write_table (reg_list (mode st)) in
    if truthy ret then io_ret ret
    else
      let* ret := imx662_write_table (reg_list_format (mode st)) in
      if truthy ret then io_ret ret
      else
        let* ret := imx662_set_hmax_register st in
        if truthy ret then io_ret ret
        else
          let* ret := imx662_set_data_rate st in
          if truthy ret then io_ret ret
          else
            let* ret := imx662_configure_triggering_pins st in
            io_ret ret.

(** The link bring-up of [imx662_start_streaming]. *)
Definition link_start (st : imx662) : Z * imx662 :=
  if gmsl st then
    let '(ret, g) := link_call (SerSetupStreaming (fmt_code st)) (link st) in
    if truthy ret then (ret, set_link st g)
    else
      let '(ret, g) := link_call DesSetupStreaming g in
      if truthy ret then (ret, set_link st g)
      else
        let '(ret, g) := link_call DesStartStreaming g in
        (ret, set_link st g)
  else (0, st).

(** [static int imx662_start_streaming(struct imx662 *imx662)]; the settle
    delay is not modelled. *)
Definition imx662_start_streaming (st : imx662) : io (Z * imx662) :=
  let '(ret, st) := link_start st in
  if truthy ret then io_ret (ret, st)
  else
    let* ret := imx662_set_mode st in
    if truthy ret then io_ret (ret, st)
    else
      let* (ret, st) := __v4l2_ctrl_handler_setup imx662_set_ctrl st in
      if truthy ret then io_ret (ret, st)
      else
        let* ret := imx662_write_reg STANDBY 1 IMX662_MODE_STREAMING in
        if truthy ret then io_ret (ret, st)
        else
          let* ret :=
            (if val (ctrls st V4L2_CID_OPERATION_MODE) =? MASTER_MODE
             then imx662_write_reg XMSTA 1 0x00
             else imx662_write_reg XMSTA 1 0x01) in
          io_ret (ret, st).

(** [static void imx662_stop_streaming(struct imx662 *imx662)]; the settle
    delay is not modelled. *)
Definition imx662_stop_streaming (st : imx662) : io imx662 :=
  let st :=
    if gmsl st then
      let '(_, g) := link_call SerBypassPclkDis (link st) in
      let '(_, g) := link_call DesStopStreaming g in
      set_link st g
    else st in
  let* _ := imx662_write_reg XMSTA 1 0x01 in
  let* _ := imx662_write_reg STANDBY 1 IMX662_MODE_STANDBY in
  io_ret st.

(** [static int imx662_set_stream(struct v4l2_subdev *sd, int enable)] *)
Definition imx662_set_stream (st : imx662) (enable : Z) : io (Z * imx662) :=
  if of_bool (streaming st) =? enable then io_ret (0, st)
  else
    let grab_all (st : imx662) (ret : Z) : io (Z * imx662) :=
      let st := set_streaming st (truthy enable) in
      let st := __v4l2_ctrl_grab st V4L2_CID_VFLIP (truthy enable) in
      let st := __v4l2_ctrl_grab st V4L2_CID_HFLIP (truthy enable) in
      let st := __v4l2_ctrl_grab st V4L2_CID_OPERATION_MODE (truthy enable) in
      let st := __v4l2_ctrl_grab st V4L2_CID_SYNC_MODE (truthy enable) in
      io_ret (ret, st) in
    if truthy enable then
      let '(ret, st) := pm_runtime_get_sync st in
      if ret <? 0 then io_ret (ret, pm_runtime_put_noidle st)
      else
        let* (ret, st) := imx662_start_streaming st in
        if truthy ret then io_ret (ret, pm_runtime_put st)
        else grab_all st ret
    else
      let* st := imx662_stop_streaming st in
      grab_all (pm_runtime_put st) 0.

(** *** Register read-back *)

(** Modelled from the spec: the sensor's side of a bus read is missing from
    the sources.  Following "reads return big-endian-assembled values
    regardless of requested length (high bytes zero-padded)": the answer
    holds the [len] registers from [a] upwards, which land in the last
    [len] bytes of a zeroed four-byte buffer that is read as one big-endian
    number; [acc] is the part of the number assembled so far. *)
Fixpoint load_be (len : nat) (a acc : Z) (b : i2c_bus) : Z :=
  match len with
  | O => acc
  | S len' => load_be len' (a + 1) (acc * 256 + u8 (reg_get b (u16 a))) b
  end.

(** [static int imx662_read_reg(struct imx662 *imx662, u16 reg, u32 len,
    u32 *val)]; [old] is the content of [*val] on entry. *)
Definition imx662_read_reg (reg len old : Z) : io (Z * Z) :=
  if u32 len >? 4 then io_ret (- EINVAL, old)
  else
    fun b =>
      let '(e, b') := i2c_transfer b in
      if e <? 0 then ((- EIO, old), b')
      else ((0, load_be (Z.to_nat (u32 len)) (u16 reg) 0 b'), b').

End Fr.

(** ** imx662.c *)

Module Rpi.

Definition IMX662_REG_VMAX : Z := 0x3028.
Definition IMX662_REG_HMAX : Z := 0x302C.
Definition IMX662_REG_SHR : Z := 0x3050.
Definition IMX662_REG_ANALOG_GAIN : Z := 0x306C.
Definition IMX662_REG_FDG_SEL0 : Z := 0x3030.
Definition IMX662_ANA_GAIN_HCG_LEVEL : Z := 51.
Definition IMX662_ANA_GAIN_HCG_THRESHOLD : Z := IMX662_ANA_GAIN_HCG_LEVEL + 29.
Definition IMX662_ANA_GAIN_HCG_MIN : Z := 34.
Definition IMX662_FLIP_WINMODEH : Z := 0x3020.
Definition IMX662_FLIP_WINMODEV : Z := 0x3021.
Definition IMX662_PIXEL_RATE : Z := 74250000.
Definition EIO : Z := 5.

(** The fields of [struct imx662_mode] that the control code uses. *)
Record imx662_mode : Type := mk_mode {
  width : Z;
  height : Z;
  hdr : bool;
  min_HMAX : Z;
  min_SHR : Z
}.

(** [supported_modes_12bit[0]]: 2K60, all pixels. *)
Definition mode_2k60 : imx662_mode := mk_mode 1936 1100 false 990 20.

Inductive ctrl_id : Type :=
  | V4L2_CID_EXPOSURE
  | V4L2_CID_ANALOGUE_GAIN
  | V4L2_CID_VBLANK
  | V4L2_CID_HBLANK
  | V4L2_CID_HFLIP
  | V4L2_CID_VFLIP
  | V4L2_CID_other.

(** [struct imx662]: the exposure control, the mode, the timing fields
    ([HMAX] is a [uint16_t], [VMAX] a [uint32_t]) and the usage counter of
    runtime power management. *)
Record imx662 : Type := mk_sensor {
  exposure : v4l2_ctrl;
  mode : imx662_mode;
  HMAX : Z;
  VMAX : Z;
  pm_usage : Z
}.

(** Modelled from the spec: runtime power management of the host is missing
    from the sources.  Following "apply register writes only when the device
    is powered": the device is in use while the usage counter is positive;
    [pm_runtime_get_if_in_use] takes a reference only then and
    [pm_runtime_put] drops it. *)
Definition pm_runtime_get_if_in_use (st : imx662) : Z * imx662 :=
  if pm_usage st >? 0
  then (1, mk_sensor (exposure st) (mode st) (HMAX st) (VMAX st) (pm_usage st + 1))
  else (0, st).

Definition pm_runtime_put (st : imx662) : imx662 :=
  mk_sensor (exposure st) (mode st) (HMAX st) (VMAX st) (pm_usage st - 1).

(** *** Register access *)

(** [static int imx662_write_reg_1byte(struct imx662 *imx662, u16 reg, u8 val)] *)
Definition imx662_write_reg_1byte (reg v : Z) : io Z :=
  fun b =>
    let '(e, b') := i2c_transfer b in
    if e <? 0 then (e, b') else (0, reg_store b' (u16 reg) (u8 v)).

(** [static int imx662_write_reg_2byte(struct imx662 *imx662, u16 reg, u16 val)] *)
Definition imx662_write_reg_2byte (reg v : Z) : io Z :=
  fun b =>
    let '(e, b') := i2c_transfer b in
    if e <? 0 then (e, b')
    else
      let v := u16 v in
      (0, reg_store (reg_store b' (u16 reg) (u8 v))
                    (u16 (u16 reg + 1)) (u8 (Z.shiftr v 8))).

(** [static int imx662_write_reg_3byte(struct imx662 *imx662, u16 reg, u32 val)] *)
Definition imx662_write_reg_3byte (reg v : Z) : io Z :=
  fun b =>
    let '(e, b') := i2c_transfer b in
    if e <? 0 then (- EIO, b')
    else
      let v := u32 v in
      (0, reg_store (reg_store (reg_store b' (u16 reg) (u8 v))
                               (u16 (u16 reg + 1)) (u8 (Z.shiftr v 8)))
                    (u16 (u16 reg + 2)) (u8 (Z.shiftr v 16))).

(** [static inline void imx662_register_hold(struct imx662 *imx662, bool hold)] *)
Definition imx662_register_hold (hold : bool) : io unit :=
  let* _ := imx662_write_reg_1byte 0x3001 (if hold then 1 else 0) in
  io_ret tt.

(** *** Exposure arithmetic *)

(** [do_div(n, base)]: the 64-bit [n] divided by the 32-bit [base].  (A
    zero base is a division by zero in C; [Z] division yields 0.) *)
Definition do_div (n base : Z) : Z := u64 n / u32 base.

(** [clamp_t(uint32_t, v, lo, hi)] *)
Definition clamp_t_u32 (v lo hi : Z) : Z := Z.min (Z.max (u32 v) (u32 lo)) (u32 hi).

(** [static u64 calculate_v4l2_cid_exposure(u64 hmax, u64 vmax, u64 shr,
    u64 svr, u64 offset)] *)
Definition calculate_v4l2_cid_exposure (hmax vmax shr svr offset : Z) : Z :=
  let numerator := u64 (u64 (u64 (vmax * (svr + 1)) - shr) * hmax + offset) in
  let numerator := do_div numerator hmax in
  clamp_t_u32 numerator 0 0xFFFFFFFF.

(** [static void calculate_min_max_v4l2_cid_exposure(...)]: the pair
    [(min_exposure, max_exposure)]. *)
Definition calculate_min_max_v4l2_cid_exposure
    (hmax vmax min_shr svr offset : Z) : Z * Z :=
  let max_shr := u64 (u64 ((svr + 1) * vmax) - 4) in
  let max_shr := Z.min max_shr 0xFFFF in
  (calculate_v4l2_cid_exposure hmax vmax max_shr svr offset,
   calculate_v4l2_cid_exposure hmax vmax min_shr svr offset).

(** [static uint32_t calculate_shr(uint32_t exposure, uint32_t hmax,
    uint64_t vmax, uint32_t svr, uint32_t offset)] *)
Definition calculate_shr (exposure hmax vmax svr offset : Z) : Z :=
  let temp := u64 (u32 exposure * u32 hmax - u32 offset) in
  let temp := do_div temp hmax in
  u32 (u64 vmax * u32 (svr + 1) - temp).

(** *** Controls *)

Definition set_timing (st : imx662) (hmax vmax : Z) : imx662 :=
  mk_sensor (exposure st) (mode st) hmax vmax (pm_usage st).

Definition set_exposure_ctrl (st : imx662) (c : v4l2_ctrl) : imx662 :=
  mk_sensor c (mode st) (HMAX st) (VMAX st) (pm_usage st).

(** The part of [imx662_set_ctrl] after the blanking check, for the control
    [id] with [ctrl->val = v]. *)
Definition apply_ctrl (st : imx662) (id : ctrl_id) (v : Z) : io (Z * imx662) :=
  let '(in_use, st) := pm_runtime_get_if_in_use st in
  if in_use =? 0 then io_ret (0, st)
  else
    let* (ret, st) :=
      match id with
      | V4L2_CID_EXPOSURE =>
          let shr := calculate_shr v (HMAX st) (VMAX st) 0 209 in
          let* ret := imx662_write_reg_2byte IMX662_REG_SHR shr in
          io_ret (ret, st)
      | V4L2_CID_ANALOGUE_GAIN =>
          let gain := v in
          let useHGC :=
            negb (hdr (mode st)) && (gain >=? IMX662_ANA_GAIN_HCG_THRESHOLD) in
          let gain :=
            if useHGC then
              let g := gain - IMX662_ANA_GAIN_HCG_LEVEL in
              if g <? IMX662_ANA_GAIN_HCG_MIN then IMX662_ANA_GAIN_HCG_MIN else g
            else gain in
          let* _ := imx662_register_hold true in
          let* _ := imx662_write_reg_2byte IMX662_REG_ANALOG_GAIN gain in
          let* ret :=
            imx662_write_reg_1byte IMX662_REG_FDG_SEL0 (if useHGC then 0x01 else 0x00) in
          let* _ := imx662_register_hold false in
          io_ret (ret, st)
      | V4L2_CID_VBLANK =>
          let st := set_timing st (HMAX st) (u32 (u64 (height (mode st) + v))) in
          let* ret := imx662_write_reg_3byte IMX662_REG_VMAX (VMAX st) in
          io_ret (ret, st)
      | V4L2_CID_HBLANK =>
          let pixel_rate := u64 (width (mode st) * IMX662_PIXEL_RATE) in
          let pixel_rate := do_div pixel_rate (min_HMAX (mode st)) in
          let hmax := u64 (u32 (width (mode st) + v) * IMX662_PIXEL_RATE) in
          let hmax := do_div hmax pixel_rate in
          let st := set_timing st (u16 hmax) (VMAX st) in
          let* ret := imx662_write_reg_2byte IMX662_REG_HMAX hmax in
          io_ret (ret, st)
      | V4L2_CID_HFLIP =>
          let* ret := imx662_write_reg_1byte IMX662_FLIP_WINMODEH v in io_ret (ret, st)
      | V4L2_CID_VFLIP =>
          let* ret := imx662_write_reg_1byte IMX662_FLIP_WINMODEV v in io_ret (ret, st)
      | V4L2_CID_other => io_ret (0, st)
      end in
    io_ret (ret, pm_runtime_put st).

(** [static int imx662_set_ctrl(struct v4l2_ctrl *ctrl)] for the control
    [id] with [ctrl->val = v].  [current_exposure] is read before it is
    ever assigned; [undef] is the value found there.  A held exposure that
    the range update changed is applied by the framework through
    [imx662_set_ctrl] for the exposure control. *)
Definition imx662_set_ctrl (st : imx662) (id : ctrl_id) (v undef : Z)
  : io (Z * imx662) :=
  let* st :=
    match id with
    | V4L2_CID_VBLANK =>
        let vmax := u64 (height (mode st) + v) in
        let st := set_timing st (HMAX st) (u32 vmax) in
        let '(min_exposure, max_exposure) :=
          calculate_min_max_v4l2_cid_exposure (HMAX st) (VMAX st)
                                              (min_SHR (mode st)) 0 209 in
        let current_exposure := clamp_t_u32 undef min_exposure max_exposure in
        let c := ctrl_range_update (exposure st) min_exposure max_exposure 1
                                   current_exposure in
        let st' := set_exposure_ctrl st c in
        if val c =? val (exposure st) then io_ret st'
        else
          let* (_, st') := apply_ctrl st' V4L2_CID_EXPOSURE (val c) in
          io_ret st'
    | _ => io_ret st
    end in
  apply_ctrl st id v.

End Rpi.

(** ** components/imx662/imx662.c *)

Module Esp.

Definition ESP_OK : Z := 0.

Definition IMX662_REG_VMAX_L : Z := 0x3028.
Definition IMX662_REG_VMAX_M : Z := 0x3029.
Definition IMX662_REG_VMAX_H : Z := 0x302A.
Definition IMX662_REG_SHR0_L : Z := 0x3050.
Definition IMX662_REG_SHR0_M : Z := 0x3051.
Definition IMX662_REG_SHR0_H : Z := 0x3052.

(** Modelled from the spec: the SCCB transport of ESP-IDF
    ([esp_sccb_transmit_reg_a16v8], [esp_sccb_transmit_receive_reg_a16v8])
    is missing from the sources.  Following "read(address, byte_count) -> value |
    BusError; write(address, byte_count, value) -> ok | BusError": one
    transaction answers [ESP_OK], or the code at the head of the script
    (any non-zero code is a failure), which it consumes. *)
Definition sccb_transfer (b : i2c_bus) : Z * i2c_bus :=
  match script b with
  | [] => (ESP_OK, b)
  | e :: rest => (e, mk_bus (regs b) (wlog b) rest)
  end.

(** [static esp_err_t imx662_read(esp_sccb_io_handle_t sccb_handle,
    uint16_t reg, uint8_t *read_buf)]; [old] is the content of [*read_buf]
    on entry. *)
Definition imx662_read (reg old : Z) : io (Z * Z) :=
  fun b =>
    let '(e, b') := sccb_transfer b in
    if e =? ESP_OK then ((ESP_OK, u8 (reg_get b' (u16 reg))), b')
    else ((e, old), b').

(** [static esp_err_t imx662_write(esp_sccb_io_handle_t sccb_handle,
    uint16_t reg, uint8_t data)] *)
Definition imx662_write (reg data : Z) : io Z :=
  fun b =>
    let '(e, b') := sccb_transfer b in
    if e =? ESP_OK then (ESP_OK, reg_store b' (u16 reg) (u8 data))
    else (e, b').

(** The value of [shr0] after the floor in [imx662_set_exposure]. *)
Definition set_exposure_shr0 (vmax exposure : Z) : Z :=
  let shr0 := u32 (vmax - exposure) in
  if shr0 <? 11 then 11 else shr0.

(** [static esp_err_t imx662_set_exposure(esp_cam_sensor_device_t *dev,
    uint32_t exposure)] *)
Definition imx662_set_exposure (exposure : Z) : io Z :=
  let* (ret, vmax_l) := imx662_read IMX662_REG_VMAX_L 0 in
  let* (r1, vmax_m) := imx662_read IMX662_REG_VMAX_M 0 in
  let* (r2, vmax_h) := imx662_read IMX662_REG_VMAX_H 0 in
  let ret := Z.lor (Z.lor ret r1) r2 in
  if negb (ret =? ESP_OK) then io_ret ret
  else
    let vmax := u32 (Z.lor (Z.lor vmax_l (Z.shiftl vmax_m 8)) (Z.shiftl vmax_h 16)) in
    let shr0 := set_exposure_shr0 vmax (u32 exposure) in
    let* ret := imx662_write IMX662_REG_SHR0_L (Z.land shr0 0xFF) in
    let* r1 := imx662_write IMX662_REG_SHR0_M (Z.land (Z.shiftr shr0 8) 0xFF) in
    let* r2 := imx662_write IMX662_REG_SHR0_H (Z.land (Z.shiftr shr0 16) 0x0F) in
    io_ret (Z.lor (Z.lor ret r1) r2).

(** *** Register tables and gain *)

Definition IMX662_REG_GAIN_L : Z := 0x3070.
Definition IMX662_REG_GAIN_H : Z := 0x3071.
Definition IMX662_REG_DELAY : Z := 0xEEEE.
Definition IMX662_REG_END : Z := 0xFFFF.

(** The [while] loop of [imx662_write_array] from the entry [regarray[i]]
    on, [ret] being the outcome so far; an entry is a [uint16_t] register
    and a [uint8_t] value.  The array carries no length: [None] stands for
    a read past its last entry, which a table without the end marker leads
    to.  The delay of a delay entry is not modelled. *)
Fixpoint write_array_from (regarray : list (Z * Z)) (ret : Z) : io (option Z) :=
  if negb (ret =? ESP_OK) then io_ret (Some ret)
  else
    match regarray with
    | [] => io_ret None
    | (reg, v) :: rest =>
        if u16 reg =? IMX662_REG_END then io_ret (Some ret)
        else if negb (u16 reg =? IMX662_REG_DELAY) then
          let* ret := imx662_write reg v in
          write_array_from rest ret
        else write_array_from rest ret
    end.

(** [static esp_err_t imx662_write_array(esp_sccb_io_handle_t sccb_handle,
    const imx662_reginfo_t *regarray)] *)
Definition imx662_write_array (regarray : list (Z * Z)) : io (option Z) :=
  write_array_from regarray ESP_OK.

(** [static esp_err_t imx662_set_gain(esp_cam_sensor_device_t *dev,
    uint32_t gain)] *)
Definition imx662_set_gain (gain : Z) : io Z :=
  let gain := if u32 gain >? 240 then 240 else u32 gain in
  let* ret := imx662_write IMX662_REG_GAIN_L (Z.land gain 0xFF) in
  if ret =? ESP_OK then
    let* ret := imx662_write IMX662_REG_GAIN_H 0x00 in
    io_ret ret
  else io_ret ret.

End Esp.
(** * Vocabulary of the properties *)

(** A little-endian register group read back as one number. *)
Definition reg16 (b : i2c_bus) (lo hi : Z) : Z :=
  reg_get b lo + 2 ^ 8 * reg_get b hi.

Definition reg24 (b : i2c_bus) (lo mid hi : Z) : Z :=
  reg_get b lo + 2 ^ 8 * reg_get b mid + 2 ^ 16 * reg_get b hi.

(** The same for registers read back one byte at a time. *)
Definition readback24 (b : i2c_bus) (lo mid hi : Z) : Z :=
  u8 (reg_get b lo) + 2 ^ 8 * u8 (reg_get b mid) + 2 ^ 16 * u8 (reg_get b hi).

(** A bus without pending faults over a given register file. *)
Definition bus_of (r : gmap Z Z) : i2c_bus := mk_bus r [] [].

(** [x] forced odd the way the code does it: an even value loses one. *)
Definition odd_below (x : Z) : Z := if Z.even x then x - 1 else x.

(** [x] forced even downwards, as the shutter of the line-interleaved mode
    is: an odd value loses one. *)
Definition even_below (x : Z) : Z := if Z.odd x then x - 1 else x.

(** [x] forced even the way the code does it: an odd value gains one. *)
Definition even_above (x : Z) : Z := if Z.odd x then x + 1 else x.

(** A list of strictly increasing numbers. *)
Fixpoint increasing (l : list Z) : bool :=
  match l with
  | x :: ((y :: _) as tl) => (x <? y) && increasing tl
  | _ => true
  end.

Module MipiSpec.
Import Mipi.

(** The window [l, r] of the search: the target lies between the two
    entries, strictly below the right one unless that is the last entry. *)
Definition brackets (gain l r : Z) : Prop :=
  0 <= l /\ l < r /\ r <= 240 /\ gain_at l <= gain /\
  (gain < gain_at r \/ (r = 240 /\ gain <= gain_at 240)).

(** Which of the two bracketing indices is the closer one. *)
Definition nearest (gain l : Z) : Z :=
  if gain - gain_at l <? gain_at (l + 1) - gain then l else l + 1.

(** The minimum shutter position of the active mode. *)
Definition min_shr0 (s : imx662) : Z :=
  if index (cur_mode s) =? IMX662_CLEAR_INDEX
  then IMX662_MIN_SHR0_CLEAR_LENGTH else IMX662_MIN_SHR0_LENGTH.

(** The timing state as the mode table and [imx662_set_fps] leave it for
    the modes that read one row per line: the integration range reaches up
    to the minimum shutter position and not beyond the frame. *)
Definition timing_consistent (s : imx662) : Prop :=
  let ae := ae_info (cur_mode s) in
  1 <= min_integration_line ae /\
  min_integration_line ae + min_shr0 s <= curr_frm_len_lines ae /\
  curr_frm_len_lines ae - min_shr0 s <= max_integration_line ae /\
  max_integration_line ae <= curr_frm_len_lines ae /\
  curr_frm_len_lines ae < 2 ^ 24.

(** The timing state of the line-interleaved (DOL) mode as the mode table
    and [imx662_set_fps] leave it: the integration range is not empty and
    leaves at least the minimum shutter of twice the frame length. *)
Definition dol_timing_consistent (s : imx662) : Prop :=
  let ae := ae_info (cur_mode s) in
  1 <= min_integration_line ae /\
  min_integration_line ae <= max_integration_line ae /\
  max_integration_line ae + IMX662_MIN_SHR0_LENGTH <= 2 * curr_frm_len_lines ae /\
  2 * curr_frm_len_lines ae < 2 ^ 24.

(** A powered sensor in mode [m] with media bus format [code]. *)
Definition sensor_in (m : vvcam_mode_info_s) (code : Z) : imx662 :=
  mk_sensor 1 code m 0 false IMX662_594_MBPS IMX662_594_MBPS.

End MipiSpec.

Module FrSpec.
Import Fr.

(** The controls of the example states below: value and range as the calls
    of [imx662_init_controls] create them, with the vertical blanking that
    [imx662_set_limits] fixes.  What [imx662_set_limits] further does to
    them at the end of [imx662_init_controls] (the frame-rate range and
    value, the black-level range and value, the exposure range that
    follows from the blanking) is not applied: these are not the controls
    of a device after initialisation, and only examples use them. *)
Definition initial_ctrls (id : ctrl_id) : v4l2_ctrl :=
  match id with
  | V4L2_CID_VBLANK =>
      mk_ctrl IMX662_MIN_FRAME_LENGTH_DELTA IMX662_MIN_FRAME_LENGTH_DELTA
              IMX662_MIN_FRAME_LENGTH_DELTA 1 IMX662_MIN_FRAME_LENGTH_DELTA false
  | V4L2_CID_EXPOSURE => mk_ctrl 0xFF IMX662_MIN_INTEGRATION_LINES 0xFF 1 0xFF false
  | V4L2_CID_FRAME_RATE => mk_ctrl 0xFFFF 1 0xFFFF 1 0xFFFF false
  | V4L2_CID_OPERATION_MODE => mk_ctrl MASTER_MODE MASTER_MODE SLAVE_MODE 1 MASTER_MODE false
  | V4L2_CID_SYNC_MODE => mk_ctrl NO_SYNC NO_SYNC EXTERNAL_SYNC 1 NO_SYNC false
  | V4L2_CID_BLACK_LEVEL => mk_ctrl 0xFF IMX662_BLACK_LEVEL_MIN 0xFF IMX662_BLACK_LEVEL_STEP 0xFF false
  | V4L2_CID_ANALOGUE_GAIN => mk_ctrl 0 0 240 1 0 false
  | V4L2_CID_HFLIP | V4L2_CID_VFLIP => mk_ctrl 0 0 1 1 0 false
  | V4L2_CID_TEST_PATTERN => mk_ctrl 0 0 12 1 0 false
  | V4L2_CID_PIXEL_RATE | V4L2_CID_LINK_FREQ | V4L2_CID_HBLANK => mk_ctrl 0 0 0 1 0 false
  end.

(** An example state: a device in mode [m] with media bus format [code],
    on a direct (not link-aggregated) connection; [powered] is the usage
    counter of runtime power management, [on] whether the device is
    streaming.  The line time is the one of [imx662_set_limits]; the frame
    length is the height plus the minimum blanking, which is what
    [imx662_set_limits] computes for the modes without binning (for the
    binning mode it takes twice the height). *)
Definition sensor_in (m : imx662_mode) (code powered : Z) (on : bool) : imx662 :=
  mk_sensor code initial_ctrls
            ((hmax m * IMX662_G_FACTOR) / IMX662_XCLK_FREQ)
            (height m + IMX662_MIN_FRAME_LENGTH_DELTA)
            false m on 0 (mk_link [] []) powered 0.

(** [modes_12bit[0]] and [modes_10bit[0]] *)
Definition mode_12bit_full : imx662_mode :=
  mk_mode IMX662_DEFAULT_WIDTH IMX662_DEFAULT_HEIGHT _IMX662_LINK_FREQ_594
          144000000 1000000 0x3DE mode_1920x1080 raw12_framefmt_regs.

Definition mode_10bit_full : imx662_mode :=
  mk_mode IMX662_DEFAULT_WIDTH IMX662_DEFAULT_HEIGHT _IMX662_LINK_FREQ_720
          216000000 1000000 0x294 mode_1920x1080 raw10_framefmt_regs.

End FrSpec.

(** ** Vocabulary for the table writes and fault scripts *)

Module MipiTableSpec.
Import Mipi.

(** Messages sent in order, each with the retries of
    [imx662_i2c_transfer], up to the first one that fails. *)
Fixpoint send_msgs (msgs : list (list Z)) : io Z :=
  match msgs with
  | [] => io_ret 0
  | m :: rest =>
      let* ret := imx662_i2c_transfer m in
      if ret <? 0 then io_ret ret else send_msgs rest
  end.

(** The register writes that one message stands for: the data byte number
    [k] goes to the 16-bit address of the message plus [k]. *)
Fixpoint data_entries (a : Z) (data : list Z) : list (Z * Z) :=
  match data with
  | [] => []
  | d :: rest => (u16 a, d) :: data_entries (a + 1) rest
  end.

Definition msg_entries (m : list Z) : list (Z * Z) :=
  match m with
  | hi :: lo :: data => data_entries (Z.shiftl hi 8 + lo) data
  | _ => []
  end.

(** A table entry as the sensor sees it: 16 address bits, 8 data bits. *)
Definition entry16 (e : Z * Z) : Z * Z := (u16 (fst e), Z.land (snd e) 0xff).

(** The registers of [entries] written one after the other. *)
Definition store_entries (entries : list (Z * Z)) (b : i2c_bus) : i2c_bus :=
  fold_left (fun b e => reg_store b (fst e) (snd e)) entries b.

End MipiTableSpec.

Module MipiFaultSpec.

(** What the bus answers to one register write of imx662_mipi.c with its
    retries: the sends that fail and, unless all ten fail, the send that
    is acknowledged. *)
Inductive attempt : Type :=
  | Acked (errs : list Z) (ok : Z)
  | Lost (errs : list Z).

(** The outcomes that an attempt takes from the script of the bus. *)
Definition attempt_script (a : attempt) : list Z :=
  match a with
  | Acked errs ok => errs ++ [ok]
  | Lost errs => errs
  end.

Definition attempt_valid (a : attempt) : Prop :=
  match a with
  | Acked errs ok => Forall (fun e => e < 0) errs /\ (length errs < 10)%nat /\ 0 <= ok
  | Lost errs => Forall (fun e => e < 0) errs /\ length errs = 10%nat
  end.

(** The write reached the sensor. *)
Definition reached (a : attempt) : bool :=
  match a with
  | Acked _ _ => true
  | Lost _ => false
  end.

(** The error of the last send of a lost write. *)
Definition attempt_result (a : attempt) : Z :=
  match a with
  | Acked _ _ => 0
  | Lost errs => List.last errs 0
  end.

(** Of the writes [ws], attempted in order under [atts], those that reached
    the sensor. *)
Fixpoint landed (atts : list attempt) (ws : list (Z * Z)) : list (Z * Z) :=
  match atts, ws with
  | a :: atts', w :: ws' =>
      if reached a then w :: landed atts' ws' else landed atts' ws'
  | _, _ => []
  end.

(** The bus after one attempt at the write [w]. *)
Definition land (a : attempt) (w : Z * Z) (b : i2c_bus) : i2c_bus :=
  if reached a then reg_store b (fst w) (snd w) else b.

End MipiFaultSpec.

(** A bus over the register file [r] whose next transfers answer
    [outcomes]. *)
Definition faulty_bus (r : gmap Z Z) (outcomes : list Z) : i2c_bus :=
  mk_bus r [] outcomes.

(** ** Vocabulary for the register access of fr_imx662.c *)

Module FrTableSpec.
Import Fr.

(** A table entry as [imx662_write_table] sends it: 16 address bits and
    the low byte of the value. *)
Definition entry8 (e : Z * Z) : Z * Z := (u16 (fst e), u32 (snd e) mod 256).

(** The [len] low bytes of [v] in reverse order. *)
Fixpoint byte_reverse (len : nat) (v : Z) : Z :=
  match len with
  | O => 0
  | S len' => (v mod 256) * 256 ^ Z.of_nat len' + byte_reverse len' (v / 256)
  end.

(** The last value that [entries] hold for the address [a]. *)
Definition last_entry (entries : list (Z * Z)) (a : Z) : option Z :=
  option_map snd (find (fun e => fst e =? a) (rev entries)).

(** The register writes of [imx662_set_mode] in a device state [st], in
    the order of the calls. *)
Definition set_mode_entries (st : imx662) : list (Z * Z) :=
  map entry8 mode_common_regs ++
  map entry8 (reg_list (mode st)) ++
  map entry8 (reg_list_format (mode st)) ++
  [ (REGHOLD, 1);
    (HMAX_LOW, u32 (hmax (mode st)) mod 256);
    (HMAX_LOW + 1, u32 (hmax (mode st)) / 256 mod 256);
    (REGHOLD, 0);
    (DATARATE_SEL, if linkfreq (mode st) =? _IMX662_LINK_FREQ_720 then 0x06 else 0x07);
    (XVS_XHS_DRV,
     if (val (ctrls st V4L2_CID_OPERATION_MODE) =? MASTER_MODE) &&
        (val (ctrls st V4L2_CID_SYNC_MODE) =? INTERNAL_SYNC)
     then 0x0 else 0xF) ].

End FrTableSpec.

Module FrPowerSpec.
Import Fr.

(** What the control and mode code leaves alone: the usage counter of
    runtime power management, the streaming flag and the kind of
    connection. *)
Definition keeps_power (st st' : imx662) : Prop :=
  pm_usage st' = pm_usage st /\ streaming st' = streaming st /\
  gmsl st' = gmsl st.

(** A call that answers 0 and leaves the bus without faults. *)
Definition runs_clean {A : Type} (r : (Z * A) * i2c_bus) : Prop :=
  fst (fst r) = 0 /\ healthy (snd r).

End FrPowerSpec.
(** ** Vocabulary for the register tables of components/imx662/imx662.c *)

Module EspTableSpec.
Import Esp.

(** A table entry as the sensor sees it. *)
Definition entry (e : Z * Z) : Z * Z := (u16 (fst e), u8 (snd e)).

Definition is_end (e : Z * Z) : bool := u16 (fst e) =? IMX662_REG_END.
Definition is_delay (e : Z * Z) : bool := u16 (fst e) =? IMX662_REG_DELAY.

End EspTableSpec.
(** * Properties *)


(** ** Arithmetic of machine integers and bytes *)

Section Arith.

Lemma u32_small (z : Z) : 0 <= z < 2 ^ 32 -> u32 z = z.
Proof. intros H. unfold u32. apply Z.mod_small. exact H. Qed.

Lemma truthy_mod2 (r : Z) : truthy (r mod 2) = Z.odd r.
Proof.
  unfold truthy. rewrite Zmod_odd. destruct (Z.odd r); reflexivity.
Qed.

Lemma u8_range (z : Z) : 0 <= u8 z < 256.
Proof. unfold u8. apply Z.mod_pos_bound. lia. Qed.

Lemma odd_below_bounds (x : Z) : x - 1 <= odd_below x <= x.
Proof. unfold odd_below. destruct (Z.even x); lia. Qed.

Lemma land_255 (x : Z) : Z.land x 255 = x mod 256.
Proof. change 255 with (Z.ones 8). rewrite Z.land_ones by lia. reflexivity. Qed.

Lemma byte0 (x : Z) : u8 (Z.land x 255) = x mod 256.
Proof. unfold u8. rewrite land_255. change (2 ^ 8) with 256. apply Z.mod_mod. lia. Qed.

Lemma byte1 (x : Z) : u8 (Z.land (Z.shiftr x 8) 255) = (x / 256) mod 256.
Proof. rewrite byte0. rewrite Z.shiftr_div_pow2 by lia. reflexivity. Qed.

Lemma byte2 (x : Z) : u8 (Z.land (Z.shiftr x 16) 255) = (x / 65536) mod 256.
Proof. rewrite byte0. rewrite Z.shiftr_div_pow2 by lia. reflexivity. Qed.

Lemma bytes24 (x : Z) :
  0 <= x < 2 ^ 24 ->
  x mod 256 + 2 ^ 8 * ((x / 256) mod 256) + 2 ^ 16 * ((x / 65536) mod 256) = x.
Proof. intros H. Z.div_mod_to_equations. lia. Qed.

Lemma bytes16 (x : Z) :
  0 <= x < 2 ^ 16 -> x mod 256 + 2 ^ 8 * ((x / 256) mod 256) = x.
Proof. intros H. Z.div_mod_to_equations. lia. Qed.

Lemma even_above_spec (x : Z) :
  Z.even (even_above x) = true /\ x <= even_above x <= x + 1.
Proof.
  unfold even_above. destruct (Z.odd x) eqn:Hodd.
  - split; [|lia]. rewrite Z.even_add, <- Z.negb_odd, Hodd. reflexivity.
  - split; [|lia]. rewrite <- Z.negb_odd, Hodd. reflexivity.
Qed.

Lemma bytes24_mod (x : Z) :
  0 <= x ->
  x mod 256 + 2 ^ 8 * ((x / 256) mod 256) + 2 ^ 16 * ((x / 65536) mod 256) = x mod 2 ^ 24.
Proof. intros H. Z.div_mod_to_equations. lia. Qed.

Lemma u8_idem (x : Z) : u8 (u8 x) = u8 x.
Proof. unfold u8. apply Z.mod_mod. lia. Qed.

Lemma land_255_u8 (x : Z) : Z.land (u8 x) 255 = u8 x.
Proof. rewrite land_255. unfold u8. change (2 ^ 8) with 256. apply Z.mod_mod. lia. Qed.

Lemma clamp_to_range_in (v lo hi : Z) : lo <= hi -> lo <= clamp_to_range v lo hi <= hi.
Proof.
  intros H. unfold clamp_to_range.
  destruct (v <? lo) eqn:H1; [lia|]. destruct (v >? hi) eqn:H2; lia.
Qed.

End Arith.
(** ** Gain table lookup (imx662_mipi.c) *)

Section GainLookup.
Import Mipi MipiSpec.

Lemma increasing_nth (l : list Z) :
  increasing l = true ->
  forall i j : nat, (i < j)%nat -> (j < length l)%nat -> nth i l 0 < nth j l 0.
Proof.
  induction l as [|x tl IH]; intros Hinc i j Hij Hj; [simpl in Hj; lia|].
  destruct tl as [|y tl']; [simpl in Hj; lia|].
  simpl in Hinc. apply andb_true_iff in Hinc as [Hxy Htl].
  apply Z.ltb_lt in Hxy.
  assert (Hhead : forall k : nat, (k < length (y :: tl'))%nat -> x < nth k (y :: tl') 0).
  { intros k Hk. destruct k as [|k]; [exact Hxy|].
    assert (nth 0 (y :: tl') 0 < nth (S k) (y :: tl') 0)
      by (apply IH; [exact Htl | lia | exact Hk]).
    simpl in *. lia. }
  destruct j as [|j]; [lia|].
  destruct i as [|i].
  - simpl nth at 1. change (nth (S j) (x :: y :: tl') 0) with (nth j (y :: tl') 0).
    apply Hhead. simpl in *. lia.
  - change (nth i (y :: tl') 0 < nth j (y :: tl') 0).
    apply IH; [exact Htl | lia | simpl in *; lia].
Qed.

Lemma gain_table_increasing : increasing gain_reg2times = true.
Proof. vm_compute. reflexivity. Qed.

Lemma gain_at_lt (i j : Z) : 0 <= i -> i < j -> j <= 240 -> gain_at i < gain_at j.
Proof.
  intros Hi Hij Hj. unfold gain_at.
  apply increasing_nth; [exact gain_table_increasing | lia |].
  change (length gain_reg2times) with 241%nat. lia.
Qed.

Lemma gain_at_le (i j : Z) : 0 <= i -> i <= j -> j <= 240 -> gain_at i <= gain_at j.
Proof.
  intros Hi Hij Hj. destruct (Z.eq_dec i j) as [->|Hne]; [lia|].
  apply Z.lt_le_incl, gain_at_lt; lia.
Qed.

(** With fuel for every index of the window the loop leaves through its
    condition, with two adjacent indices that still bracket the target. *)
Lemma gain_search_adjacent (fuel : nat) (gain : Z) :
  forall l r : Z,
    brackets gain l r -> r - l <= Z.of_nat fuel ->
    exists l', gain_search fuel gain l r = (l', l' + 1) /\ brackets gain l' (l' + 1).
Proof.
  induction fuel as [|fuel IH]; intros l r Hb Hfuel.
  - destruct Hb as (? & ? & ?). lia.
  - pose proof Hb as (Hl & Hlr & Hr & Hlo & Hhi).
    simpl gain_search. rewrite (u32_small (l + 1)) by lia.
    destruct (l + 1 <? r) eqn:Hc.
    + apply Z.ltb_lt in Hc. rewrite (u32_small (l + r)) by lia.
      assert (Hmid : l < (l + r) / 2 < r) by (Z.div_mod_to_equations; lia).
      destruct (gain_at ((l + r) / 2) >? gain) eqn:Hg.
      * apply IH; [|lia]. unfold brackets. repeat split; try lia.
      * apply IH; [|lia]. unfold brackets. repeat split; try lia.
    + apply Z.ltb_ge in Hc. assert (r = l + 1) as -> by lia.
      exists l. split; [reflexivity | exact Hb].
Qed.

Lemma get_gain_reg_in_range (gain : Z) :
  gain_at 0 <= gain <= gain_at 240 ->
  exists l, brackets gain l (l + 1) /\ imx662_get_gain_reg gain = nearest gain l.
Proof.
  intros [Hlo Hhi]. unfold imx662_get_gain_reg.
  change (IMX662_GAIN_REG_LEN - 1) with 240.
  destruct (gain <? gain_at 0) eqn:H0; [apply Z.ltb_lt in H0; lia|].
  destruct (gain >? gain_at 240) eqn:H1;
    [rewrite Z.gtb_ltb in H1; apply Z.ltb_lt in H1; lia|].
  destruct (gain_search_adjacent (Z.to_nat IMX662_GAIN_REG_LEN) gain 0 240)
    as (l & Hs & Hb).
  { unfold brackets. repeat split; try lia. }
  { vm_compute. discriminate. }
  rewrite Hs. exists l. split; [exact Hb|].
  destruct Hb as (Hl & _ & Hr & Hgl & Hgr).
  assert (gain <= gain_at (l + 1)).
  { destruct Hgr as [?|[-> ?]]; lia. }
  assert (gain_at (l + 1) <= gain_at 240) by (apply gain_at_le; lia).
  assert (0 <= gain_at l).
  { pose proof (gain_at_le 0 l). change (gain_at 0) with 1024 in *. lia. }
  change (gain_at 240) with 4076617 in *.
  unfold nearest. rewrite !u32_small by lia. reflexivity.
Qed.

Lemma get_gain_reg_below (gain : Z) : gain < gain_at 0 -> imx662_get_gain_reg gain = 0.
Proof.
  intros H. unfold imx662_get_gain_reg.
  destruct (gain <? gain_at 0) eqn:H0; [reflexivity | apply Z.ltb_ge in H0; lia].
Qed.

Lemma get_gain_reg_above (gain : Z) : gain_at 240 < gain -> imx662_get_gain_reg gain = 240.
Proof.
  intros H. unfold imx662_get_gain_reg.
  change (IMX662_GAIN_REG_LEN - 1) with 240.
  destruct (gain <? gain_at 0) eqn:H0.
  { apply Z.ltb_lt in H0. change (gain_at 0) with 1024 in *.
    change (gain_at 240) with 4076617 in *. lia. }
  destruct (gain >? gain_at 240) eqn:H1; [reflexivity|].
  rewrite Z.gtb_ltb in H1. apply Z.ltb_ge in H1. lia.
Qed.

Lemma nearest_range (gain l : Z) :
  brackets gain l (l + 1) -> l <= nearest gain l <= l + 1 /\ 0 <= l /\ l + 1 <= 240.
Proof.
  intros (? & ? & ? & ? & ?). unfold nearest.
  destruct (_ <? _); lia.
Qed.

(** Two targets in table range, in order, resolve to codes in order. *)
Lemma nearest_mono (g1 g2 l1 l2 : Z) :
  g1 <= g2 -> brackets g1 l1 (l1 + 1) -> brackets g2 l2 (l2 + 1) ->
  nearest g1 l1 <= nearest g2 l2.
Proof.
  intros Hg Hb1 Hb2.
  pose proof (nearest_range _ _ Hb1) as (Hn1 & Hl1 & Hr1).
  pose proof (nearest_range _ _ Hb2) as (Hn2 & Hl2 & Hr2).
  destruct Hb1 as (_ & _ & _ & Hlo1 & Hhi1).
  destruct Hb2 as (_ & _ & _ & Hlo2 & Hhi2).
  destruct (Z.lt_trichotomy l1 l2) as [Hlt | [-> | Hgt]].
  - lia.
  - unfold nearest.
    destruct (g1 - gain_at l2 <? gain_at (l2 + 1) - g1) eqn:H1;
      destruct (g2 - gain_at l2 <? gain_at (l2 + 1) - g2) eqn:H2; lia.
  - (* the window of the larger target cannot lie to the left *)
    assert (gain_at (l2 + 1) <= gain_at l1) by (apply gain_at_le; lia).
    destruct Hhi2 as [Hhi2 | [Hhi2 _]]; lia.
Qed.

End GainLookup.

(** C3: the gain-time to register-code lookup is monotonically
    non-decreasing: for all gain-times g1 < g2, in or out of the table's
    range, imx662_get_gain_reg g1 <= imx662_get_gain_reg g2. *)
Theorem gain_lookup_monotone (g1 g2 : Z) :
  g1 < g2 -> Mipi.imx662_get_gain_reg g1 <= Mipi.imx662_get_gain_reg g2.
Proof.
  intros Hlt.
  destruct (Z_lt_le_dec g1 (Mipi.gain_at 0)) as [Hb1 | Hb1].
  { rewrite (get_gain_reg_below g1 Hb1).
    destruct (Z_lt_le_dec g2 (Mipi.gain_at 0)) as [Hb2 | Hb2].
    - rewrite (get_gain_reg_below g2 Hb2). lia.
    - destruct (Z_lt_le_dec (Mipi.gain_at 240) g2) as [Ha2 | Ha2].
      + rewrite (get_gain_reg_above g2 Ha2). lia.
      + destruct (get_gain_reg_in_range g2) as (l2 & Hbr2 & ->); [lia|].
        pose proof (nearest_range _ _ Hbr2). lia. }
  destruct (Z_lt_le_dec (Mipi.gain_at 240) g2) as [Ha2 | Ha2].
  { rewrite (get_gain_reg_above g2 Ha2).
    destruct (Z_lt_le_dec (Mipi.gain_at 240) g1) as [Ha1 | Ha1].
    - rewrite (get_gain_reg_above g1 Ha1). lia.
    - destruct (get_gain_reg_in_range g1) as (l1 & Hbr1 & ->); [lia|].
      pose proof (nearest_range _ _ Hbr1). lia. }
  destruct (get_gain_reg_in_range g1) as (l1 & Hbr1 & ->); [lia|].
  destruct (get_gain_reg_in_range g2) as (l2 & Hbr2 & ->); [lia|].
  apply nearest_mono; [lia | exact Hbr1 | exact Hbr2].
Qed.

Lemma gain_lookup_monotone_witness :
  Mipi.imx662_get_gain_reg 1500 <= Mipi.imx662_get_gain_reg 40000.
Proof. apply (gain_lookup_monotone 1500 40000). lia. Defined.

(** Every exact table entry resolves to its own index. *)
Lemma gain_lookup_table_exact :
  forallb (fun i => Mipi.imx662_get_gain_reg (Mipi.gain_at i) =? i)
          (map Z.of_nat (seq 0 241)) = true.
Proof. vm_compute. reflexivity. Qed.

(** C2, as the code has it: the exact table entry 1024 (0 dB) resolves to
    gain register code 0, and the exact table entry 32382 (30 dB, at 0.3 dB
    per step) resolves to gain register code 100. *)
Theorem gain_lookup_exact_entries :
  Mipi.imx662_get_gain_reg 1024 = 0 /\ Mipi.imx662_get_gain_reg 32382 = 100.
Proof. split; vm_compute; reflexivity. Qed.

(** C2 as stated fails: 32382 does not resolve to code 200. *)
Lemma gain_lookup_30dB_not_200 :
  ~ (Mipi.imx662_get_gain_reg 1024 = 0 /\ Mipi.imx662_get_gain_reg 32382 = 200).
Proof. intros [_ H]. vm_compute in H. discriminate H. Qed.

(** ** Register access on a bus without faults (imx662_mipi.c) *)

Section MipiBus.
Import Mipi MipiSpec.

Lemma healthy_store (b : i2c_bus) (a v : Z) : healthy b -> healthy (reg_store b a v).
Proof. intros H. exact H. Qed.

Lemma transfer_healthy (b : i2c_bus) : healthy b -> i2c_transfer b = (0, b).
Proof. unfold healthy, i2c_transfer. intros ->. reflexivity. Qed.

Lemma write_reg_healthy (reg val : Z) (b : i2c_bus) :
  healthy b -> imx662_write_reg reg val b = (0, reg_store b (u16 reg) (u8 val)).
Proof.
  intros H. unfold imx662_write_reg, io_bind, IMX662_MAX_RETRIES. simpl send_retry.
  rewrite (transfer_healthy b H). reflexivity.
Qed.

Lemma read_reg_healthy (reg old : Z) (b : i2c_bus) :
  healthy b -> imx662_read_reg reg old b = ((0, u8 (reg_get b (u16 reg))), b).
Proof.
  intros H. unfold imx662_read_reg. rewrite !(transfer_healthy b H). reflexivity.
Qed.

Lemma reg_get_store_eq (b : i2c_bus) (a v : Z) : reg_get (reg_store b a v) a = v.
Proof. unfold reg_get, reg_store. simpl. rewrite lookup_insert_eq. reflexivity. Qed.

Lemma reg_get_store_ne (b : i2c_bus) (a a' v : Z) :
  a <> a' -> reg_get (reg_store b a v) a' = reg_get b a'.
Proof.
  intros Hne. unfold reg_get, reg_store. simpl.
  rewrite lookup_insert_ne by exact Hne. reflexivity.
Qed.

End MipiBus.


(** ** Main exposure (imx662_mipi.c) *)

Section MipiExposure.
Import Mipi MipiSpec.

Lemma integration_lines_u32 (s : imx662) (exp wc : Z) :
  0 <= integration_lines s exp wc < 2 ^ 32.
Proof.
  unfold integration_lines, u32.
  destruct (wc =? 0); apply Z.mod_pos_bound; lia.
Qed.

(** On a bus without faults [imx662_set_exp] succeeds and leaves the three
    bytes of the computed shutter in SHR0. *)
Lemma set_exp_healthy (s : imx662) (exp wc : Z) (b : i2c_bus) :
  healthy b ->
  0 <= set_exp_reg_shr0 s exp wc < 2 ^ 24 ->
  exists b',
    imx662_set_exp s exp wc b = (0, b') /\ healthy b' /\
    reg24 b' SHR0_LOW SHR0_MID SHR0_HIGH = set_exp_reg_shr0 s exp wc.
Proof.
  intros Hb Hr. unfold imx662_set_exp, io_bind, io_ret.
  repeat (rewrite write_reg_healthy by (repeat apply healthy_store; exact Hb)).
  eexists. split; [reflexivity|]. split; [repeat apply healthy_store; exact Hb|].
  unfold reg24.
  repeat first
    [ rewrite reg_get_store_eq
    | rewrite reg_get_store_ne by (vm_compute; discriminate) ].
  rewrite byte0, byte1, byte2. apply bytes24. exact Hr.
Qed.

(** The shutter of the modes that read one row per line, from the
    integration-line count of the request. *)
Lemma set_exp_reg_linear (s : imx662) (exp wc : Z) :
  index (cur_mode s) <> IMX662_DOL_INDEX ->
  timing_consistent s ->
  let ae := ae_info (cur_mode s) in
  let itl := integration_lines s exp wc in
  let fl := curr_frm_len_lines ae in
  (itl < min_integration_line ae ->
   set_exp_reg_shr0 s exp wc = fl - min_integration_line ae) /\
  (fl - min_shr0 s < itl -> set_exp_reg_shr0 s exp wc = min_shr0 s) /\
  (min_integration_line ae <= itl <= fl - min_shr0 s ->
   set_exp_reg_shr0 s exp wc = fl - itl).
Proof.
  intros Hdol (Hmin & Hfit & Hmax & Hfl & Hfl24) ae itl fl.
  pose proof (integration_lines_u32 s exp wc) as Hitl.
  fold itl in Hitl. fold ae in Hmin, Hfit, Hmax, Hfl, Hfl24. fold fl in Hfit, Hmax, Hfl, Hfl24.
  assert (Hms : 4 <= min_shr0 s <= 8).
  { unfold min_shr0, IMX662_MIN_SHR0_CLEAR_LENGTH, IMX662_MIN_SHR0_LENGTH.
    destruct (_ =? _); lia. }
  unfold set_exp_reg_shr0. fold ae. fold itl. fold fl. fold (min_shr0 s).
  destruct (index (cur_mode s) =? IMX662_DOL_INDEX) eqn:Hd;
    [apply Z.eqb_eq in Hd; contradiction|].
  unfold IMX662_MIN_INTEGRATION_LINES.
  assert (H232 : 2 ^ 24 < 2 ^ 32) by lia.
  rewrite (u32_small (fl - 1)) by lia.
  repeat split; intros Hcase;
    destruct (itl >? max_integration_line ae) eqn:H1;
    destruct (_ <? min_integration_line ae) eqn:H2; try lia;
    rewrite u32_small by lia;
    destruct (_ >? fl - 1) eqn:H3; lia.
Qed.

(** The shutter of the line-interleaved mode: twice the frame length less
    the clamped integration-line count, forced even downwards. *)
Lemma set_exp_reg_dol (s : imx662) (exp wc : Z) :
  index (cur_mode s) = IMX662_DOL_INDEX ->
  dol_timing_consistent s ->
  let ae := ae_info (cur_mode s) in
  let itl := integration_lines s exp wc in
  let fl := curr_frm_len_lines ae in
  (itl < min_integration_line ae ->
   set_exp_reg_shr0 s exp wc = even_below (2 * fl - min_integration_line ae)) /\
  (max_integration_line ae < itl ->
   set_exp_reg_shr0 s exp wc = even_below (2 * fl - max_integration_line ae)) /\
  (min_integration_line ae <= itl <= max_integration_line ae ->
   set_exp_reg_shr0 s exp wc = even_below (2 * fl - itl)).
Proof.
  intros Hdol (Hmin & Hrange & Hmax & Hfl24) ae itl fl.
  pose proof (integration_lines_u32 s exp wc) as Hitl.
  fold itl in Hitl. fold ae in Hmin, Hrange, Hmax, Hfl24. fold fl in Hmax, Hfl24.
  unfold set_exp_reg_shr0. fold ae. fold itl. fold fl.
  rewrite Hdol. change (IMX662_DOL_INDEX =? IMX662_DOL_INDEX) with true.
  change (IMX662_DOL_INDEX =? IMX662_CLEAR_INDEX) with false. cbv iota.
  unfold IMX662_MIN_INTEGRATION_LINES, IMX662_MIN_SHR0_LENGTH in *.
  assert (H232 : 2 ^ 24 < 2 ^ 32) by lia.
  rewrite (u32_small (2 * fl - 1)) by lia.
  assert (Hstep : forall t, min_integration_line ae <= t <= max_integration_line ae ->
            Z.max 4
              (if (if truthy (u32 (2 * fl - t) mod 2)
                   then u32 (u32 (2 * fl - t) - 1) else u32 (2 * fl - t)) >? 2 * fl - 1
               then 2 * fl - 1
               else if truthy (u32 (2 * fl - t) mod 2)
                    then u32 (u32 (2 * fl - t) - 1) else u32 (2 * fl - t))
            = even_below (2 * fl - t)).
  { intros t Ht. rewrite (u32_small (2 * fl - t)) by lia.
    rewrite truthy_mod2. unfold even_below.
    destruct (Z.odd (2 * fl - t)) eqn:Hodd.
    - rewrite u32_small by lia.
      assert (2 * fl - t <> 4).
      { intros Heq. rewrite Heq in Hodd. discriminate Hodd. }
      destruct (_ >? _) eqn:H3; lia.
    - destruct (_ >? _) eqn:H3; lia. }
  repeat split; intros Hcase;
    destruct (itl >? max_integration_line ae) eqn:H1;
    destruct (_ <? min_integration_line ae) eqn:H2; try lia;
    apply Hstep; lia.
Qed.

(** Every mode of the table that reads one row per line starts out with a
    consistent timing state. *)
Lemma mode_table_timing_consistent (m : vvcam_mode_info_s) (code : Z) :
  In m pimx662_mode_info -> index m <> IMX662_DOL_INDEX ->
  timing_consistent (sensor_in m code).
Proof.
  intros Hin Hdol. simpl in Hin.
  destruct Hin as [<-|[<-|[<-|[<-|[<-|[<-|[]]]]]]];
    try (exfalso; apply Hdol; reflexivity);
    unfold timing_consistent; vm_compute; repeat split; discriminate.
Qed.

Lemma mode_table_dol_timing_consistent (code : Z) :
  dol_timing_consistent (sensor_in dol_mode code).
Proof. unfold dol_timing_consistent. vm_compute. repeat split; discriminate. Qed.

End MipiExposure.


(** ** Sub-exposure placement (imx662_mipi.c) *)

Section MipiVsExposure.
Import Mipi MipiSpec.

Lemma get_exp_register_healthy (b : i2c_bus) :
  healthy b ->
  imx662_get_exp_register b = ((0, readback24 b SHR0_LOW SHR0_MID SHR0_HIGH), b).
Proof.
  intros Hb. unfold imx662_get_exp_register, io_bind, io_ret.
  rewrite !(read_reg_healthy _ _ b Hb).
  change (u16 SHR0_HIGH) with SHR0_HIGH.
  change (u16 SHR0_MID) with SHR0_MID.
  change (u16 SHR0_LOW) with SHR0_LOW.
  unfold readback24.
  pose proof (u8_range (reg_get b SHR0_HIGH)).
  pose proof (u8_range (reg_get b SHR0_MID)).
  pose proof (u8_range (reg_get b SHR0_LOW)).
  rewrite !Z.shiftl_mul_pow2 by lia.
  rewrite (u32_small (u8 (reg_get b SHR0_HIGH) * 2 ^ 8 + _)) by lia.
  rewrite u32_small by lia.
  do 2 f_equal. lia.
Qed.

Lemma readback24_range (b : i2c_bus) (lo mid hi : Z) : 0 <= readback24 b lo mid hi < 2 ^ 24.
Proof.
  unfold readback24.
  pose proof (u8_range (reg_get b lo)). pose proof (u8_range (reg_get b mid)).
  pose proof (u8_range (reg_get b hi)). lia.
Qed.

(** The offset written for a shutter [S] of at least 10 lines and a clamped
    target [t] of at most 2229 lines. *)
Lemma set_vs_exp_reg_rhs1_spec (S t : Z) :
  10 <= S < 2 ^ 24 -> 0 <= t <= 2229 ->
  set_vs_exp_reg_rhs1 S t = if t + 5 <? S - 5 then odd_below (t + 5) else S - 5.
Proof.
  intros HS Ht. unfold set_vs_exp_reg_rhs1.
  unfold IMX662_MIN_SHR1_LENGTH, IMX662_MIN_SHR0_RHS1_DIST, IMX662_BRL.
  rewrite (u32_small (S - 5)) by lia.
  rewrite (u32_small (t + 5)) by lia.
  rewrite truthy_mod2. unfold odd_below. rewrite <- Z.negb_odd.
  assert (Hodd : Z.odd (t + 5) = false -> 1 <= t + 5) by lia.
  destruct (S <=? Z.max (2 * 1120 - 1) (S - 5)) eqn:H1.
  - rewrite (u32_small (S - 5 - 5)) by lia.
    destruct (S - 5 - 5 >? t) eqn:H2; destruct (t + 5 <? S - 5) eqn:H3; try lia.
    destruct (Z.odd (t + 5)); [reflexivity | simpl; apply u32_small; lia].
  - rewrite (u32_small (Z.max _ _ - 5)) by lia.
    destruct (Z.max (2 * 1120 - 1) (S - 5) - 5 >? t) eqn:H2;
      destruct (t + 5 <? S - 5) eqn:H3; try lia.
    destruct (Z.odd (t + 5)); [reflexivity | simpl; apply u32_small; lia].
Qed.

Lemma vs_integration_lines_range (s : imx662) (exp wc : Z) :
  0 <= min_vsintegration_line (ae_info (cur_mode s)) ->
  0 <= max_vsintegration_line (ae_info (cur_mode s)) ->
  0 <= vs_integration_lines s exp wc <= max_vsintegration_line (ae_info (cur_mode s)).
Proof.
  intros Hmin Hmax. unfold vs_integration_lines.
  pose proof (integration_lines_u32 s exp wc).
  destruct (integration_lines s exp wc <? _) eqn:H1;
    destruct (_ >? max_vsintegration_line _) eqn:H2; lia.
Qed.

End MipiVsExposure.

(** C4, as the code has it: in imx662_set_vs_exp, for every main shutter
    value S of at least 10 lines read back from SHR0 and every sub-exposure
    request whose clamped integration target t is at most 2229 lines (the
    mode table limits it to 66), the offset R written to RHS1 is t + 5
    forced odd (an even value loses one) when t + 5 < S - 5, and S - 5
    otherwise.  Hence R <= S - 5 and R - 5 <= t (a target that exceeds what
    the offset allows is narrowed to it), the sub-shutter SHR1 is 5, and R
    stays below 2 x base_row_count - 1, which bounds only an intermediate
    value. *)
Theorem set_vs_exp_offset (s : Mipi.imx662) (exp wc : Z) (b : i2c_bus) :
  healthy b ->
  10 <= readback24 b Mipi.SHR0_LOW Mipi.SHR0_MID Mipi.SHR0_HIGH ->
  0 <= Mipi.min_vsintegration_line (Mipi.ae_info (Mipi.cur_mode s)) ->
  0 <= Mipi.max_vsintegration_line (Mipi.ae_info (Mipi.cur_mode s)) <= 2229 ->
  exists b',
    Mipi.imx662_set_vs_exp s exp wc b = (0, b') /\
    let S := readback24 b Mipi.SHR0_LOW Mipi.SHR0_MID Mipi.SHR0_HIGH in
    let t := Mipi.vs_integration_lines s exp wc in
    let R := reg24 b' Mipi.RHS1_LOW Mipi.RHS1_MID Mipi.RHS1_HIGH in
    R = (if t + 5 <? S - 5 then odd_below (t + 5) else S - 5) /\
    R <= S - Mipi.IMX662_MIN_SHR0_RHS1_DIST /\
    R - Mipi.IMX662_MIN_SHR1_LENGTH <= t /\
    R < 2 * Mipi.IMX662_BRL - 1 /\
    reg_get b' Mipi.SHR1_LOW = Mipi.IMX662_MIN_SHR1_LENGTH.
Proof.
  intros Hb HS Hmin Hmax.
  pose proof (readback24_range b Mipi.SHR0_LOW Mipi.SHR0_MID Mipi.SHR0_HIGH) as HS24.
  pose proof (vs_integration_lines_range s exp wc Hmin (proj1 Hmax)) as Ht.
  set (S := readback24 b Mipi.SHR0_LOW Mipi.SHR0_MID Mipi.SHR0_HIGH) in *.
  set (t := Mipi.vs_integration_lines s exp wc) in *.
  assert (Hspec := set_vs_exp_reg_rhs1_spec S t ltac:(lia) ltac:(lia)).
  pose proof (odd_below_bounds (t + 5)) as Hob.
  assert (HR : 0 <= Mipi.set_vs_exp_reg_rhs1 S t < 2 ^ 24).
  { rewrite Hspec. destruct (t + 5 <? S - 5) eqn:H; lia. }
  unfold Mipi.imx662_set_vs_exp, io_bind, io_ret.
  rewrite (get_exp_register_healthy b Hb). fold S.
  change (0 <? 0) with false. cbv beta iota. fold t.
  repeat (rewrite write_reg_healthy by (repeat apply healthy_store; exact Hb)).
  eexists. split; [reflexivity|]. cbv zeta.
  unfold reg24.
  repeat first
    [ rewrite reg_get_store_eq
    | rewrite reg_get_store_ne by (vm_compute; discriminate) ].
  rewrite byte0, byte1, byte2, (bytes24 _ HR), Hspec.
  unfold Mipi.IMX662_MIN_SHR0_RHS1_DIST, Mipi.IMX662_MIN_SHR1_LENGTH, Mipi.IMX662_BRL.
  split; [reflexivity|].
  destruct (t + 5 <? S - 5) eqn:H; repeat split; try lia; reflexivity.
Qed.

Lemma set_vs_exp_offset_witness :
  exists b',
    Mipi.imx662_set_vs_exp (MipiSpec.sensor_in Mipi.dol_mode MEDIA_BUS_FMT_SRGGB12_1X12)
      133 1 (bus_of (<[Mipi.SHR0_LOW := 0x60]> (<[Mipi.SHR0_MID := 0x09]> ∅))) = (0, b') /\
    reg24 b' Mipi.RHS1_LOW Mipi.RHS1_MID Mipi.RHS1_HIGH = 13.
Proof.
  destruct (set_vs_exp_offset
              (MipiSpec.sensor_in Mipi.dol_mode MEDIA_BUS_FMT_SRGGB12_1X12) 133 1
              (bus_of (<[Mipi.SHR0_LOW := 0x60]> (<[Mipi.SHR0_MID := 0x09]> ∅))))
    as (b' & Hrun & HR & _).
  - reflexivity.
  - vm_compute. discriminate.
  - vm_compute. discriminate.
  - vm_compute. split; discriminate.
  - exists b'. split; [exact Hrun | exact HR].
Defined.

(** C4 as stated fails: with the main shutter at 2400 lines in the
    line-interleaved mode of the mode table, a sub-exposure request of nine
    lines programs the offset 13, far below 2 x base_row_count - 1 = 2239. *)
Lemma set_vs_exp_counterexample :
  let s := MipiSpec.sensor_in Mipi.dol_mode MEDIA_BUS_FMT_SRGGB12_1X12 in
  let b := bus_of (<[Mipi.SHR0_LOW := 0x60]> (<[Mipi.SHR0_MID := 0x09]> ∅)) in
  let R := reg24 (snd (Mipi.imx662_set_vs_exp s 133 1 b))
                 Mipi.RHS1_LOW Mipi.RHS1_MID Mipi.RHS1_HIGH in
  readback24 b Mipi.SHR0_LOW Mipi.SHR0_MID Mipi.SHR0_HIGH = 2400 /\
  R = 13 /\
  ~ (R <= 2400 - 5 /\ R >= 2 * Mipi.IMX662_BRL - 1).
Proof.
  vm_compute. split; [reflexivity|]. split; [reflexivity|].
  intros [_ H]. apply H. reflexivity.
Qed.

(** ** Data rate, line length and frame rate (imx662_mipi.c) *)

(** One step of a computation on a bus without faults. *)
Ltac bus_step Hb :=
  first
    [ rewrite write_reg_healthy by (repeat apply healthy_store; exact Hb)
    | rewrite read_reg_healthy by (repeat apply healthy_store; exact Hb)
    | rewrite reg_get_store_eq
    | rewrite reg_get_store_ne by (vm_compute; discriminate) ].

(** Running straight-line bus code on a bus without faults. *)
Ltac bus_run Hb :=
  unfold io_bind, io_ret;
  repeat first
    [ bus_step Hb
    | progress cbv beta iota
    | progress change (0 <? 0) with false ].

Section MipiTiming.
Import Mipi MipiSpec.

Lemma change_data_rate_supported (s : imx662) (dr : Z) (b : i2c_bus) :
  healthy b ->
  (dr = IMX662_594_MBPS \/ (dr = IMX662_720_MBPS /\ u8 (reg_get b ADDMODE) <> 1)) ->
  exists b',
    imx662_change_data_rate s dr b = ((0, s), b') /\ healthy b' /\
    reg_get b' DATARATE_SEL = dr /\ reg_get b' ADDMODE = reg_get b ADDMODE.
Proof.
  intros Hb Hdr. unfold imx662_change_data_rate.
  assert (Hu8 : u8 dr = dr) by (destruct Hdr as [->|[-> _]]; reflexivity).
  rewrite Hu8.
  assert (Hsup :
    (if u8 (reg_get b ADDMODE) =? IMX662_BINNING_MODE
     then negb (dr =? IMX662_594_MBPS)
     else negb (dr =? IMX662_720_MBPS) && negb (dr =? IMX662_594_MBPS)) = false).
  { destruct (u8 (reg_get b ADDMODE) =? IMX662_BINNING_MODE) eqn:Hbin.
    - destruct Hdr as [->|[-> Hne]]; [reflexivity|].
      apply Z.eqb_eq in Hbin. contradiction.
    - destruct Hdr as [->|[-> _]]; reflexivity. }
  bus_run Hb.
  destruct (u8 (reg_get b (u16 LANEMODE)) =? IMX662_TWO_LANE_MODE).
  - bus_run Hb. change (u16 ADDMODE) with ADDMODE. rewrite Hsup.
    bus_run Hb. eexists. split; [reflexivity|].
    split; [repeat apply healthy_store; exact Hb|].
    split; bus_run Hb; [exact Hu8 | reflexivity].
  - bus_run Hb. change (u16 ADDMODE) with ADDMODE. rewrite Hsup.
    bus_run Hb. eexists. split; [reflexivity|].
    split; [repeat apply healthy_store; exact Hb|].
    split; bus_run Hb; [exact Hu8 | reflexivity].
Qed.

(** The line length that [imx662_adjust_hmax_register] selects. *)
Lemma adjust_hmax_register_healthy (s : imx662) (b : i2c_bus) (hmax : Z) :
  healthy b ->
  (if u8 (reg_get b DATARATE_SEL) =? IMX662_720_MBPS then Some 660
   else if u8 (reg_get b DATARATE_SEL) =? IMX662_594_MBPS
        then Some (if truthy (u8 (reg_get b ADDMODE)) then 660 else 990)
        else None) = Some hmax ->
  exists b',
    imx662_adjust_hmax_register s b =
      ((0, set_one_line_exp_time_ns s (u32 ((hmax * IMX662_G_FACTOR) / IMX662_INCK))), b') /\
    healthy b' /\
    reg16 b' HMAX_LOW HMAX_HIGH = hmax /\
    reg_get b' DATARATE_SEL = reg_get b DATARATE_SEL.
Proof.
  intros Hb Hsel. unfold imx662_adjust_hmax_register.
  bus_run Hb.
  change (u16 DATARATE_SEL) with DATARATE_SEL. change (u16 ADDMODE) with ADDMODE.
  assert (Hnot : truthy (Z.lnot (u8 (reg_get b ADDMODE))) = true).
  { pose proof (u8_range (reg_get b ADDMODE)). unfold truthy, Z.lnot.
    destruct (Z.pred (- u8 (reg_get b ADDMODE)) =? 0) eqn:H0; [|reflexivity].
    apply Z.eqb_eq in H0. unfold Z.pred in H0. lia. }
  rewrite Hnot, andb_true_r.
  assert (Hh : hmax = 660 \/ hmax = 990).
  { destruct (_ =? IMX662_720_MBPS); [injection Hsel; lia|].
    destruct (_ =? IMX662_594_MBPS); [|discriminate].
    destruct (truthy _); injection Hsel; lia. }
  rewrite Hsel.
  bus_run Hb.
  change (truthy (Z.lor (Z.lor (Z.lor 0 0) 0) 0)) with false. cbv iota.
  eexists. split; [reflexivity|].
  split; [repeat apply healthy_store; exact Hb|].
  unfold reg16. repeat bus_step Hb.
  split; [|reflexivity].
  destruct Hh as [-> | ->]; reflexivity.
Qed.

End MipiTiming.

(** C7: for every combination of the support matrix (594 Mbps non-binned,
    594 Mbps binned, 720 Mbps non-binned; a two-lane setting is first
    switched to four lanes) imx662_set_data_rate programs the data rate and
    the documented line length into HMAX: 990 ticks for 594 Mbps non-binned,
    660 ticks for 594 Mbps binned, 660 ticks for 720 Mbps non-binned; the
    line time becomes hmax x 10^9 / 74250000 ns. *)
Theorem set_data_rate_line_length (s : Mipi.imx662) (dr binning : Z) (b : i2c_bus) :
  healthy b ->
  u8 (reg_get b Mipi.ADDMODE) = binning ->
  (dr = Mipi.IMX662_594_MBPS /\ binning = 0) \/
  (dr = Mipi.IMX662_594_MBPS /\ binning = Mipi.IMX662_BINNING_MODE) \/
  (dr = Mipi.IMX662_720_MBPS /\ binning = 0) ->
  exists b' s',
    Mipi.imx662_set_data_rate s dr b = ((0, s'), b') /\
    let hmax :=
      if dr =? Mipi.IMX662_720_MBPS then 660
      else if binning =? Mipi.IMX662_BINNING_MODE then 660 else 990 in
    reg16 b' Mipi.HMAX_LOW Mipi.HMAX_HIGH = hmax /\
    reg_get b' Mipi.DATARATE_SEL = dr /\
    Mipi.one_line_exp_time_ns (Mipi.ae_info (Mipi.cur_mode s')) =
      hmax * 10 ^ 9 / Mipi.IMX662_INCK.
Proof.
  intros Hb Hbin Hcombo.
  destruct (change_data_rate_supported s dr b Hb) as (b1 & Hrun1 & Hb1 & Hdr1 & Hadd1).
  { rewrite Hbin. unfold Mipi.IMX662_BINNING_MODE in Hcombo.
    destruct Hcombo as [[-> _]|[[-> _]|[-> ->]]]; [left|left|right]; try reflexivity.
    split; [reflexivity | discriminate]. }
  set (hmax := if dr =? Mipi.IMX662_720_MBPS then 660
               else if binning =? Mipi.IMX662_BINNING_MODE then 660 else 990).
  destruct (adjust_hmax_register_healthy s b1 hmax Hb1) as (b2 & Hrun2 & _ & Hh & Hdr2).
  { rewrite Hdr1, Hadd1, Hbin. unfold hmax.
    destruct Hcombo as [[-> ->]|[[-> ->]|[-> ->]]]; reflexivity. }
  exists b2. eexists.
  unfold Mipi.imx662_set_data_rate, io_bind, io_ret.
  rewrite Hrun1.
  repeat first [progress cbv beta iota | progress change (0 <? 0) with false].
  rewrite Hrun2. split; [reflexivity|]. cbv zeta. fold hmax.
  split; [exact Hh|]. split; [rewrite Hdr2; exact Hdr1|].
  unfold hmax.
  destruct Hcombo as [[-> ->]|[[-> ->]|[-> ->]]]; reflexivity.
Qed.

Lemma set_data_rate_line_length_witness :
  exists b' s',
    Mipi.imx662_set_data_rate
      (MipiSpec.sensor_in (Mipi.linear_mode 0 Mipi.IMX662_LINE_TIME_H990 30 60)
                          MEDIA_BUS_FMT_SRGGB12_1X12)
      Mipi.IMX662_720_MBPS (bus_of ∅) = ((0, s'), b') /\
    reg16 b' Mipi.HMAX_LOW Mipi.HMAX_HIGH = 660 /\
    Mipi.one_line_exp_time_ns (Mipi.ae_info (Mipi.cur_mode s')) = 8888.
Proof.
  destruct (set_data_rate_line_length
              (MipiSpec.sensor_in (Mipi.linear_mode 0 Mipi.IMX662_LINE_TIME_H990 30 60)
                                  MEDIA_BUS_FMT_SRGGB12_1X12)
              Mipi.IMX662_720_MBPS 0 (bus_of ∅))
    as (b' & s' & Hrun & Hh & _ & Hline).
  - reflexivity.
  - reflexivity.
  - right. right. split; reflexivity.
  - exists b', s'. split; [exact Hrun|]. split; [exact Hh | exact Hline].
Defined.

(** ** Frame rate to frame length (imx662_mipi.c, fr_imx662.c) *)

Section FrameRate.

Lemma set_fps_quotient_range (s : Mipi.imx662) (fps : Z) :
  0 <= Mipi.set_fps_quotient s fps <= 10 ^ 9.
Proof.
  unfold Mipi.set_fps_quotient, Mipi.IMX662_G_FACTOR.
  set (d := u32 (_ * _)).
  assert (Hd : 0 <= d) by (unfold d, u32; apply Z.mod_pos_bound; lia).
  assert (0 <= 1000000000 / d <= 10 ^ 9).
  { destruct (Z.eq_dec d 0) as [->|Hne]; [rewrite Z.div_0_r; lia|].
    split; [apply Z.div_pos; lia|].
    apply Z.div_le_upper_bound; nia. }
  rewrite u32_small; lia.
Qed.

Lemma set_fps_reg_spec (s : Mipi.imx662) (fps wc : Z) :
  let q := Mipi.set_fps_quotient s (Mipi.set_fps_clamped s fps wc) in
  Mipi.set_fps_reg s fps wc =
    even_above (if Mipi.index (Mipi.cur_mode s) =? Mipi.IMX662_DOL_INDEX then q / 2 else q).
Proof.
  intros q. unfold Mipi.set_fps_reg. fold q.
  pose proof (set_fps_quotient_range s (Mipi.set_fps_clamped s fps wc)) as Hq. fold q in Hq.
  set (base := if _ =? _ then q / 2 else q).
  assert (Hbase : 0 <= base <= 10 ^ 9).
  { unfold base. destruct (_ =? _); [|lia]. Z.div_mod_to_equations. lia. }
  rewrite truthy_mod2. unfold even_above.
  destruct (Z.odd base); [apply u32_small; lia | reflexivity].
Qed.

(** No control called back by the framework touches the frame length. *)
Lemma fr_apply_ctrl_frame_length (st : Fr.imx662) (id : Fr.ctrl_id) (b : i2c_bus) :
  Fr.frame_length (snd (fst (Fr.apply_ctrl st id b))) = Fr.frame_length st.
Proof.
  unfold Fr.apply_ctrl, Fr.pm_runtime_get_if_in_use, io_bind, io_ret.
  destruct (Fr.pm_usage st >? 0); [|reflexivity].
  change (1 =? 0) with false; cbv beta iota.
  destruct id; try reflexivity;
    match goal with
    | |- context [let '(_, _) := ?c b in _] => destruct (c b)
    end; reflexivity.
Qed.

Lemma fr_put_ctrl_frame_length (st : Fr.imx662) (id : Fr.ctrl_id) (c : v4l2_ctrl) :
  Fr.frame_length (Fr.put_ctrl st id c) = Fr.frame_length st.
Proof. reflexivity. Qed.

Lemma fr_modify_range_frame_length
    (cb : Fr.imx662 -> Fr.ctrl_id -> io (Z * Fr.imx662))
    (st : Fr.imx662) (id : Fr.ctrl_id) (min max step def : Z) (b : i2c_bus) :
  (forall s i b0, Fr.frame_length (snd (fst (cb s i b0))) = Fr.frame_length s) ->
  Fr.frame_length (fst (Fr.__v4l2_ctrl_modify_range cb st id min max step def b)) =
  Fr.frame_length st.
Proof.
  intros Hcb. unfold Fr.__v4l2_ctrl_modify_range, io_bind, io_ret.
  destruct (_ =? _); [reflexivity|].
  match goal with
  | |- context [cb ?s ?i b] =>
      pose proof (Hcb s i b) as H; destruct (cb s i b) as [[r s'] b']
  end.
  simpl in *. rewrite H. reflexivity.
Qed.

Lemma fr_s_ctrl_frame_length
    (cb : Fr.imx662 -> Fr.ctrl_id -> io (Z * Fr.imx662))
    (st : Fr.imx662) (id : Fr.ctrl_id) (v : Z) (b : i2c_bus) :
  (forall s i b0, Fr.frame_length (snd (fst (cb s i b0))) = Fr.frame_length s) ->
  Fr.frame_length (snd (fst (Fr.__v4l2_ctrl_s_ctrl cb st id v b))) = Fr.frame_length st.
Proof.
  intros Hcb. unfold Fr.__v4l2_ctrl_s_ctrl, io_ret.
  destruct (_ =? _); [reflexivity|].
  rewrite Hcb. reflexivity.
Qed.

Lemma fr_set_ctrl_vblank_frame_length (st : Fr.imx662) (b : i2c_bus) :
  Fr.frame_length (snd (fst (Fr.set_ctrl_vblank st b))) = Fr.frame_length st.
Proof.
  unfold Fr.set_ctrl_vblank, io_bind.
  pose proof (fr_modify_range_frame_length Fr.apply_ctrl st Fr.V4L2_CID_EXPOSURE
                Fr.IMX662_MIN_INTEGRATION_LINES (Fr.exposure_max st) 1
                (Fr.exposure_max st) b fr_apply_ctrl_frame_length) as H1.
  fold (Fr.imx662_adjust_exposure_range st) in H1.
  destruct (Fr.imx662_adjust_exposure_range st b) as [st1 b1]. simpl in H1.
  rewrite fr_apply_ctrl_frame_length. exact H1.
Qed.

Lemma fr_update_frame_rate_frame_length (st : Fr.imx662) (v : Z) (b : i2c_bus) :
  Fr.frame_length (fst (Fr.imx662_update_frame_rate st v b)) =
  Fr.update_frame_rate_length st v.
Proof.
  unfold Fr.imx662_update_frame_rate, io_bind, io_ret.
  set (st0 := Fr.set_frame_length st (Fr.update_frame_rate_length st v)).
  set (uv := u32 (Fr.frame_length st0 - Fr.height (Fr.mode st0))).
  set (cb := fun (s : Fr.imx662) (_ : Fr.ctrl_id) => Fr.set_ctrl_vblank s).
  assert (Hcb : forall s i b0, Fr.frame_length (snd (fst (cb s i b0))) = Fr.frame_length s)
    by (intros; apply fr_set_ctrl_vblank_frame_length).
  pose proof (fr_modify_range_frame_length cb st0 Fr.V4L2_CID_VBLANK uv uv 1 uv b Hcb) as H1.
  destruct (Fr.__v4l2_ctrl_modify_range cb st0 Fr.V4L2_CID_VBLANK uv uv 1 uv b) as [st1 b1].
  pose proof (fr_s_ctrl_frame_length cb st1 Fr.V4L2_CID_VBLANK uv b1 Hcb) as H2.
  destruct (Fr.__v4l2_ctrl_s_ctrl cb st1 Fr.V4L2_CID_VBLANK uv b1) as [[r st2] b2].
  simpl in *. rewrite H2, H1. reflexivity.
Qed.

(** On a bus without faults [imx662_set_fps] stores the frame length it
    computed and leaves its low 24 bits in VMAX. *)
Lemma set_fps_healthy (s : Mipi.imx662) (fps wc : Z) (b : i2c_bus) :
  healthy b ->
  exists b' s',
    Mipi.imx662_set_fps s fps wc b = ((0, s'), b') /\
    Mipi.curr_frm_len_lines (Mipi.ae_info (Mipi.cur_mode s')) = Mipi.set_fps_reg s fps wc /\
    Mipi.cur_fps (Mipi.ae_info (Mipi.cur_mode s')) = Mipi.set_fps_clamped s fps wc /\
    Mipi.index (Mipi.cur_mode s') = Mipi.index (Mipi.cur_mode s) /\
    reg24 b' Mipi.VMAX_LOW Mipi.VMAX_MID Mipi.VMAX_HIGH = Mipi.set_fps_reg s fps wc mod 2 ^ 24.
Proof.
  intros Hb. unfold Mipi.imx662_set_fps.
  bus_run Hb. change (Z.lor (Z.lor (Z.lor (Z.lor 0 0) 0) 0) 0 <? 0) with false.
  cbv iota. do 2 eexists. split; [reflexivity|].
  split; [reflexivity|]. split; [reflexivity|]. split; [reflexivity|].
  unfold reg24. bus_run Hb.
  rewrite !land_255_u8, !u8_idem, byte0.
  unfold u8. change (2 ^ 8) with 256.
  rewrite !Z.shiftr_div_pow2 by lia.
  apply bytes24_mod.
  rewrite set_fps_reg_spec.
  match goal with |- 0 <= even_above ?x => pose proof (even_above_spec x) as [_ Hx] end.
  pose proof (set_fps_quotient_range s (Mipi.set_fps_clamped s fps wc)) as Hq.
  destruct (_ =? _); [|lia].
  assert (0 <= Mipi.set_fps_quotient s (Mipi.set_fps_clamped s fps wc) / 2)
    by (apply Z.div_pos; lia).
  lia.
Qed.

(** A frame-rate change keeps the timing state of the modes that read one
    row per line consistent: the integration range then ends at the frame
    length minus the minimum integration. *)
Lemma set_fps_timing_consistent (s : Mipi.imx662) (fps wc : Z) (b : i2c_bus) :
  healthy b ->
  Mipi.index (Mipi.cur_mode s) <> Mipi.IMX662_DOL_INDEX ->
  1 <= Mipi.min_integration_line (Mipi.ae_info (Mipi.cur_mode s)) <= MipiSpec.min_shr0 s ->
  Mipi.min_integration_line (Mipi.ae_info (Mipi.cur_mode s)) + MipiSpec.min_shr0 s
    <= Mipi.set_fps_reg s fps wc < 2 ^ 24 ->
  MipiSpec.timing_consistent (snd (fst (Mipi.imx662_set_fps s fps wc b))).
Proof.
  intros Hb Hdol Hmin Hreg. unfold Mipi.imx662_set_fps.
  bus_run Hb. change (Z.lor (Z.lor (Z.lor (Z.lor 0 0) 0) 0) 0 <? 0) with false.
  cbv iota.
  destruct (Mipi.index (Mipi.cur_mode s) =? Mipi.IMX662_DOL_INDEX) eqn:Hd;
    [apply Z.eqb_eq in Hd; contradiction|].
  unfold MipiSpec.timing_consistent, MipiSpec.min_shr0 in *. simpl.
  assert (Hmax : u32 (Mipi.set_fps_reg s fps wc
                      - Mipi.min_integration_line (Mipi.ae_info (Mipi.cur_mode s)))
                 = Mipi.set_fps_reg s fps wc
                   - Mipi.min_integration_line (Mipi.ae_info (Mipi.cur_mode s))).
  { apply u32_small.
    destruct (Mipi.index (Mipi.cur_mode s) =? Mipi.IMX662_CLEAR_INDEX);
      unfold Mipi.IMX662_MIN_SHR0_CLEAR_LENGTH, Mipi.IMX662_MIN_SHR0_LENGTH in *; lia. }
  destruct (Mipi.index (Mipi.cur_mode s) =? Mipi.IMX662_CLEAR_INDEX);
    rewrite Hmax; repeat split; lia.
Qed.

End FrameRate.

(** C6: for every requested frame rate (after the clamp to the mode's frame
    rate range), the frame length that imx662_set_fps computes as
    10^9 / (fps x line_time_ns) is forced to the nearest even value that is
    not smaller (an odd result gains one); in the line-interleaved (DOL) HDR
    mode the quotient is halved before the parity adjustment; the result is
    stored as the current frame length and written to VMAX.  In
    fr_imx662.c, imx662_update_frame_rate forces its quotient
    10^15 / (fps x line_time) even in the same way. *)
Theorem frame_length_forced_even
    (s : Mipi.imx662) (fps wc : Z) (b : i2c_bus)
    (st : Fr.imx662) (v : Z) (bf : i2c_bus) :
  let d := u32 (Z.shiftr (Mipi.set_fps_clamped s fps wc) 10 *
                Mipi.one_line_exp_time_ns (Mipi.ae_info (Mipi.cur_mode s))) in
  let df := u64 (u64 v * Fr.line_time st) in
  healthy b ->
  0 < d ->
  0 < df ->
  10 ^ 15 / df < 2 ^ 32 - 1 ->
  (exists b' s',
     Mipi.imx662_set_fps s fps wc b = ((0, s'), b') /\
     let q := 10 ^ 9 / d in
     let vmax :=
       even_above (if Mipi.index (Mipi.cur_mode s) =? Mipi.IMX662_DOL_INDEX
                   then q / 2 else q) in
     Mipi.curr_frm_len_lines (Mipi.ae_info (Mipi.cur_mode s')) = vmax /\
     reg24 b' Mipi.VMAX_LOW Mipi.VMAX_MID Mipi.VMAX_HIGH = vmax mod 2 ^ 24 /\
     Z.even vmax = true) /\
  Fr.frame_length (fst (Fr.imx662_update_frame_rate st v bf)) = even_above (10 ^ 15 / df) /\
  Z.even (even_above (10 ^ 15 / df)) = true.
Proof.
  intros d df Hb Hd Hdf Hfit.
  split.
  - destruct (set_fps_healthy s fps wc b Hb) as (b' & s' & Hrun & Hfl & _ & _ & Hregs).
    exists b', s'. split; [exact Hrun|].
    assert (Hq : Mipi.set_fps_quotient s (Mipi.set_fps_clamped s fps wc) = 10 ^ 9 / d).
    { pose proof (set_fps_quotient_range s (Mipi.set_fps_clamped s fps wc)) as Hr.
      unfold Mipi.set_fps_quotient in *. fold d in Hr |- *.
      unfold Mipi.IMX662_G_FACTOR in *. unfold u32 in Hr |- *.
      change (10 ^ 9) with 1000000000.
      apply Z.mod_small. split; [apply Z.div_pos; lia|].
      assert (1000000000 / d <= 1000000000) by (apply Z.div_le_upper_bound; nia).
      lia. }
    cbv zeta. rewrite Hfl, Hregs, set_fps_reg_spec. cbv zeta. rewrite Hq.
    split; [reflexivity|]. split; [reflexivity|].
    apply even_above_spec.
  - rewrite fr_update_frame_rate_frame_length.
    split; [|apply even_above_spec].
    unfold Fr.update_frame_rate_length, Fr.update_frame_rate_quotient.
    fold df. unfold Fr.IMX662_M_FACTOR, Fr.IMX662_G_FACTOR.
    change (1000000 * 1000000000) with (10 ^ 15).
    assert (0 <= 10 ^ 15 / df) by (apply Z.div_pos; lia).
    rewrite (u32_small (10 ^ 15 / df)) by lia.
    rewrite truthy_mod2. unfold even_above.
    destruct (Z.odd (10 ^ 15 / df)); [apply u32_small; lia | reflexivity].
Qed.

Lemma frame_length_forced_even_witness :
  (exists b' s',
     Mipi.imx662_set_fps
       (MipiSpec.sensor_in (Mipi.linear_mode 0 Mipi.IMX662_LINE_TIME_H990 30 60)
                           MEDIA_BUS_FMT_SRGGB12_1X12)
       16 1 (bus_of ∅) = ((0, s'), b') /\
     Mipi.curr_frm_len_lines (Mipi.ae_info (Mipi.cur_mode s')) = 4688) /\
  Fr.frame_length
    (fst (Fr.imx662_update_frame_rate
            (FrSpec.sensor_in FrSpec.mode_12bit_full MEDIA_BUS_FMT_SRGGB12_1X12 0 false)
            59930095 (bus_of ∅))) = 1252.
Proof.
  destruct (frame_length_forced_even
              (MipiSpec.sensor_in (Mipi.linear_mode 0 Mipi.IMX662_LINE_TIME_H990 30 60)
                                  MEDIA_BUS_FMT_SRGGB12_1X12)
              16 1 (bus_of ∅)
              (FrSpec.sensor_in FrSpec.mode_12bit_full MEDIA_BUS_FMT_SRGGB12_1X12 0 false)
              59930095 (bus_of ∅))
    as ((b' & s' & Hrun & Hfl & _) & Hfr & _).
  - reflexivity.
  - reflexivity.
  - reflexivity.
  - reflexivity.
  - split; [exists b', s'; split; [exact Hrun | rewrite Hfl; reflexivity]
           | rewrite Hfr; reflexivity].
Defined.

(** ** Black level (imx662_mipi.c, fr_imx662.c) *)

Section BlackLevel.

Lemma fr_store_le_healthy (n : nat) (a v : Z) (b : i2c_bus) :
  healthy b -> healthy (Fr.store_le n a v b).
Proof.
  revert a v b. induction n as [|n IH]; intros a v b Hb; [exact Hb|].
  simpl. apply IH. apply healthy_store. exact Hb.
Qed.

Lemma fr_write_reg_healthy (reg len v : Z) (b : i2c_bus) :
  healthy b -> 0 <= len <= 4 ->
  Fr.imx662_write_reg reg len v b = (0, Fr.store_le (Z.to_nat len) (u16 reg) (u32 v) b).
Proof.
  intros Hb Hlen. unfold Fr.imx662_write_reg.
  rewrite (u32_small len) by lia.
  destruct (len >? 4) eqn:H; [lia|].
  rewrite (transfer_healthy b Hb). reflexivity.
Qed.

(** On a bus without faults a held write raises the register hold, stores
    the bytes and releases the hold. *)
Lemma fr_write_hold_reg_healthy (reg len v : Z) (b : i2c_bus) :
  healthy b -> 0 <= len <= 4 ->
  Fr.imx662_write_hold_reg reg len v b =
    (0, reg_store (Fr.store_le (Z.to_nat len) (u16 reg) (u32 v)
                               (reg_store b Fr.REGHOLD 1))
                  Fr.REGHOLD 0).
Proof.
  intros Hb Hlen. unfold Fr.imx662_write_hold_reg, io_bind, io_ret.
  rewrite (fr_write_reg_healthy Fr.REGHOLD 1 1 b Hb) by lia.
  cbv beta iota. change (truthy 0) with false. cbv beta iota.
  rewrite fr_write_reg_healthy
    by (try apply fr_store_le_healthy; try apply healthy_store; try exact Hb; lia).
  cbv beta iota. change (truthy 0) with false. cbv beta iota.
  rewrite fr_write_reg_healthy
    by (try apply fr_store_le_healthy; try apply healthy_store; try exact Hb; lia).
  reflexivity.
Qed.

Lemma mipi_set_black_level_healthy (s : Mipi.imx662) (v wc : Z) (b : i2c_bus) :
  healthy b ->
  0 <= Mipi.black_level_reg s v < 2 ^ 16 ->
  exists b',
    Mipi.imx662_set_black_level s v wc b = (0, b') /\
    reg16 b' Mipi.BLKLEVEL_LOW Mipi.BLKLEVEL_HIGH = Mipi.black_level_reg s v.
Proof.
  intros Hb Hr. unfold Mipi.imx662_set_black_level.
  bus_run Hb. change (Z.lor (Z.lor (Z.lor 0 0) 0) 0 <? 0) with false. cbv iota.
  eexists. split; [reflexivity|].
  unfold reg16. bus_run Hb.
  rewrite byte0, byte1. apply bytes16. exact Hr.
Qed.

Lemma fr_set_blklvl_healthy (st : Fr.imx662) (v : Z) (b : i2c_bus) :
  healthy b ->
  0 <= Fr.black_level_reg st v < 2 ^ 16 ->
  exists b',
    Fr.imx662_set_blklvl st v b = (0, b') /\
    reg16 b' Fr.BLKLEVEL_LOW Fr.BLKLEVEL_HIGH = Fr.black_level_reg st v.
Proof.
  intros Hb Hr. unfold Fr.imx662_set_blklvl, io_bind, io_ret.
  rewrite (fr_write_hold_reg_healthy _ _ _ b Hb) by lia.
  eexists. split; [reflexivity|].
  rewrite (u32_small (Fr.black_level_reg st v)) by lia.
  change (Z.to_nat 2) with 2%nat. unfold Fr.store_le, reg16.
  repeat first
    [ rewrite reg_get_store_eq
    | rewrite reg_get_store_ne by (vm_compute; discriminate) ].
  apply bytes16. exact Hr.
Qed.

End BlackLevel.

(** C9, as the code has it: for every black-level request in the 12-bit
    domain, the value written to the black-level register equals the
    requested value unshifted when the active format is 10-bit, and the
    requested value right-shifted by 2 otherwise, in imx662_mipi.c and in
    fr_imx662.c alike. *)
Theorem black_level_register
    (s : Mipi.imx662) (st : Fr.imx662) (v : Z) (b bf : i2c_bus) :
  healthy b -> healthy bf -> 0 <= v <= 4095 ->
  (exists b',
     Mipi.imx662_set_black_level s v 1 b = (0, b') /\
     reg16 b' Mipi.BLKLEVEL_LOW Mipi.BLKLEVEL_HIGH =
       if Mipi.format_code s =? MEDIA_BUS_FMT_SRGGB10_1X10 then v else Z.shiftr v 2) /\
  (exists bf',
     Fr.imx662_set_blklvl st v bf = (0, bf') /\
     reg16 bf' Fr.BLKLEVEL_LOW Fr.BLKLEVEL_HIGH =
       if Fr.fmt_code st =? MEDIA_BUS_FMT_SRGGB10_1X10 then v else Z.shiftr v 2).
Proof.
  intros Hb Hbf Hv.
  assert (Hs : 0 <= Z.shiftr v 2 < 2 ^ 16).
  { rewrite Z.shiftr_div_pow2 by lia. Z.div_mod_to_equations. lia. }
  split.
  - destruct (mipi_set_black_level_healthy s v 1 b Hb) as (b' & Hrun & Hreg).
    { unfold Mipi.black_level_reg. destruct (_ =? _); lia. }
    exists b'. split; [exact Hrun | exact Hreg].
  - assert (Hu : u64 v = v) by (apply Z.mod_small; lia).
    destruct (fr_set_blklvl_healthy st v bf Hbf) as (bf' & Hrun & Hreg).
    { unfold Fr.black_level_reg. rewrite Hu. destruct (_ =? _); lia. }
    exists bf'. split; [exact Hrun|].
    rewrite Hreg. unfold Fr.black_level_reg. rewrite Hu. reflexivity.
Qed.

Lemma black_level_register_witness :
  (exists b',
     Mipi.imx662_set_black_level
       (MipiSpec.sensor_in Mipi.clear_mode MEDIA_BUS_FMT_SRGGB12_1X12) 200 1 (bus_of ∅)
       = (0, b') /\
     reg16 b' Mipi.BLKLEVEL_LOW Mipi.BLKLEVEL_HIGH = 50) /\
  (exists bf',
     Fr.imx662_set_blklvl
       (FrSpec.sensor_in FrSpec.mode_10bit_full MEDIA_BUS_FMT_SRGGB10_1X10 1 false)
       200 (bus_of ∅) = (0, bf') /\
     reg16 bf' Fr.BLKLEVEL_LOW Fr.BLKLEVEL_HIGH = 200).
Proof.
  destruct (black_level_register
              (MipiSpec.sensor_in Mipi.clear_mode MEDIA_BUS_FMT_SRGGB12_1X12)
              (FrSpec.sensor_in FrSpec.mode_10bit_full MEDIA_BUS_FMT_SRGGB10_1X10 1 false)
              200 (bus_of ∅) (bus_of ∅))
    as ((b' & Hrun & Hreg) & (bf' & Hrunf & Hregf)).
  - reflexivity.
  - reflexivity.
  - lia.
  - split; [exists b' | exists bf']; (split; [assumption|]); [exact Hreg | exact Hregf].
Defined.

(** C9 as stated fails: with the 10-bit format active a request of 200 is
    written unshifted (200, not 200 >> 2 = 50), and with the 12-bit format
    active it is written shifted (50, not 200). *)
Lemma black_level_counterexample :
  let s10 := MipiSpec.sensor_in Mipi.clear_mode MEDIA_BUS_FMT_SRGGB10_1X10 in
  let s12 := MipiSpec.sensor_in Mipi.clear_mode MEDIA_BUS_FMT_SRGGB12_1X12 in
  let written s :=
    reg16 (snd (Mipi.imx662_set_black_level s 200 1 (bus_of ∅)))
          Mipi.BLKLEVEL_LOW Mipi.BLKLEVEL_HIGH in
  written s10 = 200 /\ written s10 <> Z.shiftr 200 2 /\
  written s12 = 50 /\ written s12 <> 200.
Proof. vm_compute. repeat split; discriminate. Qed.

(** ** Shutter clamps (imx662_mipi.c, fr_imx662.c) *)

(** In fr_imx662.c the request arrives in lines, inside the range of the
    exposure control, and the shutter is what is left of the frame. *)
Lemma fr_set_exposure_healthy (st : Fr.imx662) (v : Z) (b : i2c_bus) :
  healthy b ->
  0 <= val (Fr.ctrls st Fr.V4L2_CID_VBLANK) ->
  0 <= Fr.height (Fr.mode st) ->
  val (Fr.ctrls st Fr.V4L2_CID_VBLANK) + Fr.height (Fr.mode st) < 2 ^ 24 ->
  0 <= v <= val (Fr.ctrls st Fr.V4L2_CID_VBLANK) + Fr.height (Fr.mode st) ->
  exists b',
    Fr.imx662_set_exposure st v b = (0, b') /\
    reg24 b' Fr.SHR0_LOW Fr.SHR0_MID Fr.SHR0_HIGH =
      val (Fr.ctrls st Fr.V4L2_CID_VBLANK) + Fr.height (Fr.mode st) - v.
Proof.
  intros Hb Hvb Hh Hfl Hv.
  unfold Fr.imx662_set_exposure, io_bind, io_ret.
  rewrite (fr_write_hold_reg_healthy _ _ _ b Hb) by lia.
  eexists. split; [reflexivity|].
  set (fl := val (Fr.ctrls st Fr.V4L2_CID_VBLANK) + Fr.height (Fr.mode st)) in *.
  assert (Hshr : Fr.set_exposure_shr0 st v = fl - v).
  { unfold Fr.set_exposure_shr0. fold fl. unfold u64, u32.
    rewrite (Z.mod_small fl) by lia. rewrite (Z.mod_small v) by lia.
    apply Z.mod_small. lia. }
  rewrite Hshr. rewrite (u32_small (fl - v)) by lia.
  change (Z.to_nat 3) with 3%nat. unfold Fr.store_le, reg24.
  repeat first
    [ rewrite reg_get_store_eq
    | rewrite reg_get_store_ne by (vm_compute; discriminate) ].
  rewrite Z.div_div by lia. change (256 * 256) with 65536.
  apply bytes24. lia.
Qed.

(** C1, as the code has it: in imx662_mipi.c, in every mode other than the
    line-interleaved (DOL) HDR mode, with a timing state in which the
    integration range reaches up to the minimum shutter position and not
    beyond the frame (as the mode table and imx662_set_fps leave it), the
    shutter written to SHR0 is frame_length - integration_lines with the
    integration-line count clamped to [min_integration_lines,
    frame_length - min_shr0]: every request below the minimum writes
    frame_length - min_integration_lines, every request above
    frame_length - min_shr0 writes min_shr0 (8 in the clear-HDR mode, 4
    otherwise).  In the DOL mode the shutter is counted against twice the
    frame length and forced even downwards: 2 x frame_length - the clamped
    integration-line count, less one when odd.  In fr_imx662.c the request
    is a line count that the exposure control keeps in [1, frame - 4], and
    the shutter written is frame - request, between 4 and frame - 1. *)
Theorem set_exp_shutter_clamps
    (s : Mipi.imx662) (exp wc : Z) (b : i2c_bus)
    (sd : Mipi.imx662) (expd wcd : Z) (bd : i2c_bus)
    (st : Fr.imx662) (v : Z) (bf : i2c_bus) :
  Mipi.index (Mipi.cur_mode s) <> Mipi.IMX662_DOL_INDEX ->
  MipiSpec.timing_consistent s ->
  healthy b ->
  Mipi.index (Mipi.cur_mode sd) = Mipi.IMX662_DOL_INDEX ->
  MipiSpec.dol_timing_consistent sd ->
  healthy bd ->
  healthy bf ->
  0 <= val (Fr.ctrls st Fr.V4L2_CID_VBLANK) ->
  Fr.IMX662_MIN_SHR0_LENGTH <= Fr.height (Fr.mode st) ->
  val (Fr.ctrls st Fr.V4L2_CID_VBLANK) + Fr.height (Fr.mode st) < 2 ^ 24 ->
  Fr.IMX662_MIN_INTEGRATION_LINES <= v <= Fr.exposure_max st ->
  (exists b',
     Mipi.imx662_set_exp s exp wc b = (0, b') /\
     let ae := Mipi.ae_info (Mipi.cur_mode s) in
     let itl := Mipi.integration_lines s exp wc in
     let fl := Mipi.curr_frm_len_lines ae in
     let shr0 := reg24 b' Mipi.SHR0_LOW Mipi.SHR0_MID Mipi.SHR0_HIGH in
     (itl < Mipi.min_integration_line ae -> shr0 = fl - Mipi.min_integration_line ae) /\
     (fl - MipiSpec.min_shr0 s < itl -> shr0 = MipiSpec.min_shr0 s) /\
     (Mipi.min_integration_line ae <= itl <= fl - MipiSpec.min_shr0 s -> shr0 = fl - itl)) /\
  (exists bd',
     Mipi.imx662_set_exp sd expd wcd bd = (0, bd') /\
     let ae := Mipi.ae_info (Mipi.cur_mode sd) in
     let itl := Mipi.integration_lines sd expd wcd in
     let fl := Mipi.curr_frm_len_lines ae in
     let shr0 := reg24 bd' Mipi.SHR0_LOW Mipi.SHR0_MID Mipi.SHR0_HIGH in
     (itl < Mipi.min_integration_line ae ->
      shr0 = even_below (2 * fl - Mipi.min_integration_line ae)) /\
     (Mipi.max_integration_line ae < itl ->
      shr0 = even_below (2 * fl - Mipi.max_integration_line ae)) /\
     (Mipi.min_integration_line ae <= itl <= Mipi.max_integration_line ae ->
      shr0 = even_below (2 * fl - itl))) /\
  (exists bf',
     Fr.imx662_set_exposure st v bf = (0, bf') /\
     let frame := val (Fr.ctrls st Fr.V4L2_CID_VBLANK) + Fr.height (Fr.mode st) in
     let shr0 := reg24 bf' Fr.SHR0_LOW Fr.SHR0_MID Fr.SHR0_HIGH in
     shr0 = frame - v /\
     Fr.IMX662_MIN_SHR0_LENGTH <= shr0 <= frame - Fr.IMX662_MIN_INTEGRATION_LINES).
Proof.
  intros Hdol Hcons Hb Hisdol Hdcons Hbd Hbf Hvb Hh Hframe Hv.
  split; [|split].
  3: {
    unfold Fr.exposure_max, Fr.IMX662_MIN_SHR0_LENGTH,
      Fr.IMX662_MIN_INTEGRATION_LINES in *.
    rewrite u32_small in Hv by lia.
    destruct (fr_set_exposure_healthy st v bf Hbf Hvb) as (bf' & Hrun & Hreg);
      [lia | lia | lia |].
    exists bf'. split; [exact Hrun|]. cbv zeta. rewrite Hreg. lia. }
  2: {
    pose proof (set_exp_reg_dol sd expd wcd Hisdol Hdcons) as (Hlo & Hhi & Hmid).
    pose proof Hdcons as (Hmin & Hrange & Hmax & Hfl24).
    unfold Mipi.IMX662_MIN_SHR0_LENGTH in Hmax.
    assert (Heb : forall x, x - 1 <= even_below x <= x)
      by (intros x; unfold even_below; destruct (Z.odd x); lia).
    assert (Heb4 : forall x, 4 <= x -> 4 <= even_below x).
    { intros x Hx. unfold even_below. destruct (Z.odd x) eqn:Hodd; [|lia].
      assert (x <> 4) by (intros ->; discriminate Hodd). lia. }
    destruct (set_exp_healthy sd expd wcd bd Hbd) as (bd' & Hrun & _ & Hregs).
    { set (itl := Mipi.integration_lines sd expd wcd) in *.
      pose proof (integration_lines_u32 sd expd wcd) as Hitl. fold itl in Hitl.
      destruct (Z_lt_le_dec itl (Mipi.min_integration_line (Mipi.ae_info (Mipi.cur_mode sd))))
        as [H1|H1].
      - rewrite (Hlo H1).
        pose proof (Heb (2 * Mipi.curr_frm_len_lines (Mipi.ae_info (Mipi.cur_mode sd))
                         - Mipi.min_integration_line (Mipi.ae_info (Mipi.cur_mode sd)))).
        pose proof (Heb4 (2 * Mipi.curr_frm_len_lines (Mipi.ae_info (Mipi.cur_mode sd))
                          - Mipi.min_integration_line (Mipi.ae_info (Mipi.cur_mode sd)))).
        lia.
      - destruct (Z_lt_le_dec (Mipi.max_integration_line (Mipi.ae_info (Mipi.cur_mode sd))) itl)
          as [H2|H2].
        + rewrite (Hhi H2).
          pose proof (Heb (2 * Mipi.curr_frm_len_lines (Mipi.ae_info (Mipi.cur_mode sd))
                           - Mipi.max_integration_line (Mipi.ae_info (Mipi.cur_mode sd)))).
          pose proof (Heb4 (2 * Mipi.curr_frm_len_lines (Mipi.ae_info (Mipi.cur_mode sd))
                            - Mipi.max_integration_line (Mipi.ae_info (Mipi.cur_mode sd)))).
          lia.
        + rewrite (Hmid (conj H1 H2)).
          pose proof (Heb (2 * Mipi.curr_frm_len_lines (Mipi.ae_info (Mipi.cur_mode sd)) - itl)).
          pose proof (Heb4 (2 * Mipi.curr_frm_len_lines (Mipi.ae_info (Mipi.cur_mode sd)) - itl)).
          lia. }
    exists bd'. split; [exact Hrun|].
    cbv zeta. rewrite Hregs. repeat split; assumption. }
  pose proof (set_exp_reg_linear s exp wc Hdol Hcons) as (Hlo & Hhi & Hmid).
  pose proof Hcons as (Hmin & Hfit & Hmax & Hfl & Hfl24).
  assert (Hms : 4 <= MipiSpec.min_shr0 s <= 8).
  { unfold MipiSpec.min_shr0, Mipi.IMX662_MIN_SHR0_CLEAR_LENGTH, Mipi.IMX662_MIN_SHR0_LENGTH.
    destruct (_ =? _); lia. }
  destruct (set_exp_healthy s exp wc b Hb) as (b' & Hrun & _ & Hregs).
  { set (itl := Mipi.integration_lines s exp wc) in *.
    destruct (Z_lt_le_dec itl (Mipi.min_integration_line (Mipi.ae_info (Mipi.cur_mode s))))
      as [H1|H1]; [rewrite (Hlo H1); lia|].
    destruct (Z_lt_le_dec
                (Mipi.curr_frm_len_lines (Mipi.ae_info (Mipi.cur_mode s)) - MipiSpec.min_shr0 s)
                itl) as [H2|H2]; [rewrite (Hhi H2); lia|].
    rewrite (Hmid (conj H1 H2)). lia. }
  exists b'. split; [exact Hrun|].
  cbv zeta. rewrite Hregs. repeat split; assumption.
Qed.

Lemma set_exp_shutter_clamps_witness :
  (exists b',
     Mipi.imx662_set_exp (MipiSpec.sensor_in Mipi.clear_mode MEDIA_BUS_FMT_SRGGB12_1X12)
                         40000 1 (bus_of ∅) = (0, b') /\
     reg24 b' Mipi.SHR0_LOW Mipi.SHR0_MID Mipi.SHR0_HIGH = 8) /\
  (exists bd',
     Mipi.imx662_set_exp (MipiSpec.sensor_in Mipi.dol_mode MEDIA_BUS_FMT_SRGGB12_1X12)
                         0 1 (bus_of ∅) = (0, bd') /\
     reg24 bd' Mipi.SHR0_LOW Mipi.SHR0_MID Mipi.SHR0_HIGH = 2498) /\
  (exists bf',
     Fr.imx662_set_exposure
       (FrSpec.sensor_in FrSpec.mode_12bit_full MEDIA_BUS_FMT_SRGGB12_1X12 1 true)
       1146 (bus_of ∅) = (0, bf') /\
     reg24 bf' Fr.SHR0_LOW Fr.SHR0_MID Fr.SHR0_HIGH = 4).
Proof.
  destruct (set_exp_shutter_clamps
              (MipiSpec.sensor_in Mipi.clear_mode MEDIA_BUS_FMT_SRGGB12_1X12)
              40000 1 (bus_of ∅)
              (MipiSpec.sensor_in Mipi.dol_mode MEDIA_BUS_FMT_SRGGB12_1X12)
              0 1 (bus_of ∅)
              (FrSpec.sensor_in FrSpec.mode_12bit_full MEDIA_BUS_FMT_SRGGB12_1X12 1 true)
              1146 (bus_of ∅))
    as ((b' & Hrun & _ & Hhi & _) & (bd' & Hrund & Hlod & _) & (bf' & Hrunf & Hshr & _)).
  - vm_compute. discriminate.
  - unfold MipiSpec.timing_consistent. vm_compute. repeat split; discriminate.
  - reflexivity.
  - reflexivity.
  - unfold MipiSpec.dol_timing_consistent. vm_compute. repeat split; discriminate.
  - reflexivity.
  - reflexivity.
  - vm_compute. discriminate.
  - vm_compute. discriminate.
  - vm_compute. reflexivity.
  - vm_compute. split; discriminate.
  - split; [|split].
    + exists b'. split; [exact Hrun|]. apply Hhi. vm_compute. reflexivity.
    + exists bd'. split; [exact Hrund|]. rewrite Hlod; vm_compute; reflexivity.
    + exists bf'. split; [exact Hrunf | exact Hshr].
Defined.

(** C1 as stated fails in the line-interleaved (DOL) mode of the mode
    table: a request of zero lines is below the minimum, yet the shutter
    written is 2498 and not frame_length - min_integration_lines = 1249; a
    request above the maximum writes 66 and not the minimum shutter 4. *)
Lemma set_exp_dol_counterexample :
  let s := MipiSpec.sensor_in Mipi.dol_mode MEDIA_BUS_FMT_SRGGB12_1X12 in
  let ae := Mipi.ae_info (Mipi.cur_mode s) in
  let shr0 exp :=
    reg24 (snd (Mipi.imx662_set_exp s exp 1 (bus_of ∅)))
          Mipi.SHR0_LOW Mipi.SHR0_MID Mipi.SHR0_HIGH in
  (Mipi.integration_lines s 0 1 < Mipi.min_integration_line ae /\
   shr0 0 = 2498 /\
   shr0 0 <> Mipi.curr_frm_len_lines ae - Mipi.min_integration_line ae) /\
  (Mipi.integration_lines s 40000 1 >
     Mipi.curr_frm_len_lines ae - Mipi.IMX662_MIN_SHR0_LENGTH /\
   shr0 40000 = 66 /\
   shr0 40000 <> Mipi.IMX662_MIN_SHR0_LENGTH).
Proof. vm_compute. repeat split; discriminate. Qed.

(** ** Stream control (fr_imx662.c, imx662_mipi.c) *)



(** The guard is what keeps the bus quiet: the same request on a stopped
    device writes the mode tables and the streaming registers. *)
Lemma set_stream_start_writes :
  let st := FrSpec.sensor_in FrSpec.mode_12bit_full MEDIA_BUS_FMT_SRGGB12_1X12 0 false in
  let '((ret, st'), b') := Fr.imx662_set_stream st 1 (bus_of ∅) in
  ret = 0 /\ Fr.streaming st' = true /\
  reg_get b' Fr.STANDBY = Fr.IMX662_MODE_STREAMING /\
  length (wlog b') = 143%nat.
Proof. vm_compute. repeat split. Qed.


(** ** Vertical blanking and the exposure range (fr_imx662.c, imx662.c) *)

Section Blanking.

(** The hardware part of the control operation leaves the controls alone. *)
Lemma fr_apply_ctrl_ctrls (st : Fr.imx662) (id : Fr.ctrl_id) (b : i2c_bus) :
  Fr.ctrls (snd (fst (Fr.apply_ctrl st id b))) = Fr.ctrls st.
Proof.
  unfold Fr.apply_ctrl, Fr.pm_runtime_get_if_in_use, io_bind, io_ret.
  destruct (Fr.pm_usage st >? 0); [|reflexivity].
  change (1 =? 0) with false; cbv beta iota.
  destruct id; try reflexivity;
    match goal with
    | |- context [let '(_, _) := ?c b in _] => destruct (c b)
    end; reflexivity.
Qed.

(** [imx662_adjust_exposure_range] leaves the exposure control with the new
    range and the held value clamped into it, whatever the bus does. *)
Lemma fr_adjust_exposure_range_ctrl (st : Fr.imx662) (b : i2c_bus) :
  Fr.ctrls (fst (Fr.imx662_adjust_exposure_range st b)) Fr.V4L2_CID_EXPOSURE =
  ctrl_range_update (Fr.ctrls st Fr.V4L2_CID_EXPOSURE)
    Fr.IMX662_MIN_INTEGRATION_LINES (Fr.exposure_max st) 1 (Fr.exposure_max st).
Proof.
  unfold Fr.imx662_adjust_exposure_range, Fr.__v4l2_ctrl_modify_range, io_bind, io_ret.
  destruct (_ =? _); [reflexivity|].
  match goal with
  | |- context [Fr.apply_ctrl ?s ?i b] =>
      pose proof (fr_apply_ctrl_ctrls s i b) as H;
      destruct (Fr.apply_ctrl s i b) as [[r s'] b']
  end.
  simpl in H |- *. rewrite H. reflexivity.
Qed.

Lemma rpi_apply_ctrl_exposure (st : Rpi.imx662) (id : Rpi.ctrl_id) (v : Z) (b : i2c_bus) :
  Rpi.exposure (snd (fst (Rpi.apply_ctrl st id v b))) = Rpi.exposure st.
Proof.
  unfold Rpi.apply_ctrl, Rpi.pm_runtime_get_if_in_use, io_bind, io_ret.
  destruct (Rpi.pm_usage st >? 0); [|reflexivity].
  change (1 =? 0) with false; cbv beta iota.
  destruct id; try reflexivity;
    repeat match goal with
    | |- context [let '(_, _) := ?c b in _] => destruct (c b)
    | |- context [let '(_, _) := ?c ?b0 in _] => destruct (c b0)
    end; reflexivity.
Qed.

(** [imx662_set_ctrl] of imx662.c for the blanking control leaves the
    exposure control with the range computed from the new frame length and
    the held value clamped into it, whatever the bus does. *)
Lemma rpi_set_ctrl_vblank_exposure (sr : Rpi.imx662) (v undef : Z) (br : i2c_bus) :
  let rng :=
    Rpi.calculate_min_max_v4l2_cid_exposure
      (Rpi.HMAX sr) (u32 (u64 (Rpi.height (Rpi.mode sr) + v)))
      (Rpi.min_SHR (Rpi.mode sr)) 0 209 in
  Rpi.exposure (snd (fst (Rpi.imx662_set_ctrl sr Rpi.V4L2_CID_VBLANK v undef br))) =
  ctrl_range_update (Rpi.exposure sr) (fst rng) (snd rng) 1
    (Rpi.clamp_t_u32 undef (fst rng) (snd rng)).
Proof.
  intros rng. unfold Rpi.imx662_set_ctrl, io_bind, io_ret.
  cbv zeta. unfold Rpi.set_timing at 1 2 3 4.
  cbn [Rpi.HMAX Rpi.VMAX Rpi.mode]. fold rng.
  destruct rng as [mn mx]. cbn [fst snd].
  destruct (_ =? _).
  - rewrite rpi_apply_ctrl_exposure. reflexivity.
  - match goal with
    | |- context [Rpi.apply_ctrl ?s Rpi.V4L2_CID_EXPOSURE ?x br] =>
        pose proof (rpi_apply_ctrl_exposure s Rpi.V4L2_CID_EXPOSURE x br) as H;
        destruct (Rpi.apply_ctrl s Rpi.V4L2_CID_EXPOSURE x br) as [[r s1] b1]
    end.
    simpl in H. rewrite rpi_apply_ctrl_exposure, H. reflexivity.
Qed.

End Blanking.

(** C5: every vertical-blanking change recomputes the exposure control's
    range inside the control operation itself, whether the device is
    powered or not and whatever the bus does, and when the operation
    returns the held exposure value lies inside the new range (given that
    the new range is not empty).  In fr_imx662.c the range is
    [1, vblank + height - 4]; in imx662.c it is the pair computed by
    calculate_min_max_v4l2_cid_exposure from the new frame length. *)
Theorem vblank_keeps_exposure_in_range
    (st : Fr.imx662) (b : i2c_bus)
    (sr : Rpi.imx662) (v undef : Z) (br : i2c_bus) :
  let rng :=
    Rpi.calculate_min_max_v4l2_cid_exposure
      (Rpi.HMAX sr) (u32 (u64 (Rpi.height (Rpi.mode sr) + v)))
      (Rpi.min_SHR (Rpi.mode sr)) 0 209 in
  Fr.IMX662_MIN_INTEGRATION_LINES <= Fr.exposure_max st ->
  fst rng <= snd rng ->
  (let st' := snd (fst (Fr.imx662_set_ctrl st Fr.V4L2_CID_VBLANK b)) in
   let e := Fr.ctrls st' Fr.V4L2_CID_EXPOSURE in
   minimum e = Fr.IMX662_MIN_INTEGRATION_LINES /\
   maximum e = u32 (val (Fr.ctrls st Fr.V4L2_CID_VBLANK) + Fr.height (Fr.mode st)
                    - Fr.IMX662_MIN_SHR0_LENGTH) /\
   minimum e <= val e <= maximum e) /\
  (let sr' := snd (fst (Rpi.imx662_set_ctrl sr Rpi.V4L2_CID_VBLANK v undef br)) in
   let e := Rpi.exposure sr' in
   minimum e = fst rng /\ maximum e = snd rng /\
   minimum e <= val e <= maximum e).
Proof.
  intros rng Hfr Hrpi. split.
  - unfold Fr.imx662_set_ctrl, io_bind.
    pose proof (fr_adjust_exposure_range_ctrl st b) as H1.
    destruct (Fr.imx662_adjust_exposure_range st b) as [st1 b1]. simpl in H1.
    cbv zeta. rewrite fr_apply_ctrl_ctrls, H1.
    unfold ctrl_range_update. simpl.
    split; [reflexivity|]. split; [reflexivity|].
    apply clamp_to_range_in. exact Hfr.
  - cbv zeta. rewrite rpi_set_ctrl_vblank_exposure. fold rng.
    unfold ctrl_range_update. simpl.
    split; [reflexivity|]. split; [reflexivity|].
    apply clamp_to_range_in. exact Hrpi.
Qed.

Lemma vblank_keeps_exposure_in_range_witness :
  let st := Fr.put_ctrl
              (FrSpec.sensor_in FrSpec.mode_12bit_full MEDIA_BUS_FMT_SRGGB12_1X12 0 false)
              Fr.V4L2_CID_EXPOSURE (mk_ctrl 2000 1 2000 1 2000 false) in
  let sr := Rpi.mk_sensor (mk_ctrl 5000 52 49865 1 1000 false) Rpi.mode_2k60 990 1250 0 in
  val (Fr.ctrls (snd (fst (Fr.imx662_set_ctrl st Fr.V4L2_CID_VBLANK (bus_of ∅))))
                Fr.V4L2_CID_EXPOSURE) <= 1146 /\
  val (Rpi.exposure
         (snd (fst (Rpi.imx662_set_ctrl sr Rpi.V4L2_CID_VBLANK 150 0 (bus_of ∅))))) <= 1230.
Proof.
  intros st sr.
  destruct (vblank_keeps_exposure_in_range st (bus_of ∅) sr 150 0 (bus_of ∅))
    as ((_ & Hmax & _ & Hle) & (_ & Hmaxr & _ & Hler)).
  - vm_compute. discriminate.
  - vm_compute. discriminate.
  - split.
    + rewrite Hmax in Hle. exact Hle.
    + rewrite Hmaxr in Hler. exact Hler.
Defined.

(** ** Exposure of the ESP-IDF front-end (components/imx662/imx662.c) *)

Section EspExposure.
Import Esp.

Lemma esp_transfer_healthy (b : i2c_bus) : healthy b -> sccb_transfer b = (ESP_OK, b).
Proof. unfold healthy, sccb_transfer. intros ->. reflexivity. Qed.

Lemma esp_read_healthy (reg old : Z) (b : i2c_bus) :
  healthy b -> imx662_read reg old b = ((ESP_OK, u8 (reg_get b (u16 reg))), b).
Proof. intros H. unfold imx662_read. rewrite (esp_transfer_healthy b H). reflexivity. Qed.

Lemma esp_write_healthy (reg data : Z) (b : i2c_bus) :
  healthy b -> imx662_write reg data b = (ESP_OK, reg_store b (u16 reg) (u8 data)).
Proof. intros H. unfold imx662_write. rewrite (esp_transfer_healthy b H). reflexivity. Qed.

(** Three bytes combined with [|] and [<<] are the number they spell. *)
Lemma lor_bytes (l m h : Z) :
  0 <= l < 256 -> 0 <= m < 256 -> 0 <= h < 256 ->
  Z.lor (Z.lor l (Z.shiftl m 8)) (Z.shiftl h 16) = l + 2 ^ 8 * m + 2 ^ 16 * h.
Proof.
  intros Hl Hm Hh.
  rewrite !Z.shiftl_mul_pow2 by lia.
  rewrite <- Z.add_nocarry_lor.
  - rewrite <- Z.add_nocarry_lor; [lia|].
    apply Z.bits_inj'. intros n Hn. rewrite Z.land_spec, Z.bits_0.
    destruct (Z_lt_le_dec n 8).
    + rewrite Z.mul_pow2_bits_low by lia. apply andb_false_r.
    + rewrite (Z.bits_above_log2 l n); [reflexivity | lia |].
      destruct (Z.eq_dec l 0) as [->|]; [simpl; lia|].
      apply Z.log2_lt_pow2; [lia|].
      apply Z.lt_le_trans with (2 ^ 8); [lia|]. apply Z.pow_le_mono_r; lia.
  - apply Z.bits_inj'. intros n Hn. rewrite Z.land_spec, Z.bits_0.
    destruct (Z_lt_le_dec n 16).
    + rewrite (Z.mul_pow2_bits_low h) by lia. apply andb_false_r.
    + assert (Hlm : 0 <= Z.lor l (m * 2 ^ 8) < 2 ^ 16).
      { rewrite <- Z.add_nocarry_lor; [lia|].
        apply Z.bits_inj'. intros k Hk. rewrite Z.land_spec, Z.bits_0.
        destruct (Z_lt_le_dec k 8).
        - rewrite Z.mul_pow2_bits_low by lia. apply andb_false_r.
        - rewrite (Z.bits_above_log2 l k); [reflexivity | lia |].
          destruct (Z.eq_dec l 0) as [->|]; [simpl; lia|].
          apply Z.log2_lt_pow2; [lia|].
          apply Z.lt_le_trans with (2 ^ 8); [lia|]. apply Z.pow_le_mono_r; lia. }
      rewrite (Z.bits_above_log2 (Z.lor l (m * 2 ^ 8)) n); [reflexivity | lia |].
      destruct (Z.eq_dec (Z.lor l (m * 2 ^ 8)) 0) as [->|]; [simpl; lia|].
      apply Z.log2_lt_pow2; [lia|].
      apply Z.lt_le_trans with (2 ^ 16); [lia|]. apply Z.pow_le_mono_r; lia.
Qed.

Lemma land_15 (x : Z) : Z.land x 15 = x mod 16.
Proof. change 15 with (Z.ones 4). rewrite Z.land_ones by lia. reflexivity. Qed.

Lemma bytes20_mod (x : Z) :
  0 <= x ->
  x mod 256 + 2 ^ 8 * ((x / 256) mod 256) + 2 ^ 16 * ((x / 65536) mod 16) = x mod 2 ^ 20.
Proof. intros H. Z.div_mod_to_equations. lia. Qed.

(** On a bus without faults [imx662_set_exposure] reads the frame length
    and leaves the low 20 bits of the floored shutter in SHR0. *)
Lemma esp_set_exposure_healthy (exposure : Z) (b : i2c_bus) :
  healthy b ->
  exists b',
    imx662_set_exposure exposure b = (ESP_OK, b') /\
    reg24 b' IMX662_REG_SHR0_L IMX662_REG_SHR0_M IMX662_REG_SHR0_H =
      set_exposure_shr0
        (readback24 b IMX662_REG_VMAX_L IMX662_REG_VMAX_M IMX662_REG_VMAX_H)
        (u32 exposure) mod 2 ^ 20.
Proof.
  intros Hb. unfold imx662_set_exposure, io_bind, io_ret.
  rewrite !(esp_read_healthy _ _ b Hb).
  change (negb (Z.lor (Z.lor ESP_OK ESP_OK) ESP_OK =? ESP_OK)) with false.
  cbv beta iota.
  change (u16 IMX662_REG_VMAX_L) with IMX662_REG_VMAX_L.
  change (u16 IMX662_REG_VMAX_M) with IMX662_REG_VMAX_M.
  change (u16 IMX662_REG_VMAX_H) with IMX662_REG_VMAX_H.
  pose proof (u8_range (reg_get b IMX662_REG_VMAX_L)) as Hl.
  pose proof (u8_range (reg_get b IMX662_REG_VMAX_M)) as Hm.
  pose proof (u8_range (reg_get b IMX662_REG_VMAX_H)) as Hh.
  rewrite lor_bytes by assumption.
  fold (readback24 b IMX662_REG_VMAX_L IMX662_REG_VMAX_M IMX662_REG_VMAX_H).
  pose proof (readback24_range b IMX662_REG_VMAX_L IMX662_REG_VMAX_M IMX662_REG_VMAX_H) as Hv.
  rewrite (u32_small (readback24 _ _ _ _)) by lia.
  set (shr0 := set_exposure_shr0 _ _).
  assert (Hshr : 0 <= shr0).
  { unfold shr0, set_exposure_shr0. destruct (_ <? 11) eqn:H; [lia|].
    apply Z.ltb_ge in H. lia. }
  repeat (rewrite esp_write_healthy by (repeat apply healthy_store; exact Hb)).
  cbv beta iota.
  eexists. split; [reflexivity|].
  unfold reg24.
  repeat first
    [ rewrite reg_get_store_eq
    | rewrite reg_get_store_ne by (vm_compute; discriminate) ].
  rewrite byte0, byte1.
  unfold u8. rewrite land_15, Z.shiftr_div_pow2 by lia.
  change (2 ^ 8) with 256. change (2 ^ 16) with 65536.
  rewrite (Z.mod_small (_ mod 16) 256) by (Z.div_mod_to_equations; lia).
  apply bytes20_mod. exact Hshr.
Qed.

End EspExposure.

(** C10: imx662_set_exposure of the ESP-IDF front-end, for a frame length
    read back that fits the 20 bits of the sensor's VMAX register (high
    byte at most 0x0F; the register tables of the front-end write 0 there).
    For every request with exposure <= VMAX the three bytes written to SHR0
    spell max(11, VMAX - exposure).  For every request with exposure > VMAX
    the subtraction wraps to 2^32 + VMAX - exposure, and the bytes written
    spell the low 20 bits of that number (of 11 when the number is below
    11): the floor of 11 does not keep the value written at a legal shutter
    position.  It lies beyond the frame length for every such request of at
    most 2^19 lines, and it is 0, below the floor, when the request exceeds
    VMAX by a multiple of 2^20. *)
Theorem esp_set_exposure_written (exposure : Z) (b : i2c_bus) :
  healthy b ->
  0 <= exposure < 2 ^ 32 ->
  readback24 b Esp.IMX662_REG_VMAX_L Esp.IMX662_REG_VMAX_M Esp.IMX662_REG_VMAX_H
    < 2 ^ 20 ->
  exists b',
    Esp.imx662_set_exposure exposure b = (Esp.ESP_OK, b') /\
    let vmax := readback24 b Esp.IMX662_REG_VMAX_L Esp.IMX662_REG_VMAX_M
                           Esp.IMX662_REG_VMAX_H in
    let written := reg24 b' Esp.IMX662_REG_SHR0_L Esp.IMX662_REG_SHR0_M
                         Esp.IMX662_REG_SHR0_H in
    (exposure <= vmax -> written = Z.max 11 (vmax - exposure)) /\
    (vmax < exposure ->
     (vmax - exposure) mod 2 ^ 32 = 2 ^ 32 + vmax - exposure /\
     written = Z.max 11 (2 ^ 32 + vmax - exposure) mod 2 ^ 20 /\
     (exposure <= 2 ^ 19 -> written = 2 ^ 20 + vmax - exposure /\ vmax < written) /\
     ((exposure - vmax) mod 2 ^ 20 = 0 -> written = 0 /\ written < 11)).
Proof.
  intros Hb He Hwidth.
  destruct (esp_set_exposure_healthy exposure b Hb) as (b' & Hrun & Hreg).
  exists b'. split; [exact Hrun|].
  cbv zeta. rewrite Hreg. rewrite (u32_small exposure) by exact He.
  pose proof (readback24_range b Esp.IMX662_REG_VMAX_L Esp.IMX662_REG_VMAX_M
                Esp.IMX662_REG_VMAX_H) as Hv.
  set (vmax := readback24 _ _ _ _) in *.
  assert (Hshr : Esp.set_exposure_shr0 vmax exposure = Z.max 11 ((vmax - exposure) mod 2 ^ 32)).
  { unfold Esp.set_exposure_shr0, u32. destruct (_ <? 11) eqn:H; lia. }
  rewrite Hshr.
  split.
  - intros Hle.
    rewrite (Z.mod_small (vmax - exposure)) by lia.
    apply Z.mod_small. lia.
  - intros Hgt.
    assert (Hwrap : (vmax - exposure) mod 2 ^ 32 = 2 ^ 32 + vmax - exposure).
    { symmetry. apply Z.mod_unique with (q := -1); lia. }
    split; [exact Hwrap|]. rewrite Hwrap.
    split; [reflexivity|]. split.
    + intros H19. rewrite Z.max_r by lia.
      assert ((2 ^ 32 + vmax - exposure) mod 2 ^ 20 = 2 ^ 20 + vmax - exposure).
      { symmetry. apply Z.mod_unique with (q := 2 ^ 12 - 1); lia. }
      lia.
    + intros Hmul.
      apply Z.mod_divide in Hmul; [|lia]. destruct Hmul as [q Hq].
      assert (Hpos : 1 <= q) by nia.
      assert (Hlt : q < 2 ^ 12) by nia.
      rewrite Z.max_r by nia.
      replace (2 ^ 32 + vmax - exposure) with ((2 ^ 12 - q) * 2 ^ 20) by lia.
      rewrite Z.mod_mul by lia. lia.
Qed.

Lemma esp_set_exposure_written_witness :
  exists b',
    Esp.imx662_set_exposure 1000
      (bus_of (<[Esp.IMX662_REG_VMAX_L := 0xE2]> (<[Esp.IMX662_REG_VMAX_M := 0x04]> ∅)))
      = (Esp.ESP_OK, b') /\
    reg24 b' Esp.IMX662_REG_SHR0_L Esp.IMX662_REG_SHR0_M Esp.IMX662_REG_SHR0_H = 250.
Proof.
  destruct (esp_set_exposure_written 1000
              (bus_of (<[Esp.IMX662_REG_VMAX_L := 0xE2]> (<[Esp.IMX662_REG_VMAX_M := 0x04]> ∅))))
    as (b' & Hrun & Hle & _).
  - reflexivity.
  - lia.
  - vm_compute. reflexivity.
  - exists b'. split; [exact Hrun|].
    rewrite Hle; [reflexivity | vm_compute; discriminate].
Defined.

(** ** Register writes on a bus with faults (imx662_mipi.c) *)

Section MipiFaults.
Import Mipi MipiSpec.

Lemma transfer_cases (b : i2c_bus) :
  exists b1, regs b1 = regs b /\ wlog b1 = wlog b /\
    (i2c_transfer b = (0, b1) \/ exists e, e < 0 /\ i2c_transfer b = (e, b1)).
Proof.
  unfold i2c_transfer. destruct (script b) as [|e rest].
  - exists b. auto.
  - exists (mk_bus (regs b) (wlog b) rest). split; [reflexivity|]. split; [reflexivity|].
    destruct (e <? 0) eqn:He; [right; exists e; split; [lia | reflexivity] | left; reflexivity].
Qed.

Lemma send_retry_cases (n : nat) (a v ret : Z) (b : i2c_bus) :
  ret < 0 ->
  exists b1, regs b1 = regs b /\ wlog b1 = wlog b /\
    (send_retry n a v ret b = (0, reg_store b1 a v) \/
     exists e, e < 0 /\ send_retry n a v ret b = (e, b1)).
Proof.
  revert ret b. induction n as [|n IH]; intros ret b Hret.
  - exists b. split; [reflexivity|]. split; [reflexivity|].
    right. exists ret. split; [exact Hret | reflexivity].
  - simpl. destruct (transfer_cases b) as (b1 & Hr & Hw & [Hok | (e & He & Hfail)]).
    + rewrite Hok. change (0 <? 0) with false. cbv iota.
      exists b1. auto.
    + rewrite Hfail. destruct (e <? 0) eqn:Hlt; [|lia].
      destruct (IH e b1 He) as (b2 & Hr2 & Hw2 & Hcases).
      exists b2. split; [congruence|]. split; [congruence|]. exact Hcases.
Qed.

Lemma send_retry_first (n : nat) (a v ret : Z) (b : i2c_bus) :
  exists b1, regs b1 = regs b /\ wlog b1 = wlog b /\
    (send_retry (S n) a v ret b = (0, reg_store b1 a v) \/
     exists e, e < 0 /\ send_retry (S n) a v ret b = (e, b1)).
Proof.
  simpl. destruct (transfer_cases b) as (b1 & Hr & Hw & [Hok | (e & He & Hfail)]).
  - rewrite Hok. change (0 <? 0) with false. cbv iota.
    exists b1. auto.
  - rewrite Hfail. destruct (e <? 0) eqn:Hlt; [|lia].
    destruct (send_retry_cases n a v e b1 He) as (b2 & Hr2 & Hw2 & Hcases).
    exists b2. split; [congruence|]. split; [congruence|]. exact Hcases.
Qed.

(** A register write either lands, or fails after all its retries and
    leaves registers and trace alone. *)
Lemma write_reg_cases (reg val : Z) (b : i2c_bus) :
  exists b1, regs b1 = regs b /\ wlog b1 = wlog b /\
    (imx662_write_reg reg val b = (0, reg_store b1 (u16 reg) (u8 val)) \/
     exists e, e < 0 /\ imx662_write_reg reg val b = (e, b1)).
Proof.
  unfold imx662_write_reg, io_bind, io_ret, IMX662_MAX_RETRIES.
  destruct (send_retry_first 9 (u16 reg) (u8 val) 0 b)
    as (b1 & Hr & Hw & [Hok | (e & He & Hfail)]).
  - rewrite Hok. change (0 <? 0) with false. cbv iota.
    exists b1. auto.
  - rewrite Hfail. destruct (e <? 0) eqn:Hlt; [|lia].
    exists b1. split; [exact Hr|]. split; [exact Hw|].
    right. exists e. auto.
Qed.

Lemma last_cons_default (A : Type) (x : A) (l : list A) (d d' : A) :
  List.last (x :: l) d = List.last (x :: l) d'.
Proof.
  revert x. induction l as [|y l IH]; intros x; [reflexivity|].
  change (List.last (y :: l) d = List.last (y :: l) d'). apply IH.
Qed.

(** The retry loop against a script that starts with [errs], all of them
    failures. *)
Lemma send_retry_script (errs : list Z) :
  forall (n : nat) (a v ret : Z) (b : i2c_bus) (rest : list Z),
  script b = errs ++ rest ->
  Forall (fun e => e < 0) errs ->
  ((length errs < n)%nat ->
   match rest with [] => True | e :: _ => 0 <= e end ->
   send_retry n a v ret b =
     (0, reg_store (mk_bus (regs b) (wlog b) (tl rest)) a v)) /\
  (length errs = n ->
   send_retry n a v ret b = (List.last errs ret, mk_bus (regs b) (wlog b) rest)).
Proof.
  induction errs as [|e errs IH]; intros n a v ret b rest Hs Hneg.
  - simpl in Hs. split.
    + intros Hlen Hrest. destruct n as [|n]; [simpl in Hlen; lia|].
      simpl. unfold i2c_transfer. rewrite Hs.
      destruct rest as [|e rest].
      * change (0 <? 0) with false. cbv iota. unfold reg_store. simpl. rewrite Hs. reflexivity.
      * destruct (e <? 0) eqn:He; [lia|]. change (0 <? 0) with false. reflexivity.
    + intros Hlen. simpl in Hlen. subst n. simpl.
      destruct b as [r w s0]. simpl in *. subst s0. reflexivity.
  - inversion Hneg as [|e0 l0 He Hneg']; subst.
    simpl in Hs. split.
    + intros Hlen Hrest. destruct n as [|n]; [simpl in Hlen; lia|].
      simpl. unfold i2c_transfer. rewrite Hs.
      destruct (e <? 0) eqn:Hlt; [|lia]. rewrite Hlt.
      destruct (IH n a v e (mk_bus (regs b) (wlog b) (errs ++ rest)) rest eq_refl Hneg')
        as [Hok _].
      apply Hok; [simpl in Hlen; lia | exact Hrest].
    + intros Hlen. destruct n as [|n]; [discriminate Hlen|].
      simpl. unfold i2c_transfer. rewrite Hs.
      destruct (e <? 0) eqn:Hlt; [|lia]. rewrite Hlt.
      destruct (IH n a v e (mk_bus (regs b) (wlog b) (errs ++ rest)) rest eq_refl Hneg')
        as [_ Hfail].
      rewrite Hfail by (simpl in Hlen; lia). cbn [regs wlog].
      f_equal. destruct errs as [|z errs]; [reflexivity|].
      change (List.last (e :: z :: errs) ret) with (List.last (z :: errs) ret).
      apply last_cons_default.
Qed.

(** One register write against the outcomes of one attempt: the attempt
    is taken from the script, whatever follows it is left there. *)
Lemma write_reg_attempt (reg val : Z) (a : MipiFaultSpec.attempt)
    (rest : list Z) (b : i2c_bus) :
  script b = MipiFaultSpec.attempt_script a ++ rest ->
  MipiFaultSpec.attempt_valid a ->
  imx662_write_reg reg val b =
    (MipiFaultSpec.attempt_result a,
     MipiFaultSpec.land a (u16 reg, u8 val) (mk_bus (regs b) (wlog b) rest)).
Proof.
  intros Hs Hv. unfold imx662_write_reg, io_bind, io_ret, IMX662_MAX_RETRIES.
  destruct a as [errs ok | errs];
    cbn [MipiFaultSpec.attempt_script MipiFaultSpec.attempt_valid] in Hs, Hv;
    cbn [MipiFaultSpec.attempt_result MipiFaultSpec.land MipiFaultSpec.reached fst snd].
  - destruct Hv as (Hneg & Hlen & Hok). rewrite <- app_assoc in Hs. cbn [app] in Hs.
    destruct (send_retry_script errs 10 (u16 reg) (u8 val) 0 b (ok :: rest) Hs Hneg)
      as [Hrun _].
    rewrite (Hrun Hlen Hok). reflexivity.
  - destruct Hv as (Hneg & Hlen).
    destruct (send_retry_script errs 10 (u16 reg) (u8 val) 0 b rest Hs Hneg)
      as [_ Hrun].
    rewrite (Hrun Hlen).
    assert (Hlast : List.last errs 0 < 0).
    { destruct errs as [|e errs]; [discriminate Hlen|].
      assert (Hin : In (List.last (e :: errs) 0) (e :: errs)).
      { destruct (@List.exists_last _ (e :: errs)) as (l' & x & Heq); [discriminate|].
        rewrite Heq at 1. rewrite Heq at 1. rewrite List.last_last.
        apply in_or_app. right. left. reflexivity. }
      rewrite List.Forall_forall in Hneg. exact (Hneg _ Hin). }
    destruct (List.last errs 0 <? 0) eqn:Hlt; [reflexivity | lia].
Qed.

(** A lost write reports a negative error, a write that landed 0. *)
Lemma attempt_result_sign (a : MipiFaultSpec.attempt) :
  MipiFaultSpec.attempt_valid a ->
  MipiFaultSpec.attempt_result a <= 0 /\
  (MipiFaultSpec.attempt_result a = 0 <-> MipiFaultSpec.reached a = true).
Proof.
  destruct a as [errs ok | errs]; cbn.
  - intros _. split; [lia|]. split; reflexivity.
  - intros (Hneg & Hlen).
    assert (Hlast : List.last errs 0 < 0).
    { destruct errs as [|e errs]; [discriminate Hlen|].
      assert (Hin : In (List.last (e :: errs) 0) (e :: errs)).
      { destruct (@List.exists_last _ (e :: errs)) as (l' & x & Heq); [discriminate|].
        rewrite Heq at 1. rewrite Heq at 1. rewrite List.last_last.
        apply in_or_app. right. left. reflexivity. }
      rewrite List.Forall_forall in Hneg. exact (Hneg _ Hin). }
    split; [lia|]. split; [lia | discriminate].
Qed.

Lemma land_script (a : MipiFaultSpec.attempt) (w : Z * Z) (b : i2c_bus) :
  script (MipiFaultSpec.land a w b) = script b.
Proof. unfold MipiFaultSpec.land. destruct (MipiFaultSpec.reached a); reflexivity. Qed.

Lemma land_wlog (a : MipiFaultSpec.attempt) (w : Z * Z) (b : i2c_bus) :
  wlog (MipiFaultSpec.land a w b) =
  wlog b ++ (if MipiFaultSpec.reached a then [w] else []).
Proof.
  unfold MipiFaultSpec.land. destruct (MipiFaultSpec.reached a);
    [destruct w; reflexivity | rewrite app_nil_r; reflexivity].
Qed.

End MipiFaults.

(** X1: imx662_write_reg of imx662_mipi.c sends a register write up to ten
    times.  When fewer than ten consecutive sends fail and the next one is
    acknowledged, it returns 0 and the byte is in the register; when ten
    consecutive sends fail it returns the error of the last one and has
    written nothing. *)
Theorem write_reg_bounded_retry
    (reg val : Z) (b : i2c_bus) (errs rest : list Z) :
  script b = errs ++ rest ->
  Forall (fun e => e < 0) errs ->
  ((length errs < 10)%nat ->
   match rest with [] => True | e :: _ => 0 <= e end ->
   Mipi.imx662_write_reg reg val b =
     (0, reg_store (mk_bus (regs b) (wlog b) (tl rest)) (u16 reg) (u8 val))) /\
  (length errs = 10%nat ->
   Mipi.imx662_write_reg reg val b =
     (List.last errs 0, mk_bus (regs b) (wlog b) rest) /\ List.last errs 0 < 0).
Proof.
  intros Hs Hneg.
  destruct (send_retry_script errs 10 (u16 reg) (u8 val) 0 b rest Hs Hneg) as [Hok Hfail].
  unfold Mipi.imx662_write_reg, io_bind, io_ret, Mipi.IMX662_MAX_RETRIES.
  split.
  - intros Hlen Hrest. rewrite (Hok Hlen Hrest). reflexivity.
  - intros Hlen. rewrite (Hfail Hlen).
    assert (Hlast : List.last errs 0 < 0).
    { destruct errs as [|e errs]; [discriminate Hlen|].
      assert (Hin : In (List.last (e :: errs) 0) (e :: errs)).
      { destruct (@List.exists_last _ (e :: errs)) as (l' & x & Heq); [discriminate|].
        rewrite Heq at 1. rewrite Heq at 1. rewrite List.last_last.
        apply in_or_app. right. left. reflexivity. }
      rewrite List.Forall_forall in Hneg. exact (Hneg _ Hin). }
    destruct (List.last errs 0 <? 0) eqn:Hlt; [|lia].
    split; [reflexivity | exact Hlast].
Qed.

Lemma write_reg_bounded_retry_witness :
  Mipi.imx662_write_reg Mipi.REGHOLD 1 (faulty_bus ∅ [-121; -121; -121; 1]) =
    (0, reg_store (faulty_bus ∅ []) Mipi.REGHOLD 1) /\
  Mipi.imx662_write_reg Mipi.REGHOLD 1
    (faulty_bus ∅ [-121; -121; -121; -121; -121; -121; -121; -121; -121; -6; 1]) =
    (-6, faulty_bus ∅ [1]).
Proof.
  split.
  - apply (write_reg_bounded_retry Mipi.REGHOLD 1
             (faulty_bus ∅ [-121; -121; -121; 1]) [-121; -121; -121] [1]).
    + reflexivity.
    + repeat constructor.
    + simpl. lia.
    + simpl. lia.
  - apply (write_reg_bounded_retry Mipi.REGHOLD 1
             (faulty_bus ∅ [-121; -121; -121; -121; -121; -121; -121; -121; -121; -6; 1])
             [-121; -121; -121; -121; -121; -121; -121; -121; -121; -6] [1]).
    + reflexivity.
    + repeat constructor.
    + reflexivity.
Defined.

(** ** Error reporting of the exposure write (imx662_mipi.c) *)

Section MipiExposureFaults.
Import Mipi MipiSpec.

Lemma lor_nonpos (a c : Z) :
  a <= 0 -> c <= 0 -> Z.lor a c <= 0 /\ (Z.lor a c = 0 <-> a = 0 /\ c = 0).
Proof.
  intros Ha Hc. split; [|apply Z.lor_eq_0_iff].
  destruct (Z.eq_dec a 0) as [->|Hna].
  - rewrite Z.lor_0_l. exact Hc.
  - assert (Z.lor a c < 0) by (apply Z.lor_neg; lia). lia.
Qed.

Lemma lor5_nonpos (r0 r1 r2 r3 r4 : Z) :
  r0 <= 0 -> r1 <= 0 -> r2 <= 0 -> r3 <= 0 -> r4 <= 0 ->
  Z.lor (Z.lor (Z.lor (Z.lor r0 r1) r2) r3) r4 <= 0 /\
  (Z.lor (Z.lor (Z.lor (Z.lor r0 r1) r2) r3) r4 = 0 <->
   r0 = 0 /\ r1 = 0 /\ r2 = 0 /\ r3 = 0 /\ r4 = 0).
Proof.
  intros H0 H1 H2 H3 H4.
  destruct (lor_nonpos r0 r1 H0 H1) as [Ha Ha'].
  destruct (lor_nonpos _ r2 Ha H2) as [Hb Hb'].
  destruct (lor_nonpos _ r3 Hb H3) as [Hc Hc'].
  destruct (lor_nonpos _ r4 Hc H4) as [Hd Hd'].
  split; [exact Hd|]. tauto.
Qed.

End MipiExposureFaults.

(** One register write of imx662_mipi.c on any bus: it lands or it is
    lost. *)
Ltac write_reg_split :=
  match goal with
  | |- context [Mipi.imx662_write_reg ?r ?v ?b] =>
      let b1 := fresh "b" in
      let Hr := fresh "Hr" in
      let Hw := fresh "Hw" in
      let e := fresh "e" in
      let He := fresh "He" in
      let H := fresh "H" in
      destruct (write_reg_cases r v b) as (b1 & Hr & Hw & [H | (e & He & H)]);
      rewrite H; clear H; cbv beta iota
  end.

(** Whatever the bus does, the result of [imx662_set_exp] is 0 or negative,
    and it is 0 exactly when the trace has grown by all five writes. *)
Lemma set_exp_result_zero_iff_written
    (s : Mipi.imx662) (exp wc : Z) (b : i2c_bus) :
  let shr0 := Mipi.set_exp_reg_shr0 s exp wc in
  let r := Mipi.imx662_set_exp s exp wc b in
  fst r <= 0 /\
  (fst r = 0 <->
   wlog (snd r) =
     wlog b ++ [ (Mipi.REGHOLD, 1);
                 (Mipi.SHR0_HIGH, (shr0 / 65536) mod 256);
                 (Mipi.SHR0_MID, (shr0 / 256) mod 256);
                 (Mipi.SHR0_LOW, shr0 mod 256);
                 (Mipi.REGHOLD, 0) ]).
Proof.
  intros shr0 r. subst r. unfold Mipi.imx662_set_exp. fold shr0.
  unfold io_bind, io_ret.
  do 5 write_reg_split; cbn [fst snd wlog reg_store] in *;
    repeat match goal with H : wlog _ = _ |- _ => rewrite H; clear H end;
    rewrite <- ?app_assoc; cbn [app];
    rewrite ?byte0, ?byte1, ?byte2 in *;
    change (u16 Mipi.REGHOLD) with Mipi.REGHOLD;
    change (u16 Mipi.SHR0_HIGH) with Mipi.SHR0_HIGH;
    change (u16 Mipi.SHR0_MID) with Mipi.SHR0_MID;
    change (u16 Mipi.SHR0_LOW) with Mipi.SHR0_LOW;
    change (u8 1) with 1; change (u8 0) with 0;
    rewrite ?Z.shiftr_div_pow2 by lia;
    change (2 ^ 16) with 65536; change (2 ^ 8) with 256;
    match goal with
    | |- Z.lor (Z.lor (Z.lor (Z.lor ?r0 ?r1) ?r2) ?r3) ?r4 <= 0 /\ _ =>
        destruct (lor5_nonpos r0 r1 r2 r3 r4) as [Hle Hiff]; [lia | lia | lia | lia | lia |];
        split; [exact Hle|]; rewrite Hiff
    end;
    (split; [ intros Hz; first [reflexivity | exfalso; lia]
            | intros Heq;
              first [ repeat split; reflexivity
                    | exfalso; apply (f_equal (@length _)) in Heq;
                      rewrite ?length_app in Heq; simpl in Heq; lia ] ]).
Qed.

(** X2: imx662_set_exp of imx662_mipi.c never stops at a failed write.
    Each of its five writes (hold, the three shutter bytes high, mid, low,
    release) is attempted with its own retries, whatever became of the
    writes before it: when the bus answers the five attempts one after the
    other, each either acknowledged after fewer than ten failed sends or
    lost after ten, the function consumes the outcomes of all five
    attempts, the writes that were acknowledged reach the sensor in this
    order, and the result is the bitwise OR of the errors of the lost
    writes: 0 or negative, and 0 exactly when no write was lost. *)
Theorem set_exp_attempts_every_write
    (s : Mipi.imx662) (exp wc : Z) (b : i2c_bus)
    (atts : list MipiFaultSpec.attempt) (rest : list Z) :
  script b = concat (map MipiFaultSpec.attempt_script atts) ++ rest ->
  Forall MipiFaultSpec.attempt_valid atts ->
  length atts = 5%nat ->
  let shr0 := Mipi.set_exp_reg_shr0 s exp wc in
  let writes := [ (Mipi.REGHOLD, 1);
                  (Mipi.SHR0_HIGH, (shr0 / 65536) mod 256);
                  (Mipi.SHR0_MID, (shr0 / 256) mod 256);
                  (Mipi.SHR0_LOW, shr0 mod 256);
                  (Mipi.REGHOLD, 0) ] in
  let r := Mipi.imx662_set_exp s exp wc b in
  fst r = fold_left Z.lor (map MipiFaultSpec.attempt_result atts) 0 /\
  fst r <= 0 /\
  (fst r = 0 <-> forallb MipiFaultSpec.reached atts = true) /\
  wlog (snd r) = wlog b ++ MipiFaultSpec.landed atts writes /\
  script (snd r) = rest.
Proof.
  intros Hs Hv Hlen shr0 writes r.
  destruct atts as [|a0 [|a1 [|a2 [|a3 [|a4 [|a5 atts]]]]]]; try discriminate Hlen.
  clear Hlen.
  repeat match goal with
         | H : Forall _ (_ :: _) |- _ => apply Forall_cons in H; destruct H as [? H]
         end.
  cbn [map concat] in Hs. rewrite app_nil_r, <- !app_assoc in Hs.
  subst r. unfold Mipi.imx662_set_exp. fold shr0. unfold io_bind, io_ret.
  rewrite (write_reg_attempt _ _ a0 _ b Hs) by assumption. cbv beta iota.
  erewrite (write_reg_attempt _ _ a1);
    [|rewrite land_script; reflexivity | assumption]. cbv beta iota.
  erewrite (write_reg_attempt _ _ a2);
    [|rewrite land_script; reflexivity | assumption]. cbv beta iota.
  erewrite (write_reg_attempt _ _ a3);
    [|rewrite land_script; reflexivity | assumption]. cbv beta iota.
  erewrite (write_reg_attempt _ _ a4);
    [|rewrite land_script; reflexivity | assumption]. cbv beta iota.
  cbn [fst snd map fold_left]. rewrite Z.lor_0_l.
  destruct (attempt_result_sign a0) as [S0 Z0]; [assumption|].
  destruct (attempt_result_sign a1) as [S1 Z1]; [assumption|].
  destruct (attempt_result_sign a2) as [S2 Z2]; [assumption|].
  destruct (attempt_result_sign a3) as [S3 Z3]; [assumption|].
  destruct (attempt_result_sign a4) as [S4 Z4]; [assumption|].
  destruct (lor5_nonpos _ _ _ _ _ S0 S1 S2 S3 S4) as [Hle Hiff].
  split; [reflexivity|]. split; [exact Hle|]. split.
  - rewrite Hiff, Z0, Z1, Z2, Z3, Z4. cbn [forallb].
    rewrite !andb_true_iff. tauto.
  - split; [|rewrite land_script; reflexivity].
    repeat first [rewrite land_wlog | progress cbn [wlog regs script]].
    rewrite byte2, byte1, byte0.
    change (u16 Mipi.REGHOLD) with Mipi.REGHOLD.
    change (u16 Mipi.SHR0_HIGH) with Mipi.SHR0_HIGH.
    change (u16 Mipi.SHR0_MID) with Mipi.SHR0_MID.
    change (u16 Mipi.SHR0_LOW) with Mipi.SHR0_LOW.
    change (u8 1) with 1. change (u8 0) with 0.
    unfold writes. cbn [MipiFaultSpec.landed].
    rewrite <- !app_assoc. f_equal.
    destruct (MipiFaultSpec.reached a0), (MipiFaultSpec.reached a1),
      (MipiFaultSpec.reached a2), (MipiFaultSpec.reached a3),
      (MipiFaultSpec.reached a4); reflexivity.
Qed.

Lemma set_exp_attempts_every_write_witness :
  let r := Mipi.imx662_set_exp
             (MipiSpec.sensor_in Mipi.clear_mode MEDIA_BUS_FMT_SRGGB12_1X12) 1000 1
             (faulty_bus ∅ ([-121; -121; -121; -121; -121; -121; -121; -121; -121; -6]
                            ++ [0; 0; 0; 0; 7])) in
  fst r = -6 /\ length (wlog (snd r)) = 4%nat /\ script (snd r) = [7].
Proof.
  destruct (set_exp_attempts_every_write
              (MipiSpec.sensor_in Mipi.clear_mode MEDIA_BUS_FMT_SRGGB12_1X12) 1000 1
              (faulty_bus ∅ ([-121; -121; -121; -121; -121; -121; -121; -121; -121; -6]
                             ++ [0; 0; 0; 0; 7]))
              [ MipiFaultSpec.Lost [-121; -121; -121; -121; -121; -121; -121; -121; -121; -6];
                MipiFaultSpec.Acked [] 0; MipiFaultSpec.Acked [] 0;
                MipiFaultSpec.Acked [] 0; MipiFaultSpec.Acked [] 0 ]
              [7])
    as (Hres & _ & _ & Hlog & Hscript).
  - reflexivity.
  - repeat constructor; simpl; lia.
  - reflexivity.
  - cbv zeta. rewrite Hres, Hlog, Hscript. repeat split; reflexivity.
Defined.

(** ** Table writes (imx662_mipi.c) *)

Section MipiTables.
Import Mipi MipiSpec MipiTableSpec.

Lemma i2c_transfer_result (m : list Z) (b : i2c_bus) :
  fst (imx662_i2c_transfer m b) < 0 \/ fst (imx662_i2c_transfer m b) = 0.
Proof.
  unfold imx662_i2c_transfer, io_bind, io_ret.
  destruct (transfer_retry IMX662_MAX_RETRIES m 0 b) as [r b'].
  destruct (r <? 0) eqn:Hr; simpl; lia.
Qed.

Lemma data_entries_app (a : Z) (data : list Z) (d : Z) :
  data_entries a (data ++ [d]) =
  data_entries a data ++ [(u16 (a + Z.of_nat (length data)), d)].
Proof.
  revert a. induction data as [|x data IH]; intros a.
  - simpl. rewrite Z.add_0_r. reflexivity.
  - cbn [app data_entries length]. rewrite IH. cbn [app].
    replace (a + Z.of_nat (S (length data))) with (a + 1 + Z.of_nat (length data)) by lia.
    reflexivity.
Qed.

Lemma msg_start_address (addr : Z) :
  Z.shiftl (Z.land (Z.shiftr addr 8) 255) 8 + Z.land addr 255 = u16 addr.
Proof.
  rewrite !land_255, Z.shiftr_div_pow2, Z.shiftl_mul_pow2 by lia.
  unfold u16. change (2 ^ 8) with 256. change (2 ^ 16) with 65536.
  Z.div_mod_to_equations. lia.
Qed.

Lemma u16_of_u32_eq (x y : Z) : u32 x = u32 y -> u16 x = u16 y.
Proof.
  unfold u32, u16. intros H.
  change (2 ^ 32) with (2 ^ 16 * 2 ^ 16) in H.
  rewrite !Z.rem_mul_r in H by lia.
  Z.div_mod_to_equations. lia.
Qed.

Lemma u16_idem (x : Z) : u16 (u16 x) = u16 x.
Proof. unfold u16. apply Z.mod_mod. lia. Qed.

Lemma u16_add_l (x k : Z) : u16 (u16 x + k) = u16 (x + k).
Proof. unfold u16. rewrite Zplus_mod_idemp_l. reflexivity. Qed.

(** The messages that the loop sends: the one under construction holds
    the address [base] and the bytes [data], the last of them for the
    previous table entry. *)
Lemma write_reg_arry_loop_msgs (rest : list (Z * Z)) :
  forall (prev hi lo : Z) (data : list Z),
  (1 <= length data <= 6)%nat ->
  u16 (Z.shiftl hi 8 + lo + Z.of_nat (length data) - 1) = u16 prev ->
  exists msgs,
    (forall b, write_reg_arry_loop rest prev (hi :: lo :: data) b = send_msgs msgs b) /\
    Forall (fun m => (3 <= length m <= 8)%nat) msgs /\
    concat (map msg_entries msgs) =
      data_entries (Z.shiftl hi 8 + lo) data ++ map entry16 rest.
Proof.
  induction rest as [|[addr d] rest IH]; intros prev hi lo data Hlen Hprev.
  - exists [hi :: lo :: data]. split; [|split].
    + intros b. cbn [write_reg_arry_loop send_msgs length].
      assert (Hpos : (Z.of_nat (S (S (length data))) >? 0) = true)
        by (apply Z.gtb_lt; lia).
      rewrite Hpos.
      unfold io_bind, io_ret.
      pose proof (i2c_transfer_result (hi :: lo :: data) b) as Hres.
      destruct (imx662_i2c_transfer (hi :: lo :: data) b) as [r b'].
      simpl in Hres.
      destruct (r <? 0) eqn:Hr; [reflexivity|].
      assert (r = 0) by lia. subst r. reflexivity.
    + constructor; [simpl; lia | constructor].
    + simpl. rewrite !app_nil_r. reflexivity.
  - cbn [write_reg_arry_loop length].
    destruct ((Z.of_nat (S (S (length data))) <? 8) && (u32 addr =? u32 (prev + 1))) eqn:Hc.
    + apply andb_true_iff in Hc as [Hshort Hnext]. apply Z.ltb_lt in Hshort.
      apply Z.eqb_eq in Hnext. apply u16_of_u32_eq in Hnext.
      destruct (IH addr hi lo (data ++ [Z.land d 255])) as (msgs & Hrun & Hsize & Hdec).
      * rewrite length_app. simpl. lia.
      * rewrite length_app. simpl length. rewrite Hnext.
        rewrite <- (u16_add_l prev 1), <- Hprev, u16_add_l. f_equal. lia.
      * exists msgs. split; [|split]; [exact Hrun | exact Hsize |].
        rewrite Hdec, data_entries_app, <- app_assoc. cbn [app map].
        do 2 f_equal. unfold entry16. cbn [fst snd]. f_equal.
        rewrite Hnext, <- (u16_add_l prev 1), <- Hprev, u16_add_l. f_equal. lia.
    + destruct (IH addr (Z.land (Z.shiftr addr 8) 255) (Z.land addr 255) [Z.land d 255])
        as (msgs & Hrun & Hsize & Hdec).
      * simpl. lia.
      * rewrite msg_start_address. simpl length.
        replace (u16 addr + Z.of_nat 1 - 1) with (u16 addr + 0) by lia.
        rewrite u16_add_l. f_equal. lia.
      * exists ((hi :: lo :: data) :: msgs). split; [|split].
        -- intros b. cbn [send_msgs]. unfold io_bind, io_ret.
           destruct (imx662_i2c_transfer (hi :: lo :: data) b) as [r b'].
           destruct (r <? 0); [reflexivity|]. apply Hrun.
        -- constructor; [simpl; lia | exact Hsize].
        -- cbn [map concat msg_entries]. rewrite Hdec. cbn [data_entries app map].
           rewrite msg_start_address, u16_idem. reflexivity.
Qed.

Lemma write_reg_arry_msgs (first : Z * Z) (rest : list (Z * Z)) :
  exists msgs,
    (forall b, imx662_write_reg_arry first rest b = send_msgs msgs b) /\
    Forall (fun m => (3 <= length m <= 8)%nat) msgs /\
    concat (map msg_entries msgs) = map entry16 (first :: rest).
Proof.
  unfold imx662_write_reg_arry, msg_start.
  destruct (write_reg_arry_loop_msgs rest (fst first)
              (Z.land (Z.shiftr (fst first) 8) 255) (Z.land (fst first) 255)
              [Z.land (snd first) 255]) as (msgs & Hrun & Hsize & Hdec).
  - simpl. lia.
  - rewrite msg_start_address. simpl length.
    replace (u16 (fst first) + Z.of_nat 1 - 1) with (u16 (fst first) + 0) by lia.
    rewrite u16_add_l. f_equal. lia.
  - exists msgs. split; [exact Hrun|]. split; [exact Hsize|].
    rewrite Hdec. cbn [data_entries app map]. rewrite msg_start_address, u16_idem.
    reflexivity.
Qed.

Lemma store_entries_app (l1 l2 : list (Z * Z)) (b : i2c_bus) :
  store_entries (l1 ++ l2) b = store_entries l2 (store_entries l1 b).
Proof. unfold store_entries. apply fold_left_app. Qed.

Lemma store_entries_healthy (l : list (Z * Z)) (b : i2c_bus) :
  healthy b -> healthy (store_entries l b).
Proof.
  revert b. induction l as [|e l IH]; intros b Hb; [exact Hb|].
  apply IH. exact Hb.
Qed.

Lemma burst_store_entries (data : list Z) (a : Z) (b : i2c_bus) :
  burst_store a data b = store_entries (data_entries a data) b.
Proof.
  revert a b. induction data as [|d data IH]; intros a b; [reflexivity|].
  cbn [burst_store data_entries]. rewrite IH. reflexivity.
Qed.

Lemma msg_deliver_entries (m : list Z) (b : i2c_bus) :
  msg_deliver m b = store_entries (msg_entries m) b.
Proof.
  destruct m as [|hi [|lo data]]; try reflexivity.
  apply burst_store_entries.
Qed.

Lemma i2c_transfer_healthy (m : list Z) (b : i2c_bus) :
  healthy b -> imx662_i2c_transfer m b = (0, store_entries (msg_entries m) b).
Proof.
  intros Hb. unfold imx662_i2c_transfer, io_bind, io_ret, IMX662_MAX_RETRIES.
  cbn [transfer_retry]. rewrite (transfer_healthy b Hb).
  change (0 <? 0) with false. cbv iota. rewrite msg_deliver_entries. reflexivity.
Qed.

Lemma send_msgs_healthy (msgs : list (list Z)) (b : i2c_bus) :
  healthy b ->
  send_msgs msgs b = (0, store_entries (concat (map msg_entries msgs)) b).
Proof.
  revert b. induction msgs as [|m msgs IH]; intros b Hb; [reflexivity|].
  cbn [send_msgs map concat]. unfold io_bind.
  rewrite (i2c_transfer_healthy m b Hb). change (0 <? 0) with false. cbv iota.
  rewrite IH by (apply store_entries_healthy; exact Hb).
  rewrite store_entries_app. reflexivity.
Qed.

(** On a bus without faults a table write leaves what writing its entries
    one at a time leaves. *)
Lemma write_reg_arry_stores (first : Z * Z) (rest : list (Z * Z)) (b : i2c_bus) :
  healthy b ->
  imx662_write_reg_arry first rest b =
    (0, store_entries (map entry16 (first :: rest)) b).
Proof.
  intros Hb. destruct (write_reg_arry_msgs first rest) as (msgs & Hrun & _ & Hdec).
  rewrite Hrun, (send_msgs_healthy msgs b Hb), Hdec. reflexivity.
Qed.

End MipiTables.

(** X3: imx662_write_reg_arry of imx662_mipi.c turns a register table into
    bus messages: it behaves as sending, in order and up to the first one
    that fails after its retries, a sequence of messages of three to eight
    bytes each (a 16-bit address and one to six data bytes), and these
    messages together carry exactly the entries of the table, in the order
    of the table, each with its 16-bit address and the low byte of its
    data. *)
Theorem write_reg_arry_messages (first : Z * Z) (rest : list (Z * Z)) :
  exists msgs,
    (forall b, Mipi.imx662_write_reg_arry first rest b = MipiTableSpec.send_msgs msgs b) /\
    Forall (fun m => (3 <= length m <= 8)%nat) msgs /\
    concat (map MipiTableSpec.msg_entries msgs) =
      map MipiTableSpec.entry16 (first :: rest).
Proof. exact (write_reg_arry_msgs first rest). Qed.

(** X4: on a bus without faults imx662_write_reg_arry of imx662_mipi.c
    returns 0 and leaves in the register file, and in the trace of writes,
    exactly what writing the entries of the table one at a time, in order,
    leaves: merging consecutive addresses into one message changes
    nothing. *)
Theorem write_reg_arry_equals_single_writes
    (first : Z * Z) (rest : list (Z * Z)) (b : i2c_bus) :
  healthy b ->
  Mipi.imx662_write_reg_arry first rest b =
    (0, MipiTableSpec.store_entries (map MipiTableSpec.entry16 (first :: rest)) b) /\
  snd (Mipi.imx662_write_reg_arry first rest b) =
    fold_left (fun b e => snd (Mipi.imx662_write_reg (fst e) (snd e) b)) (first :: rest) b.
Proof.
  intros Hb. split; [apply write_reg_arry_stores; exact Hb|].
  rewrite (write_reg_arry_stores first rest b Hb). cbn [snd].
  unfold MipiTableSpec.store_entries.
  generalize (first :: rest). clear first rest.
  intros l. revert b Hb. induction l as [|e l IH]; intros b Hb; [reflexivity|].
  cbn [map fold_left]. rewrite (write_reg_healthy (fst e) (snd e) b Hb). cbn [snd].
  replace (reg_store b (fst (MipiTableSpec.entry16 e)) (snd (MipiTableSpec.entry16 e)))
    with (reg_store b (u16 (fst e)) (u8 (snd e)))
    by (unfold MipiTableSpec.entry16; cbn [fst snd]; rewrite land_255; reflexivity).
  apply IH. apply healthy_store. exact Hb.
Qed.

Lemma write_reg_arry_equals_single_writes_witness :
  Mipi.imx662_write_reg_arry (0x3022, 0x00)
    [(0x3023, 0x00); (0x3A50, 0x62); (0x3A51, 0x01); (0x3A52, 0x19)] (bus_of ∅) =
  (0, MipiTableSpec.store_entries
        [(0x3022, 0x00); (0x3023, 0x00); (0x3A50, 0x62); (0x3A51, 0x01); (0x3A52, 0x19)]
        (bus_of ∅)).
Proof.
  apply (write_reg_arry_equals_single_writes (0x3022, 0x00)
           [(0x3023, 0x00); (0x3A50, 0x62); (0x3A51, 0x01); (0x3A52, 0x19)] (bus_of ∅)).
  reflexivity.
Defined.

(** X5: on a bus without faults imx662_set_test_pattern of imx662_mipi.c
    switches the pattern generator on for the patterns 1 to 12 of the menu,
    with the pattern number less one in the selection register, and off
    for every other value.  Both ways it overwrites the low byte of the
    black level: with 0 when the generator goes on, with 0x32 when it goes
    off, whatever black level was programmed before. *)
Theorem set_test_pattern_registers (pattern : Z) (b : i2c_bus) :
  healthy b ->
  exists b',
    Mipi.imx662_set_test_pattern pattern b = (0, b') /\
    if (0 <? pattern) && (pattern <? 13) then
      reg_get b' Mipi.TPG_EN_DUOUT = 1 /\
      reg_get b' Mipi.TPG_PATSEL_DUOUT = pattern - 1 /\
      reg_get b' Mipi.BLKLEVEL_LOW = 0
    else
      reg_get b' Mipi.TPG_EN_DUOUT = 0 /\
      reg_get b' Mipi.TPG_PATSEL_DUOUT = reg_get b Mipi.TPG_PATSEL_DUOUT /\
      reg_get b' Mipi.BLKLEVEL_LOW = 0x32.
Proof.
  intros Hb. unfold Mipi.imx662_set_test_pattern, Mipi.imx662_test_pattern_menu_size.
  rewrite Z.gtb_ltb.
  destruct ((0 <? pattern) && (pattern <? 13)) eqn:Hp.
  - apply andb_true_iff in Hp as [H0 H13].
    apply Z.ltb_lt in H0. apply Z.ltb_lt in H13.
    unfold io_bind, io_ret. rewrite write_reg_arry_stores by exact Hb.
    repeat first [progress cbv beta iota | progress change (0 <? 0) with false].
    rewrite write_reg_healthy by (apply store_entries_healthy; exact Hb).
    eexists. split; [reflexivity|].
    unfold MipiTableSpec.store_entries. cbn [map fold_left MipiTableSpec.entry16 fst snd].
    repeat first
      [ rewrite reg_get_store_eq
      | rewrite reg_get_store_ne by (vm_compute; discriminate) ].
    split; [reflexivity|]. split; [|reflexivity].
    rewrite u32_small by lia. unfold u8. apply Z.mod_small. lia.
  - unfold io_bind, io_ret. rewrite write_reg_arry_stores by exact Hb.
    repeat first [progress cbv beta iota | progress change (0 <? 0) with false].
    eexists. split; [reflexivity|].
    unfold MipiTableSpec.store_entries. cbn [map fold_left MipiTableSpec.entry16 fst snd].
    repeat first
      [ rewrite reg_get_store_eq
      | rewrite reg_get_store_ne by (vm_compute; discriminate) ].
    repeat split; reflexivity.
Qed.

Lemma set_test_pattern_registers_witness :
  exists b',
    Mipi.imx662_set_test_pattern 11 (bus_of (<[Mipi.BLKLEVEL_LOW := 200]> ∅)) = (0, b') /\
    reg_get b' Mipi.TPG_EN_DUOUT = 1 /\
    reg_get b' Mipi.TPG_PATSEL_DUOUT = 10 /\
    reg_get b' Mipi.BLKLEVEL_LOW = 0.
Proof.
  destruct (set_test_pattern_registers 11 (bus_of (<[Mipi.BLKLEVEL_LOW := 200]> ∅)))
    as (b' & Hrun & Hregs).
  - reflexivity.
  - exists b'. split; [exact Hrun | exact Hregs].
Defined.

(** ** Mode selection and the timing state (imx662_mipi.c) *)

Section MipiModes.
Import Mipi MipiSpec.

Lemma set_fps_clamped_range (s : imx662) (fps wc : Z) :
  min_fps (ae_info (cur_mode s)) <= max_fps (ae_info (cur_mode s)) ->
  min_fps (ae_info (cur_mode s)) <= set_fps_clamped s fps wc
    <= max_fps (ae_info (cur_mode s)).
Proof.
  intros Hmm. unfold set_fps_clamped.
  destruct (_ >? max_fps _) eqn:H1; [lia|].
  destruct (_ <? min_fps _) eqn:H2; lia.
Qed.

(** The frame length that a frame-rate request yields stays between the
    bounds that the limits of the mode give. *)
Lemma set_fps_reg_bounds (s : imx662) (fps wc lo : Z) :
  let ae := ae_info (cur_mode s) in
  index (cur_mode s) <> IMX662_DOL_INDEX ->
  1024 <= min_fps ae <= max_fps ae ->
  64 <= one_line_exp_time_ns ae ->
  0 < lo ->
  lo * ((max_fps ae / 1024) * one_line_exp_time_ns ae) <= 10 ^ 9 ->
  lo <= set_fps_reg s fps wc < 2 ^ 24.
Proof.
  intros ae Hdol Hfps Hline Hlo Hmax.
  rewrite set_fps_reg_spec.
  destruct (index (cur_mode s) =? IMX662_DOL_INDEX) eqn:Hd;
    [apply Z.eqb_eq in Hd; contradiction|].
  pose proof (set_fps_clamped_range s fps wc ltac:(fold ae; lia)) as Hc.
  fold ae in Hc. set (f := set_fps_clamped s fps wc) in *.
  unfold set_fps_quotient. fold ae. rewrite Z.shiftr_div_pow2 by lia.
  change (2 ^ 10) with 1024. unfold IMX662_G_FACTOR.
  set (line := one_line_exp_time_ns ae) in *.
  assert (Hq1 : 1 <= f / 1024) by (apply Z.div_le_lower_bound; lia).
  assert (Hq2 : f / 1024 <= max_fps ae / 1024) by (apply Z.div_le_mono; lia).
  assert (Hprod : 64 <= f / 1024 * line <= max_fps ae / 1024 * line) by nia.
  assert (Hsmall : max_fps ae / 1024 * line <= 10 ^ 9) by nia.
  rewrite (u32_small (f / 1024 * line)) by lia.
  assert (Hquot : lo <= 1000000000 / (f / 1024 * line) <= 15625000).
  { split.
    - apply Z.div_le_lower_bound; [lia|]. nia.
    - apply Z.div_le_upper_bound; lia. }
  rewrite u32_small by lia.
  pose proof (even_above_spec (1000000000 / (f / 1024 * line))) as [_ Hev].
  lia.
Qed.

Lemma set_fps_keeps_bus_healthy (s : imx662) (fps wc : Z) (b : i2c_bus) :
  healthy b -> healthy (snd (imx662_set_fps s fps wc b)).
Proof.
  intros Hb. unfold imx662_set_fps.
  bus_run Hb. change (Z.lor (Z.lor (Z.lor (Z.lor 0 0) 0) 0) 0 <? 0) with false.
  cbv iota. cbn [snd]. repeat apply healthy_store. exact Hb.
Qed.

Lemma mode_table_fps_limits (m : vvcam_mode_info_s) :
  In m pimx662_mode_info ->
  1024 <= min_fps (ae_info m) <= max_fps (ae_info m) /\
  64 <= one_line_exp_time_ns (ae_info m) /\
  16 * ((max_fps (ae_info m) / 1024) * one_line_exp_time_ns (ae_info m)) <= 10 ^ 9 /\
  1 <= min_integration_line (ae_info m) <= 8.
Proof.
  intros Hin. simpl in Hin.
  destruct Hin as [<-|[<-|[<-|[<-|[<-|[<-|[]]]]]]];
    vm_compute; repeat split; discriminate.
Qed.

End MipiModes.

(** X6: imx662_set_sensor_mode of imx662_mipi.c looks only at the index of
    the mode that the caller passes.  For an index from 0 to 5 it returns 0
    and installs the entry of the mode table with that index, whatever the
    caller wrote in the other fields, so that the timing state it leaves
    is a consistent one; for every other index it returns -ENXIO and
    leaves the device state alone. *)
Theorem set_sensor_mode_installs_table_entry
    (s : Mipi.imx662) (m : Mipi.vvcam_mode_info_s) :
  (0 <= Mipi.index m <= 5 ->
   let r := Mipi.imx662_set_sensor_mode s (Some m) in
   fst r = 0 /\
   nth_error Mipi.pimx662_mode_info (Z.to_nat (Mipi.index m)) =
     Some (Mipi.cur_mode (snd r)) /\
   snd r = Mipi.set_cur_mode s (Mipi.cur_mode (snd r)) /\
   (if Mipi.index m =? Mipi.IMX662_DOL_INDEX
    then MipiSpec.dol_timing_consistent (snd r)
    else MipiSpec.timing_consistent (snd r))) /\
  (Mipi.index m < 0 \/ 5 < Mipi.index m ->
   Mipi.imx662_set_sensor_mode s (Some m) = (- Mipi.ENXIO, s)).
Proof.
  split.
  - intros Hidx r. subst r. unfold Mipi.imx662_set_sensor_mode.
    assert (Hcases : Mipi.index m = 0 \/ Mipi.index m = 1 \/ Mipi.index m = 2 \/
                     Mipi.index m = 3 \/ Mipi.index m = 4 \/ Mipi.index m = 5) by lia.
    destruct Hcases as [H|[H|[H|[H|[H|H]]]]]; rewrite H;
      (split; [reflexivity|]); (split; [reflexivity|]); (split; [reflexivity|]);
      [ unfold MipiSpec.timing_consistent
      | unfold MipiSpec.timing_consistent
      | unfold MipiSpec.timing_consistent
      | unfold MipiSpec.timing_consistent
      | unfold MipiSpec.dol_timing_consistent
      | unfold MipiSpec.timing_consistent ];
      vm_compute; repeat split; discriminate.
  - intros Hout. unfold Mipi.imx662_set_sensor_mode, Mipi.pimx662_mode_info.
    cbn [find Mipi.index Mipi.linear_mode Mipi.dol_mode Mipi.clear_mode].
    unfold Mipi.IMX662_ALL_PIXEL_INDEX, Mipi.IMX662_CROP_INDEX, Mipi.IMX662_BINNING_INDEX,
      Mipi.IMX662_BINNING_CROP_INDEX, Mipi.IMX662_DOL_INDEX, Mipi.IMX662_CLEAR_INDEX.
    destruct (0 =? Mipi.index m) eqn:H0; [lia|].
    destruct (1 =? Mipi.index m) eqn:H1; [lia|].
    destruct (2 =? Mipi.index m) eqn:H2; [lia|].
    destruct (3 =? Mipi.index m) eqn:H3; [lia|].
    destruct (4 =? Mipi.index m) eqn:H4; [lia|].
    destruct (5 =? Mipi.index m) eqn:H5; [lia|].
    reflexivity.
Qed.

Lemma set_sensor_mode_installs_table_entry_witness :
  Mipi.imx662_set_sensor_mode
    (MipiSpec.sensor_in Mipi.clear_mode MEDIA_BUS_FMT_SRGGB12_1X12)
    (Some (Mipi.mk_mode 4 10 (Mipi.mk_ae 1 2 3 4 5 6 7 8 9 10))) =
    (0, MipiSpec.sensor_in Mipi.dol_mode MEDIA_BUS_FMT_SRGGB12_1X12) /\
  Mipi.imx662_set_sensor_mode
    (MipiSpec.sensor_in Mipi.clear_mode MEDIA_BUS_FMT_SRGGB12_1X12)
    (Some (Mipi.mk_mode 6 12 (Mipi.ae_info Mipi.clear_mode))) =
    (- Mipi.ENXIO, MipiSpec.sensor_in Mipi.clear_mode MEDIA_BUS_FMT_SRGGB12_1X12).
Proof.
  pose proof (set_sensor_mode_installs_table_entry
                (MipiSpec.sensor_in Mipi.clear_mode MEDIA_BUS_FMT_SRGGB12_1X12)
                (Mipi.mk_mode 4 10 (Mipi.mk_ae 1 2 3 4 5 6 7 8 9 10))) as [Hin _].
  pose proof (set_sensor_mode_installs_table_entry
                (MipiSpec.sensor_in Mipi.clear_mode MEDIA_BUS_FMT_SRGGB12_1X12)
                (Mipi.mk_mode 6 12 (Mipi.ae_info Mipi.clear_mode))) as [_ Hout].
  split.
  - destruct Hin as (_ & _ & Hstate & _); [simpl; lia|]. reflexivity.
  - apply Hout. right. simpl. lia.
Defined.

(** X7: a frame-rate control followed by an exposure control
    (imx662_s_ctrl of imx662_mipi.c).  For every mode of the mode table
    other than the line-interleaved one, every frame rate and every
    exposure asked for, on a powered sensor and a bus without faults: the
    frame-rate control succeeds and leaves an even frame length, in VMAX and
    in the timing state, and the exposure control that follows succeeds
    and leaves a shutter between the minimum shutter of the mode and that
    frame length less the minimum integration lines. *)
Theorem frame_rate_then_exposure
    (m : Mipi.vvcam_mode_info_s) (code fps e undef : Z) (b : i2c_bus) :
  In m Mipi.pimx662_mode_info ->
  Mipi.index m <> Mipi.IMX662_DOL_INDEX ->
  healthy b ->
  let s := MipiSpec.sensor_in m code in
  exists s1 b1 b2,
    Mipi.imx662_s_ctrl s Mipi.V4L2_CID_FRAME_RATE fps undef b = ((0, s1), b1) /\
    Mipi.imx662_s_ctrl s1 Mipi.V4L2_CID_EXPOSURE e undef b1 = ((0, s1), b2) /\
    let fl := Mipi.curr_frm_len_lines (Mipi.ae_info (Mipi.cur_mode s1)) in
    Z.even fl = true /\
    reg24 b1 Mipi.VMAX_LOW Mipi.VMAX_MID Mipi.VMAX_HIGH = fl /\
    MipiSpec.min_shr0 s <= reg24 b2 Mipi.SHR0_LOW Mipi.SHR0_MID Mipi.SHR0_HIGH
      <= fl - Mipi.min_integration_line (Mipi.ae_info m).
Proof.
  intros Hin Hdol Hb s.
  destruct (mode_table_fps_limits m Hin) as (Hfps & Hline & Hmax & Hmil).
  assert (Hms : MipiSpec.min_shr0 s = 8 \/ MipiSpec.min_shr0 s = 4).
  { unfold MipiSpec.min_shr0. destruct (_ =? _); [left | right]; reflexivity. }
  assert (Hmil' : Mipi.min_integration_line (Mipi.ae_info m) <= MipiSpec.min_shr0 s).
  { simpl in Hin. destruct Hin as [<-|[<-|[<-|[<-|[<-|[<-|[]]]]]]];
      vm_compute; discriminate. }
  assert (Hreg : 16 <= Mipi.set_fps_reg s (u32 fps) 1 < 2 ^ 24).
  { apply set_fps_reg_bounds; try assumption; lia. }
  destruct (set_fps_healthy s (u32 fps) 1 b Hb) as (b1 & s1 & Hrun & Hfl & _ & Hidx & Hvmax).
  pose proof (set_fps_timing_consistent s (u32 fps) 1 b Hb Hdol) as Hcons.
  pose proof (set_fps_keeps_bus_healthy s (u32 fps) 1 b Hb) as Hb1.
  rewrite Hrun in Hcons, Hb1. cbn [fst snd] in Hcons, Hb1.
  specialize (Hcons ltac:(cbn [Mipi.cur_mode MipiSpec.sensor_in s]; lia)
                    ltac:(cbn [Mipi.cur_mode MipiSpec.sensor_in s]; lia)).
  assert (Hdol1 : Mipi.index (Mipi.cur_mode s1) <> Mipi.IMX662_DOL_INDEX)
    by (rewrite Hidx; exact Hdol).
  assert (Hpow1 : Mipi.powered_on s1 = 1).
  { unfold Mipi.imx662_set_fps in Hrun. revert Hrun. bus_run Hb.
    change (Z.lor (Z.lor (Z.lor (Z.lor 0 0) 0) 0) 0 <? 0) with false. cbv iota.
    intros Hrun. injection Hrun as <- _. reflexivity. }
  assert (Hmil1 : Mipi.min_integration_line (Mipi.ae_info (Mipi.cur_mode s1)) =
                  Mipi.min_integration_line (Mipi.ae_info m)).
  { unfold Mipi.imx662_set_fps in Hrun. revert Hrun. bus_run Hb.
    change (Z.lor (Z.lor (Z.lor (Z.lor 0 0) 0) 0) 0 <? 0) with false. cbv iota.
    intros Hrun. injection Hrun as <- _. reflexivity. }
  assert (Hms1 : MipiSpec.min_shr0 s1 = MipiSpec.min_shr0 s).
  { unfold MipiSpec.min_shr0. rewrite Hidx. reflexivity. }
  pose proof (set_exp_reg_linear s1 (u32 e) 1 Hdol1 Hcons) as (Hlo & Hhi & Hmid).
  pose proof Hcons as (Hc1 & Hc2 & Hc3 & Hc4 & Hc5).
  cbv zeta in Hlo, Hhi, Hmid.
  assert (Hshr : MipiSpec.min_shr0 s1 <= Mipi.set_exp_reg_shr0 s1 (u32 e) 1
                 <= Mipi.curr_frm_len_lines (Mipi.ae_info (Mipi.cur_mode s1))
                    - Mipi.min_integration_line (Mipi.ae_info (Mipi.cur_mode s1))).
  { set (itl := Mipi.integration_lines s1 (u32 e) 1) in *.
    destruct (Z_lt_le_dec itl (Mipi.min_integration_line (Mipi.ae_info (Mipi.cur_mode s1))))
      as [H1|H1]; [rewrite (Hlo H1); lia|].
    destruct (Z_lt_le_dec
                (Mipi.curr_frm_len_lines (Mipi.ae_info (Mipi.cur_mode s1))
                 - MipiSpec.min_shr0 s1) itl) as [H2|H2]; [rewrite (Hhi H2); lia|].
    rewrite (Hmid (conj H1 H2)). lia. }
  destruct (set_exp_healthy s1 (u32 e) 1 b1 Hb1) as (b2 & Hrun2 & _ & Hregs); [lia|].
  exists s1, b1, b2.
  unfold Mipi.imx662_s_ctrl. rewrite Hpow1.
  change (Mipi.powered_on s =? 0) with false. change (1 =? 0) with false. cbv iota.
  split; [exact Hrun|]. split.
  { unfold io_bind, io_ret. rewrite Hrun2. reflexivity. }
  cbv zeta. rewrite Hregs, Hfl.
  split.
  { rewrite set_fps_reg_spec.
    match goal with |- Z.even (even_above ?x) = true => apply (even_above_spec x) end. }
  split.
  { rewrite Hvmax. apply Z.mod_small. lia. }
  rewrite <- Hfl, <- Hms1, <- Hmil1. exact Hshr.
Qed.

Lemma frame_rate_then_exposure_witness :
  exists s1 b1 b2,
    Mipi.imx662_s_ctrl (MipiSpec.sensor_in Mipi.clear_mode MEDIA_BUS_FMT_SRGGB12_1X12)
      Mipi.V4L2_CID_FRAME_RATE 25 0 (bus_of ∅) = ((0, s1), b1) /\
    Mipi.imx662_s_ctrl s1 Mipi.V4L2_CID_EXPOSURE 1000000 0 b1 = ((0, s1), b2) /\
    reg24 b1 Mipi.VMAX_LOW Mipi.VMAX_MID Mipi.VMAX_HIGH = 3000 /\
    reg24 b2 Mipi.SHR0_LOW Mipi.SHR0_MID Mipi.SHR0_HIGH = 8.
Proof.
  destruct (frame_rate_then_exposure Mipi.clear_mode MEDIA_BUS_FMT_SRGGB12_1X12
              25 1000000 0 (bus_of ∅))
    as (s1 & b1 & b2 & Hrun1 & Hrun2 & _ & Hvmax & _).
  - right. right. right. right. right. left. reflexivity.
  - vm_compute. discriminate.
  - reflexivity.
  - exists s1, b1, b2. split; [exact Hrun1|]. split; [exact Hrun2|].
    assert (Hs1 : Mipi.imx662_s_ctrl
                    (MipiSpec.sensor_in Mipi.clear_mode MEDIA_BUS_FMT_SRGGB12_1X12)
                    Mipi.V4L2_CID_FRAME_RATE 25 0 (bus_of ∅) = ((0, s1), b1)) by exact Hrun1.
    vm_compute in Hs1. injection Hs1 as <- <-.
    split; [vm_compute; reflexivity|].
    vm_compute in Hrun2. injection Hrun2 as <-. vm_compute. reflexivity.
Defined.

(** ** Synchronisation, gains and data rate (imx662_mipi.c) *)

Section MipiControls.
Import Mipi MipiSpec.

Lemma get_gain_reg_range (gain : Z) : 0 <= imx662_get_gain_reg gain <= 240.
Proof.
  destruct (Z_lt_le_dec gain (gain_at 0)) as [Hlo|Hlo];
    [rewrite (get_gain_reg_below gain Hlo); lia|].
  destruct (Z_lt_le_dec (gain_at 240) gain) as [Hhi|Hhi];
    [rewrite (get_gain_reg_above gain Hhi); lia|].
  destruct (get_gain_reg_in_range gain (conj Hlo Hhi)) as (l & Hbr & ->).
  pose proof (nearest_range gain l Hbr). lia.
Qed.

(** The register code asked for on the V4L2 path, a third of the control
    value. *)
Lemma v4l2_gain_code (gain : Z) :
  0 <= gain <= 720 ->
  u32 (gain * IMX662_MAX_GAIN_DEC) / (IMX662_MAX_GAIN_DB * 10) = gain / 3.
Proof.
  intros H. unfold IMX662_MAX_GAIN_DEC, IMX662_MAX_GAIN_DB.
  rewrite u32_small by lia.
  change (72 * 10) with (3 * 240). apply Z.div_mul_cancel_r; lia.
Qed.

Lemma change_data_rate_healthy (s : imx662) (dr : Z) (b : i2c_bus) :
  healthy b ->
  let supported :=
    if u8 (reg_get b ADDMODE) =? IMX662_BINNING_MODE then u8 dr =? IMX662_594_MBPS
    else (u8 dr =? IMX662_720_MBPS) || (u8 dr =? IMX662_594_MBPS) in
  exists b',
    imx662_change_data_rate s dr b =
      ((0, if supported then s else set_data_rate_ctrl s IMX662_594_MBPS), b') /\
    healthy b' /\
    reg_get b' DATARATE_SEL = (if supported then u8 dr else IMX662_594_MBPS) /\
    reg_get b' ADDMODE = reg_get b ADDMODE /\
    reg_get b' LANEMODE =
      (if u8 (reg_get b LANEMODE) =? IMX662_TWO_LANE_MODE
       then IMX662_FOUR_LANE_MODE else reg_get b LANEMODE).
Proof.
  intros Hb supported. unfold imx662_change_data_rate.
  assert (Hsup :
    (if u8 (reg_get b ADDMODE) =? IMX662_BINNING_MODE
     then negb (u8 dr =? IMX662_594_MBPS)
     else negb (u8 dr =? IMX662_720_MBPS) && negb (u8 dr =? IMX662_594_MBPS))
    = negb supported).
  { unfold supported. destruct (u8 (reg_get b ADDMODE) =? IMX662_BINNING_MODE);
      [reflexivity|]. rewrite negb_orb. reflexivity. }
  bus_run Hb. change (u16 LANEMODE) with LANEMODE.
  destruct (u8 (reg_get b LANEMODE) =? IMX662_TWO_LANE_MODE) eqn:Hlane.
  - bus_run Hb. change (u16 ADDMODE) with ADDMODE. rewrite Hsup.
    destruct supported; cbn [negb]; bus_run Hb;
      change (u16 LANEMODE) with LANEMODE; change (u16 DATARATE_SEL) with DATARATE_SEL;
      rewrite ?u8_idem;
      (eexists; split; [reflexivity|]);
      (split; [repeat apply healthy_store; exact Hb|]);
      bus_run Hb; (split; [reflexivity|]); (split; [reflexivity|]);
      reflexivity.
  - bus_run Hb. change (u16 ADDMODE) with ADDMODE. rewrite Hsup.
    destruct supported; cbn [negb]; bus_run Hb;
      change (u16 DATARATE_SEL) with DATARATE_SEL;
      rewrite ?u8_idem;
      (eexists; split; [reflexivity|]);
      (split; [repeat apply healthy_store; exact Hb|]);
      bus_run Hb; (split; [reflexivity|]); (split; [reflexivity|]);
      reflexivity.
Qed.

Lemma adjust_hmax_keeps_lane_mode (s : imx662) (b : i2c_bus) :
  healthy b ->
  reg_get (snd (imx662_adjust_hmax_register s b)) LANEMODE = reg_get b LANEMODE.
Proof.
  intros Hb. unfold imx662_adjust_hmax_register.
  bus_run Hb.
  destruct (_ && _).
  - bus_run Hb. change (truthy (Z.lor (Z.lor (Z.lor 0 0) 0) 0)) with false.
    cbv iota. cbn [snd]. bus_run Hb. reflexivity.
  - destruct (_ =? IMX662_594_MBPS).
    + destruct (truthy _); bus_run Hb;
        change (truthy (Z.lor (Z.lor (Z.lor 0 0) 0) 0)) with false;
        cbv iota; cbn [snd]; bus_run Hb; reflexivity.
    + reflexivity.
Qed.

End MipiControls.

(** X8: on a bus without faults imx662_set_data_rate of imx662_mipi.c
    succeeds for every data rate asked for.  A rate outside the support
    matrix (anything but 594 Mbps with binning, anything but 720 or 594
    Mbps without) is replaced by 594 Mbps, in the register and in the
    data-rate control; a two-lane setting (LANEMODE 1) is switched to four
    lanes (LANEMODE 3) and any other lane setting is left as it is; and the
    line length programmed is 660 ticks at 720 Mbps, and at 594 Mbps 660
    ticks with a non-zero binning register and 990 ticks without. *)
Theorem set_data_rate_falls_back (s : Mipi.imx662) (dr : Z) (b : i2c_bus) :
  healthy b ->
  let binning := u8 (reg_get b Mipi.ADDMODE) in
  let supported :=
    if binning =? Mipi.IMX662_BINNING_MODE then u8 dr =? Mipi.IMX662_594_MBPS
    else (u8 dr =? Mipi.IMX662_720_MBPS) || (u8 dr =? Mipi.IMX662_594_MBPS) in
  let rate := if supported then u8 dr else Mipi.IMX662_594_MBPS in
  let hmax :=
    if rate =? Mipi.IMX662_720_MBPS then 660
    else if binning =? 0 then 990 else 660 in
  exists s' b',
    Mipi.imx662_set_data_rate s dr b = ((0, s'), b') /\
    reg_get b' Mipi.DATARATE_SEL = rate /\
    Mipi.data_rate_val s' =
      (if supported then Mipi.data_rate_val s else Mipi.IMX662_594_MBPS) /\
    reg_get b' Mipi.LANEMODE =
      (if u8 (reg_get b Mipi.LANEMODE) =? Mipi.IMX662_TWO_LANE_MODE
       then Mipi.IMX662_FOUR_LANE_MODE else reg_get b Mipi.LANEMODE) /\
    reg16 b' Mipi.HMAX_LOW Mipi.HMAX_HIGH = hmax /\
    Mipi.one_line_exp_time_ns (Mipi.ae_info (Mipi.cur_mode s')) =
      hmax * 10 ^ 9 / Mipi.IMX662_INCK.
Proof.
  intros Hb binning supported rate hmax.
  destruct (change_data_rate_healthy s dr b Hb)
    as (b1 & Hrun1 & Hb1 & Hdr1 & Hadd1 & Hlane1).
  fold binning in Hrun1, Hdr1. fold supported in Hrun1, Hdr1. fold rate in Hdr1.
  assert (Hrate : rate = Mipi.IMX662_720_MBPS \/ rate = Mipi.IMX662_594_MBPS).
  { unfold rate, supported.
    destruct (binning =? Mipi.IMX662_BINNING_MODE).
    - destruct (u8 dr =? Mipi.IMX662_594_MBPS) eqn:H7; [|right; reflexivity].
      apply Z.eqb_eq in H7. right. exact H7.
    - destruct (u8 dr =? Mipi.IMX662_720_MBPS) eqn:H6.
      + apply Z.eqb_eq in H6. left. exact H6.
      + destruct (u8 dr =? Mipi.IMX662_594_MBPS) eqn:H7; [|right; reflexivity].
        apply Z.eqb_eq in H7. right. exact H7. }
  set (s1 := if supported then s else Mipi.set_data_rate_ctrl s Mipi.IMX662_594_MBPS) in *.
  destruct (adjust_hmax_register_healthy s1 b1 hmax Hb1) as (b2 & Hrun2 & _ & Hh & Hdr2).
  { rewrite Hdr1, Hadd1. fold binning. unfold hmax.
    destruct Hrate as [-> | ->]; [reflexivity|].
    change (u8 Mipi.IMX662_594_MBPS =? Mipi.IMX662_720_MBPS) with false.
    change (u8 Mipi.IMX662_594_MBPS =? Mipi.IMX662_594_MBPS) with true.
    change (Mipi.IMX662_594_MBPS =? Mipi.IMX662_720_MBPS) with false.
    cbv iota. unfold truthy. destruct (binning =? 0); reflexivity. }
  pose proof (adjust_hmax_keeps_lane_mode s1 b1 Hb1) as Hlane2.
  rewrite Hrun2 in Hlane2. cbn [snd] in Hlane2.
  exists (Mipi.set_one_line_exp_time_ns s1
            (u32 (hmax * Mipi.IMX662_G_FACTOR / Mipi.IMX662_INCK))), b2.
  unfold Mipi.imx662_set_data_rate, io_bind, io_ret.
  rewrite Hrun1.
  repeat first [progress cbv beta iota | progress change (0 <? 0) with false].
  rewrite Hrun2. split; [reflexivity|].
  split; [rewrite Hdr2; exact Hdr1|].
  split; [unfold s1; destruct supported; reflexivity|].
  split; [rewrite Hlane2; exact Hlane1|].
  split; [exact Hh|].
  assert (Hhm : hmax = 660 \/ hmax = 990).
  { unfold hmax. destruct (rate =? _); [left; reflexivity|].
    destruct (binning =? 0); [right | left]; reflexivity. }
  destruct Hhm as [-> | ->]; reflexivity.
Qed.

Lemma set_data_rate_falls_back_witness :
  exists s' b',
    Mipi.imx662_set_data_rate
      (MipiSpec.sensor_in (Mipi.linear_mode 2 Mipi.IMX662_LINE_TIME_H660 90 90)
                          MEDIA_BUS_FMT_SRGGB12_1X12)
      Mipi.IMX662_720_MBPS
      (bus_of (<[Mipi.ADDMODE := 1]> (<[Mipi.LANEMODE := 1]> ∅))) = ((0, s'), b') /\
    reg_get b' Mipi.DATARATE_SEL = Mipi.IMX662_594_MBPS /\
    Mipi.data_rate_val s' = Mipi.IMX662_594_MBPS /\
    reg_get b' Mipi.LANEMODE = Mipi.IMX662_FOUR_LANE_MODE /\
    reg16 b' Mipi.HMAX_LOW Mipi.HMAX_HIGH = 660.
Proof.
  destruct (set_data_rate_falls_back
              (MipiSpec.sensor_in (Mipi.linear_mode 2 Mipi.IMX662_LINE_TIME_H660 90 90)
                                  MEDIA_BUS_FMT_SRGGB12_1X12)
              Mipi.IMX662_720_MBPS
              (bus_of (<[Mipi.ADDMODE := 1]> (<[Mipi.LANEMODE := 1]> ∅))))
    as (s' & b' & Hrun & Hrate & Hctrl & Hlane & Hh & _).
  - reflexivity.
  - exists s', b'. split; [exact Hrun|]. split; [exact Hrate|].
    split; [exact Hctrl|]. split; [exact Hlane | exact Hh].
Defined.

(** X9: imx662_set_sync_mode of imx662_mipi.c on a powered sensor and a
    bus without faults.  An external-sync request writes 1 to EXTMODE, any
    other request 0; the drive of the XVS/XHS pins is then chosen from the
    value read back from EXTMODE, compared with the values of the sync-mode
    menu: after an external-sync request both pins are outputs (0x0), after
    any other request both are high-impedance (0xF), and the setting 0x3
    (XVS high-impedance, XHS output) is never written. *)
Theorem set_sync_mode_pins (s : Mipi.imx662) (val undef : Z) (b : i2c_bus) :
  healthy b ->
  Mipi.powered_on s = 1 ->
  exists b',
    Mipi.imx662_set_sync_mode s val undef b = (0, b') /\
    reg_get b' Mipi.EXTMODE = (if val =? Mipi.EXTERNAL_SYNC then 1 else 0) /\
    reg_get b' Mipi.XVS_DRV_XHS_DRV = (if val =? Mipi.EXTERNAL_SYNC then 0x0 else 0xF).
Proof.
  intros Hb Hpow. unfold Mipi.imx662_set_sync_mode, Mipi.imx662_configure_triggering_pins.
  rewrite Hpow. change (1 =? 1) with true. cbv iota.
  bus_run Hb. change (u16 Mipi.EXTMODE) with Mipi.EXTMODE. bus_run Hb.
  destruct (val =? Mipi.EXTERNAL_SYNC);
    bus_run Hb;
    change (truthy 0) with false; cbv iota; change (0 <? 0) with false; cbv iota;
    (eexists; split; [reflexivity|]);
    change (u16 Mipi.EXTMODE) with Mipi.EXTMODE;
    change (u16 Mipi.XVS_DRV_XHS_DRV) with Mipi.XVS_DRV_XHS_DRV;
    bus_run Hb; split; reflexivity.
Qed.

Lemma set_sync_mode_pins_witness :
  exists b',
    Mipi.imx662_set_sync_mode
      (MipiSpec.sensor_in Mipi.clear_mode MEDIA_BUS_FMT_SRGGB12_1X12)
      Mipi.INTERNAL_SYNC 0 (bus_of ∅) = (0, b') /\
    reg_get b' Mipi.EXTMODE = 0 /\
    reg_get b' Mipi.XVS_DRV_XHS_DRV = 0xF.
Proof.
  destruct (set_sync_mode_pins
              (MipiSpec.sensor_in Mipi.clear_mode MEDIA_BUS_FMT_SRGGB12_1X12)
              Mipi.INTERNAL_SYNC 0 (bus_of ∅)) as (b' & Hrun & Hext & Hdrv).
  - reflexivity.
  - reflexivity.
  - exists b'. split; [exact Hrun|]. split; [exact Hext | exact Hdrv].
Defined.

(** X10: imx662_set_gain of imx662_mipi.c on a bus without faults, for a
    gain-time request of the ISP (which_control = 0) or a V4L2 control value
    of 0..720.  The code left in the gain register pair is the table lookup
    of the request on the ISP path and a third of the control value on the
    V4L2 path, cut to 80 while the clear-HDR mode is active; it never
    exceeds 240, and the register hold is released. *)
Theorem set_gain_register (s : Mipi.imx662) (gain wc : Z) (b : i2c_bus) :
  healthy b ->
  wc = 0 \/ 0 <= gain <= 720 ->
  let raw := if wc =? 0 then Mipi.imx662_get_gain_reg gain else gain / 3 in
  let code :=
    if Mipi.index (Mipi.cur_mode s) =? Mipi.IMX662_CLEAR_INDEX
    then Z.min 80 raw else raw in
  exists b',
    Mipi.imx662_set_gain s gain wc b = (0, b') /\
    reg16 b' Mipi.GAIN_LOW Mipi.GAIN_HIGH = code /\
    reg_get b' Mipi.REGHOLD = 0 /\
    0 <= code <= 240.
Proof.
  intros Hb Hreq raw code. unfold Mipi.imx662_set_gain.
  assert (Hraw : (if wc =? 0 then Mipi.imx662_get_gain_reg gain
                  else u32 (gain * Mipi.IMX662_MAX_GAIN_DEC) / (Mipi.IMX662_MAX_GAIN_DB * 10))
                 = raw /\ 0 <= raw <= 240).
  { unfold raw. destruct (wc =? 0) eqn:Hwc.
    - split; [reflexivity | apply get_gain_reg_range].
    - apply Z.eqb_neq in Hwc. destruct Hreq as [Hreq|Hreq]; [contradiction|].
      rewrite (v4l2_gain_code gain Hreq). split; [reflexivity|].
      Z.div_mod_to_equations. lia. }
  destruct Hraw as [-> Hraw].
  assert (Hcode : (if (Mipi.index (Mipi.cur_mode s) =? Mipi.IMX662_CLEAR_INDEX) && (raw >? 80)
                   then 80 else raw) = code /\ 0 <= code <= 240).
  { unfold code. destruct (Mipi.index (Mipi.cur_mode s) =? Mipi.IMX662_CLEAR_INDEX);
      cbn [andb]; [|split; [reflexivity | exact Hraw]].
    destruct (raw >? 80) eqn:Hgt.
    - apply Z.gtb_lt in Hgt. split; lia.
    - rewrite Z.gtb_ltb in Hgt. apply Z.ltb_ge in Hgt. split; lia. }
  destruct Hcode as [-> Hcode].
  bus_run Hb. eexists. split; [reflexivity|].
  unfold reg16.
  change (u16 Mipi.GAIN_LOW) with Mipi.GAIN_LOW.
  change (u16 Mipi.GAIN_HIGH) with Mipi.GAIN_HIGH.
  change (u16 Mipi.REGHOLD) with Mipi.REGHOLD.
  bus_run Hb. rewrite byte0, byte1.
  split; [apply bytes16; lia|]. split; [reflexivity | exact Hcode].
Qed.

Lemma set_gain_register_witness :
  exists b',
    Mipi.imx662_set_gain
      (MipiSpec.sensor_in Mipi.clear_mode MEDIA_BUS_FMT_SRGGB12_1X12) 300 1 (bus_of ∅)
      = (0, b') /\
    reg16 b' Mipi.GAIN_LOW Mipi.GAIN_HIGH = 80.
Proof.
  destruct (set_gain_register
              (MipiSpec.sensor_in Mipi.clear_mode MEDIA_BUS_FMT_SRGGB12_1X12)
              300 1 (bus_of ∅)) as (b' & Hrun & Hreg & _).
  - reflexivity.
  - right. lia.
  - exists b'. split; [exact Hrun | exact Hreg].
Defined.

(** X11: imx662_set_vs_gain of imx662_mipi.c on a bus without faults, for
    a gain-time request of the ISP (which_control = 0) or a V4L2 control
    value of 0..720.  The code left in the second gain register pair is the
    table lookup of the request (ISP) or a third of the control value
    (V4L2), cut to 200 in every mode; the register hold is released. *)
Theorem set_vs_gain_register (gain wc : Z) (b : i2c_bus) :
  healthy b ->
  wc = 0 \/ 0 <= gain <= 720 ->
  let raw := if wc =? 0 then Mipi.imx662_get_gain_reg gain else gain / 3 in
  exists b',
    Mipi.imx662_set_vs_gain gain wc b = (0, b') /\
    reg16 b' Mipi.GAIN_1_LOW Mipi.GAIN_1_HIGH = Z.min 200 raw /\
    reg_get b' Mipi.REGHOLD = 0.
Proof.
  intros Hb Hreq raw. unfold Mipi.imx662_set_vs_gain.
  assert (Hcode : Mipi.vs_gain_reg gain wc = Z.min 200 raw /\ 0 <= Z.min 200 raw <= 200).
  { unfold Mipi.vs_gain_reg, raw. destruct (wc =? 0) eqn:Hwc.
    - pose proof (get_gain_reg_range gain) as Hr.
      destruct (Mipi.imx662_get_gain_reg gain >? 200) eqn:Hgt.
      + apply Z.gtb_lt in Hgt. split; lia.
      + rewrite Z.gtb_ltb in Hgt. apply Z.ltb_ge in Hgt. split; lia.
    - apply Z.eqb_neq in Hwc. destruct Hreq as [Hreq|Hreq]; [contradiction|].
      rewrite (v4l2_gain_code gain Hreq).
      assert (0 <= gain / 3) by (Z.div_mod_to_equations; lia).
      destruct (gain / 3 >? 200) eqn:Hgt.
      + apply Z.gtb_lt in Hgt. split; lia.
      + rewrite Z.gtb_ltb in Hgt. apply Z.ltb_ge in Hgt. split; lia. }
  destruct Hcode as [-> Hcode].
  bus_run Hb. eexists. split; [reflexivity|].
  unfold reg16.
  change (u16 Mipi.GAIN_1_LOW) with Mipi.GAIN_1_LOW.
  change (u16 Mipi.GAIN_1_HIGH) with Mipi.GAIN_1_HIGH.
  change (u16 Mipi.REGHOLD) with Mipi.REGHOLD.
  bus_run Hb. rewrite byte0, byte1.
  split; [apply bytes16; lia | reflexivity].
Qed.

Lemma set_vs_gain_register_witness :
  exists b',
    Mipi.imx662_set_vs_gain 720 1 (bus_of ∅) = (0, b') /\
    reg16 b' Mipi.GAIN_1_LOW Mipi.GAIN_1_HIGH = 200.
Proof.
  destruct (set_vs_gain_register 720 1 (bus_of ∅)) as (b' & Hrun & Hreg & _).
  - reflexivity.
  - right. lia.
  - exists b'. split; [exact Hrun | exact Hreg].
Defined.

(** X12: imx662_set_exp_gain of imx662_mipi.c on a bus without faults, for
    a 32-bit request.  The code left in EXP_GAIN lies in 0..5: on the ISP
    path (which_control = 0) it is the number of the five bounds 1534, 3060,
    6106, 12182, 24306 that the request has reached, on the V4L2 path the
    request itself cut to 5. *)
Theorem set_exp_gain_register (gain wc : Z) (b : i2c_bus) :
  healthy b ->
  0 <= gain < 2 ^ 32 ->
  let code :=
    if wc =? 0
    then Z.of_nat (length (List.filter (fun bound => bound <=? gain) Mipi.exp_gain_bounds))
    else Z.min 5 gain in
  exists b',
    Mipi.imx662_set_exp_gain gain wc b = (0, b') /\
    reg_get b' Mipi.EXP_GAIN = code /\
    0 <= code <= 5.
Proof.
  intros Hb Hg code. unfold Mipi.imx662_set_exp_gain.
  assert (Hcode : Mipi.exp_gain_reg gain wc = code /\ 0 <= code <= 5).
  { unfold Mipi.exp_gain_reg, code, Mipi.exp_gain_bound, Mipi.exp_gain_bounds.
    cbn [nth List.filter]. change (u32 5) with 5.
    destruct (wc =? 0).
    - repeat match goal with
             | |- context [?x <? ?y] => destruct (Z.ltb_spec x y)
             | |- context [?x <=? ?y] => destruct (Z.leb_spec x y)
             end; try lia; (split; [vm_compute; reflexivity | simpl length; lia]).
    - rewrite (u32_small gain) by lia. split; lia. }
  destruct Hcode as [-> Hcode].
  bus_run Hb. eexists. split; [reflexivity|].
  change (u16 Mipi.EXP_GAIN) with Mipi.EXP_GAIN. bus_run Hb.
  split; [|exact Hcode]. unfold u8. apply Z.mod_small. lia.
Qed.

Lemma set_exp_gain_register_witness :
  exists b',
    Mipi.imx662_set_exp_gain 8134 0 (bus_of ∅) = (0, b') /\
    reg_get b' Mipi.EXP_GAIN = 3.
Proof.
  destruct (set_exp_gain_register 8134 0 (bus_of ∅)) as (b' & Hrun & Hreg & _).
  - reflexivity.
  - lia.
  - exists b'. split; [exact Hrun | exact Hreg].
Defined.

(** X13: on a bus without faults the shutter written by imx662_set_exp is
    what imx662_get_exp_register of imx662_mipi.c reads back, as far as the
    three registers hold it: the read succeeds and returns the computed
    shutter modulo 2^24, assembled from SHR0_HIGH, SHR0_MID and SHR0_LOW in
    this order. *)
Theorem get_exp_register_after_set_exp (s : Mipi.imx662) (exp wc : Z) (b : i2c_bus) :
  healthy b ->
  exists b',
    Mipi.imx662_set_exp s exp wc b = (0, b') /\
    Mipi.imx662_get_exp_register b' =
      ((0, Mipi.set_exp_reg_shr0 s exp wc mod 2 ^ 24), b').
Proof.
  intros Hb. unfold Mipi.imx662_set_exp.
  set (shr0 := Mipi.set_exp_reg_shr0 s exp wc).
  assert (Hpos : 0 <= shr0).
  { unfold shr0, Mipi.set_exp_reg_shr0.
    destruct (Mipi.index (Mipi.cur_mode s) =? Mipi.IMX662_CLEAR_INDEX);
      [unfold Mipi.IMX662_MIN_SHR0_CLEAR_LENGTH | unfold Mipi.IMX662_MIN_SHR0_LENGTH]; lia. }
  bus_run Hb. eexists. split; [reflexivity|].
  rewrite get_exp_register_healthy by (repeat apply healthy_store; exact Hb).
  unfold readback24.
  change (u16 Mipi.SHR0_LOW) with Mipi.SHR0_LOW.
  change (u16 Mipi.SHR0_MID) with Mipi.SHR0_MID.
  change (u16 Mipi.SHR0_HIGH) with Mipi.SHR0_HIGH.
  change (u16 Mipi.REGHOLD) with Mipi.REGHOLD.
  bus_run Hb. rewrite !u8_idem, byte0, byte1, byte2.
  rewrite (bytes24_mod shr0 Hpos). reflexivity.
Qed.

Lemma get_exp_register_after_set_exp_witness :
  exists b',
    Mipi.imx662_set_exp
      (MipiSpec.sensor_in (Mipi.linear_mode 2 Mipi.IMX662_LINE_TIME_H660 90 90)
                          MEDIA_BUS_FMT_SRGGB12_1X12)
      1000 1 (bus_of ∅) = (0, b') /\
    fst (fst (Mipi.imx662_get_exp_register b')) = 0.
Proof.
  destruct (get_exp_register_after_set_exp
              (MipiSpec.sensor_in (Mipi.linear_mode 2 Mipi.IMX662_LINE_TIME_H660 90 90)
                                  MEDIA_BUS_FMT_SRGGB12_1X12)
              1000 1 (bus_of ∅)) as (b' & Hrun & Hget).
  - reflexivity.
  - exists b'. split; [exact Hrun|]. rewrite Hget. reflexivity.
Defined.

(** ** Register access of fr_imx662.c under bus faults *)

Section FrBus.
Import Fr FrTableSpec.

(** One register write on a bus whose next transfer answers [e]. *)
Lemma fr_write_reg_script (reg len v e : Z) (rest : list Z) (b : i2c_bus) :
  script b = e :: rest ->
  0 <= len <= 4 ->
  Fr.imx662_write_reg reg len v b =
    if e <? 0 then (- EIO, mk_bus (regs b) (wlog b) rest)
    else (0, store_le (Z.to_nat len) (u16 reg) (u32 v) (mk_bus (regs b) (wlog b) rest)).
Proof.
  intros Hs Hlen. unfold Fr.imx662_write_reg.
  rewrite (u32_small len) by lia.
  destruct (len >? 4) eqn:H; [lia|].
  unfold i2c_transfer. rewrite Hs.
  destruct (e <? 0) eqn:He.
  - rewrite He. reflexivity.
  - change (0 <? 0) with false. reflexivity.
Qed.

(** A single-byte write stores one table entry. *)
Lemma fr_store_le_one (a v : Z) (b : i2c_bus) :
  store_le 1 (u16 a) (u32 v) b = reg_store b (u16 a) (u32 v mod 256).
Proof. cbn [store_le]. rewrite u16_idem. reflexivity. Qed.

Lemma fr_write_table_healthy (table : list (Z * Z)) (b : i2c_bus) :
  healthy b ->
  imx662_write_table table b = (0, MipiTableSpec.store_entries (map entry8 table) b).
Proof.
  revert b. induction table as [|[a v] table IH]; intros b Hb; [reflexivity|].
  cbn [imx662_write_table]. unfold io_bind.
  rewrite (fr_write_reg_healthy a 1 v b Hb) by lia.
  change (Z.to_nat 1) with 1%nat. rewrite fr_store_le_one.
  change (truthy 0) with false. cbv iota.
  rewrite IH by (apply healthy_store; exact Hb). reflexivity.
Qed.

Lemma reg_store_mk_bus (r : gmap Z Z) (l : list (Z * Z)) (s : list Z) (a v : Z) :
  reg_store (mk_bus r l s) a v = mk_bus (<[a := v]> r) (l ++ [(a, v)]) s.
Proof. reflexivity. Qed.

(** Registers outside the range of a multi-byte write keep their value. *)
Lemma fr_store_le_get_outside (n : nat) (a v x : Z) (b : i2c_bus) :
  0 <= a -> a + Z.of_nat n <= 2 ^ 16 ->
  x < a \/ a + Z.of_nat n <= x ->
  reg_get (store_le n a v b) x = reg_get b x.
Proof.
  revert a v b. induction n as [|n IH]; intros a v b Ha Hn Hx; [reflexivity|].
  cbn [store_le]. rewrite IH by lia.
  apply reg_get_store_ne. unfold u16. rewrite Z.mod_small by lia. lia.
Qed.

(** Reading back the registers of a multi-byte write assembles its bytes in
    the reverse order. *)
Lemma fr_load_be_store_le (n : nat) (a v acc : Z) (b : i2c_bus) :
  0 <= a -> a + Z.of_nat n <= 2 ^ 16 ->
  load_be n a acc (store_le n a v b) =
  acc * 256 ^ Z.of_nat n + byte_reverse n v.
Proof.
  revert a v acc b. induction n as [|n IH]; intros a v acc b Ha Hn.
  - cbn [load_be store_le byte_reverse]. change (256 ^ Z.of_nat 0) with 1. lia.
  - cbn [load_be store_le byte_reverse].
    assert (Hua : u16 a = a) by (unfold u16; apply Z.mod_small; lia).
    rewrite Hua.
    rewrite fr_store_le_get_outside by lia.
    rewrite reg_get_store_eq.
    rewrite IH by lia.
    assert (Hu : u8 (v mod 256) = v mod 256).
    { unfold u8. change (2 ^ 8) with 256. apply Z.mod_mod. lia. }
    rewrite Hu.
    replace (Z.of_nat (S n)) with (Z.of_nat n + 1) by lia.
    rewrite Z.pow_add_r by lia. change (256 ^ 1) with 256. ring.
Qed.

End FrBus.

(** X14: imx662_write_hold_reg of fr_imx662.c reports the outcome of the
    release of the register hold, not that of the data write.  When the
    hold is taken, the transfer of the data (of at most four bytes) fails
    and the release succeeds, the function returns 0 although the only
    registers written are the hold and its release. *)
Theorem write_hold_reg_masks_failed_write
    (reg len val h d r : Z) (rest : list Z) (b : i2c_bus) :
  script b = h :: d :: r :: rest ->
  0 <= h -> d < 0 -> 0 <= r ->
  0 <= len <= 4 ->
  Fr.imx662_write_hold_reg reg len val b =
    (0, mk_bus (<[Fr.REGHOLD := 0]> (<[Fr.REGHOLD := 1]> (regs b)))
               (wlog b ++ [(Fr.REGHOLD, 1); (Fr.REGHOLD, 0)]) rest).
Proof.
  intros Hs Hh Hd Hr Hlen. unfold Fr.imx662_write_hold_reg, io_bind, io_ret.
  rewrite (fr_write_reg_script Fr.REGHOLD 1 1 h (d :: r :: rest) b Hs) by lia.
  destruct (h <? 0) eqn:Hhb; [apply Z.ltb_lt in Hhb; lia|].
  cbv beta iota. change (truthy 0) with false. cbv beta iota.
  erewrite (fr_write_reg_script reg len val d (r :: rest)); [|reflexivity|lia].
  destruct (d <? 0) eqn:Hdb; [|apply Z.ltb_ge in Hdb; lia].
  cbv beta iota. change (truthy (- Fr.EIO)) with true. cbv beta iota.
  erewrite (fr_write_reg_script Fr.REGHOLD 1 0 r rest); [|reflexivity|lia].
  destruct (r <? 0) eqn:Hrb; [apply Z.ltb_lt in Hrb; lia|].
  change (Z.to_nat 1) with 1%nat. cbn [Fr.store_le reg_store regs wlog script].
  change (u16 (u16 Fr.REGHOLD)) with Fr.REGHOLD.
  change (u32 1 mod 256) with 1. change (u32 0 mod 256) with 0.
  unfold reg_store. cbn [regs wlog script].
  rewrite <- app_assoc. reflexivity.
Qed.

Lemma write_hold_reg_masks_failed_write_witness :
  Fr.imx662_write_hold_reg Fr.SHR0_LOW 3 1000 (faulty_bus ∅ [0; -5; 0]) =
    (0, mk_bus (<[Fr.REGHOLD := 0]> (<[Fr.REGHOLD := 1]> ∅))
               [(Fr.REGHOLD, 1); (Fr.REGHOLD, 0)] []).
Proof.
  apply (write_hold_reg_masks_failed_write Fr.SHR0_LOW 3 1000 0 (-5) 0 []
           (faulty_bus ∅ [0; -5; 0])).
  - reflexivity.
  - lia.
  - lia.
  - lia.
  - lia.
Defined.

(** X15: imx662_write_table of fr_imx662.c stops at the first transfer
    that fails.  When the first n transfers succeed and the next one fails,
    with n smaller than the length of the table, the function returns -EIO,
    the first n entries have been written in the order of the table (16
    address bits, the low byte of the value), and no later entry is
    sent. *)
Theorem write_table_stops_at_first_failure
    (table : list (Z * Z)) (oks : list Z) (e : Z) (rest : list Z) (b : i2c_bus) :
  script b = oks ++ e :: rest ->
  Forall (fun o => 0 <= o) oks ->
  e < 0 ->
  (length oks < length table)%nat ->
  Fr.imx662_write_table table b =
    (- Fr.EIO,
     MipiTableSpec.store_entries
       (map FrTableSpec.entry8 (firstn (length oks) table))
       (mk_bus (regs b) (wlog b) rest)).
Proof.
  revert table b. induction oks as [|o oks IH]; intros table b Hs Hok He Hlen.
  - destruct table as [|[a v] table]; [simpl in Hlen; lia|].
    cbn [length firstn map]. cbn [Fr.imx662_write_table]. unfold io_bind.
    rewrite (fr_write_reg_script a 1 v e rest b Hs) by lia.
    destruct (e <? 0) eqn:Heb; [|apply Z.ltb_ge in Heb; lia].
    reflexivity.
  - destruct table as [|[a v] table]; [simpl in Hlen; lia|].
    cbn [length firstn map]. cbn [Fr.imx662_write_table]. unfold io_bind.
    rewrite (fr_write_reg_script a 1 v o (oks ++ e :: rest) b Hs) by lia.
    apply Forall_cons in Hok. destruct Hok as [Ho Hok].
    destruct (o <? 0) eqn:Hob; [apply Z.ltb_lt in Hob; lia|].
    change (truthy 0) with false. cbv iota.
    change (Z.to_nat 1) with 1%nat. rewrite fr_store_le_one.
    rewrite reg_store_mk_bus.
    match goal with
    | |- context [Fr.imx662_write_table table ?bb] =>
        rewrite (IH table bb);
          [reflexivity | reflexivity | exact Hok | exact He | simpl in Hlen; lia]
    end.
Qed.

Lemma write_table_stops_at_first_failure_witness :
  Fr.imx662_write_table Fr.mode_h2v2_binning (faulty_bus ∅ [0; 0; -5; 0]) =
    (- Fr.EIO,
     mk_bus (<[Fr.ADDMODE := 1]> (<[Fr.WINMODE := 0]> ∅))
            [(Fr.WINMODE, 0); (Fr.ADDMODE, 1)] [0]).
Proof.
  apply (write_table_stops_at_first_failure Fr.mode_h2v2_binning [0; 0] (-5) [0]
           (faulty_bus ∅ [0; 0; -5; 0])).
  - reflexivity.
  - repeat constructor; lia.
  - lia.
  - simpl. lia.
Defined.

(** X16: a value written with imx662_write_reg of fr_imx662.c and read
    back with imx662_read_reg over the same registers comes back with its
    bytes in the reverse order: the write sends the least significant byte
    first, the read assembles the first register as the most significant
    byte.  On a bus without faults, for a length of at most four bytes and
    registers that do not run past the end of the address space, both calls
    succeed and the read returns the low bytes of the value reversed; a
    single byte comes back as it is. *)
Theorem read_reg_reverses_written_bytes (reg len val old : Z) (b : i2c_bus) :
  healthy b ->
  0 <= len <= 4 ->
  u16 reg + len <= 2 ^ 16 ->
  exists b',
    Fr.imx662_write_reg reg len val b = (0, b') /\
    Fr.imx662_read_reg reg len old b' =
      ((0, FrTableSpec.byte_reverse (Z.to_nat len) (u32 val)), b') /\
    FrTableSpec.byte_reverse 1 (u32 val) = u32 val mod 256.
Proof.
  intros Hb Hlen Hr.
  rewrite (fr_write_reg_healthy reg len val b Hb Hlen).
  eexists. split; [reflexivity|]. split.
  - unfold Fr.imx662_read_reg. rewrite (u32_small len) by lia.
    destruct (len >? 4) eqn:H; [lia|].
    rewrite transfer_healthy by (apply fr_store_le_healthy; exact Hb).
    change (0 <? 0) with false. cbv iota.
    assert (0 <= u16 reg) by (unfold u16; apply Z.mod_pos_bound; lia).
    rewrite fr_load_be_store_le by lia.
    reflexivity.
  - cbn [FrTableSpec.byte_reverse]. change (256 ^ Z.of_nat 0) with 1. lia.
Qed.

Lemma read_reg_reverses_written_bytes_witness :
  exists b',
    Fr.imx662_write_reg Fr.VMAX_LOW 2 0x1234 (bus_of ∅) = (0, b') /\
    Fr.imx662_read_reg Fr.VMAX_LOW 2 0 b' = ((0, 0x3412), b').
Proof.
  destruct (read_reg_reverses_written_bytes Fr.VMAX_LOW 2 0x1234 0 (bus_of ∅))
    as (b' & Hw & Hr & _).
  - reflexivity.
  - lia.
  - vm_compute. discriminate.
  - exists b'. split; [exact Hw | exact Hr].
Defined.

(** ** Mode entry (fr_imx662.c) *)

Section FrMode.
Import Fr FrTableSpec.

(** After a sequence of stores a register holds the last value stored to
    it, or what it held before. *)
Lemma reg_get_store_entries (es : list (Z * Z)) (b : i2c_bus) (a : Z) :
  reg_get (MipiTableSpec.store_entries es b) a =
  default (reg_get b a) (last_entry es a).
Proof.
  unfold last_entry.
  induction es as [|[a' v] es IH] using rev_ind; [reflexivity|].
  rewrite store_entries_app, rev_app_distr.
  cbn [rev app find fst snd MipiTableSpec.store_entries fold_left].
  destruct (a' =? a) eqn:Ha.
  - apply Z.eqb_eq in Ha. subst a'. cbn [option_map default snd].
    apply reg_get_store_eq.
  - apply Z.eqb_neq in Ha. rewrite reg_get_store_ne by exact Ha. exact IH.
Qed.

Lemma fr_write_hold_reg_entries (reg v : Z) (b : i2c_bus) :
  healthy b ->
  imx662_write_hold_reg reg 2 v b =
    (0, MipiTableSpec.store_entries
          [ (REGHOLD, 1); (u16 reg, u32 v mod 256);
            (u16 (u16 reg + 1), u32 v / 256 mod 256); (REGHOLD, 0) ] b).
Proof.
  intros Hb. rewrite (fr_write_hold_reg_healthy reg 2 v b Hb) by lia.
  change (Z.to_nat 2) with 2%nat. cbn [store_le]. rewrite u16_idem. reflexivity.
Qed.

(** On a bus without faults [imx662_set_mode] succeeds for the link
    frequencies and operation modes that the driver knows, and performs the
    writes of [set_mode_entries]. *)
Lemma fr_set_mode_healthy (st : imx662) (b : i2c_bus) :
  healthy b ->
  linkfreq (mode st) = _IMX662_LINK_FREQ_720 \/ linkfreq (mode st) = _IMX662_LINK_FREQ_594 ->
  val (ctrls st V4L2_CID_OPERATION_MODE) = MASTER_MODE \/
  val (ctrls st V4L2_CID_OPERATION_MODE) = SLAVE_MODE ->
  imx662_set_mode st b = (0, MipiTableSpec.store_entries (set_mode_entries st) b).
Proof.
  intros Hb Hlf Hop. unfold imx662_set_mode, io_bind, io_ret, set_mode_entries.
  rewrite !store_entries_app.
  rewrite (fr_write_table_healthy _ b Hb).
  cbv beta iota. change (truthy 0) with false. cbv beta iota.
  rewrite fr_write_table_healthy by (repeat apply store_entries_healthy; exact Hb).
  cbv beta iota. change (truthy 0) with false. cbv beta iota.
  rewrite fr_write_table_healthy by (repeat apply store_entries_healthy; exact Hb).
  cbv beta iota. change (truthy 0) with false. cbv beta iota.
  unfold imx662_set_hmax_register.
  rewrite fr_write_hold_reg_entries by (repeat apply store_entries_healthy; exact Hb).
  cbv beta iota. change (truthy 0) with false. cbv beta iota.
  set (b3 := MipiTableSpec.store_entries (map entry8 (reg_list_format (mode st))) _).
  assert (Hb3 : healthy b3) by (repeat apply store_entries_healthy; exact Hb).
  change (u16 HMAX_LOW) with HMAX_LOW.
  change (u16 (HMAX_LOW + 1)) with (HMAX_LOW + 1).
  set (b4 := MipiTableSpec.store_entries [(REGHOLD, 1); _; _; (REGHOLD, 0)] b3).
  assert (Hb4 : healthy b4) by (apply store_entries_healthy; exact Hb3).
  assert (Hdr : imx662_set_data_rate st b4 =
                (0, reg_store b4 DATARATE_SEL
                      (if linkfreq (mode st) =? _IMX662_LINK_FREQ_720 then 6 else 7))).
  { unfold imx662_set_data_rate.
    destruct Hlf as [-> | ->].
    - change (_IMX662_LINK_FREQ_720 =? _IMX662_LINK_FREQ_720) with true. cbv iota.
      rewrite (fr_write_reg_healthy _ 1 _ b4 Hb4) by lia. reflexivity.
    - change (_IMX662_LINK_FREQ_594 =? _IMX662_LINK_FREQ_720) with false.
      change (_IMX662_LINK_FREQ_594 =? _IMX662_LINK_FREQ_594) with true. cbv iota.
      rewrite (fr_write_reg_healthy _ 1 _ b4 Hb4) by lia. reflexivity. }
  rewrite Hdr. cbv beta iota. change (truthy 0) with false. cbv beta iota.
  set (b5 := reg_store b4 DATARATE_SEL _).
  assert (Hb5 : healthy b5) by (apply healthy_store; exact Hb4).
  unfold imx662_configure_triggering_pins.
  destruct Hop as [Hop | Hop]; rewrite Hop.
  - change (MASTER_MODE =? MASTER_MODE) with true. cbv iota. cbn [andb].
    rewrite (fr_write_reg_healthy _ 1 _ b5 Hb5) by lia.
    destruct (val (ctrls st V4L2_CID_SYNC_MODE) =? INTERNAL_SYNC); reflexivity.
  - change (SLAVE_MODE =? MASTER_MODE) with false.
    change (SLAVE_MODE =? SLAVE_MODE) with true. cbv iota. cbn [andb].
    rewrite (fr_write_reg_healthy _ 1 _ b5 Hb5) by lia. reflexivity.
Qed.

End FrMode.

(** X17: imx662_set_mode of fr_imx662.c programs what the mode tables
    declare.  For every mode of modes_12bit and modes_10bit, on a bus
    without faults and in master or slave operation, it succeeds and leaves
    the line length of the mode in HMAX, the data rate of its link frequency
    in DATARATE_SEL (6 for 720 Mbps, 7 for 594 Mbps), the output bit depth
    of its table in MDBIT (1 for the modes of modes_12bit, 0 for those of
    modes_10bit), the binning flag in ADDMODE and, for the modes without
    binning, the width and height of the mode in the crop registers; the
    register hold is released. *)
Theorem set_mode_programs_declared_geometry (st : Fr.imx662) (b : i2c_bus) :
  healthy b ->
  In (Fr.mode st) (Fr.modes_12bit ++ Fr.modes_10bit) ->
  val (Fr.ctrls st Fr.V4L2_CID_OPERATION_MODE) = Fr.MASTER_MODE \/
  val (Fr.ctrls st Fr.V4L2_CID_OPERATION_MODE) = Fr.SLAVE_MODE ->
  let m := Fr.mode st in
  let binning := Fr.width m =? Fr.IMX662_MODE_BINNING_H2V2_WIDTH in
  exists b',
    Fr.imx662_set_mode st b = (0, b') /\
    reg16 b' Fr.HMAX_LOW (Fr.HMAX_LOW + 1) = Fr.hmax m /\
    reg_get b' Fr.DATARATE_SEL =
      (if Fr.linkfreq m =? Fr._IMX662_LINK_FREQ_720 then 6 else 7) /\
    (In m Fr.modes_12bit -> reg_get b' Fr.MDBIT = 1) /\
    (In m Fr.modes_10bit -> reg_get b' Fr.MDBIT = 0) /\
    reg_get b' Fr.ADDMODE = (if binning then 1 else 0) /\
    (binning = false ->
     reg16 b' Fr.PIX_HWIDTH_LOW Fr.PIX_HWIDTH_HIGH = Fr.width m /\
     reg16 b' Fr.PIX_VWIDTH_LOW Fr.PIX_VWIDTH_HIGH = Fr.height m) /\
    reg_get b' Fr.REGHOLD = 0.
Proof.
  intros Hb Hin Hop m binning.
  assert (Hlf : Fr.linkfreq m = Fr._IMX662_LINK_FREQ_720 \/
                Fr.linkfreq m = Fr._IMX662_LINK_FREQ_594).
  { unfold m. cbn in Hin.
    destruct Hin as [<-|[<-|[<-|[<-|[<-|[<-|[<-|[]]]]]]]]; cbn; auto. }
  rewrite (fr_set_mode_healthy st b Hb Hlf Hop).
  eexists. split; [reflexivity|].
  unfold reg16. rewrite !reg_get_store_entries.
  unfold FrTableSpec.set_mode_entries.
  set (x := if (_ =? Fr.MASTER_MODE) && _ then 0 else 15). clearbody x.
  unfold binning, m. clear binning m Hlf Hop.
  cbn in Hin.
  destruct Hin as [<-|[<-|[<-|[<-|[<-|[<-|[<-|[]]]]]]]];
    vm_compute; repeat split; intros; try reflexivity; try discriminate;
    intuition discriminate.
Qed.

Lemma set_mode_programs_declared_geometry_witness :
  exists b',
    Fr.imx662_set_mode (FrSpec.sensor_in FrSpec.mode_10bit_full
                          MEDIA_BUS_FMT_SRGGB10_1X10 1 false) (bus_of ∅) = (0, b') /\
    reg16 b' Fr.HMAX_LOW (Fr.HMAX_LOW + 1) = 660 /\
    reg16 b' Fr.PIX_HWIDTH_LOW Fr.PIX_HWIDTH_HIGH = 1920 /\
    reg16 b' Fr.PIX_VWIDTH_LOW Fr.PIX_VWIDTH_HIGH = 1080.
Proof.
  destruct (set_mode_programs_declared_geometry
              (FrSpec.sensor_in FrSpec.mode_10bit_full MEDIA_BUS_FMT_SRGGB10_1X10 1 false)
              (bus_of ∅))
    as (b' & Hrun & Hh & _ & _ & _ & _ & Hgeo & _).
  - reflexivity.
  - vm_compute. tauto.
  - left. reflexivity.
  - exists b'. split; [exact Hrun|]. split; [exact Hh|].
    apply Hgeo. reflexivity.
Defined.

(** ** Streaming and runtime power management (fr_imx662.c) *)

Section FrStream.
Import Fr FrPowerSpec.

Lemma keeps_power_refl (st : imx662) : keeps_power st st.
Proof. repeat split; reflexivity. Qed.

Lemma keeps_power_trans (st1 st2 st3 : imx662) :
  keeps_power st1 st2 -> keeps_power st2 st3 -> keeps_power st1 st3.
Proof. intros (H1 & H2 & H3) (H4 & H5 & H6). repeat split; congruence. Qed.

(** The reference that [apply_ctrl] takes is dropped on every path. *)
Lemma fr_apply_ctrl_keeps_power (st : imx662) (id : ctrl_id) (b : i2c_bus) :
  keeps_power st (snd (fst (apply_ctrl st id b))).
Proof.
  unfold apply_ctrl, pm_runtime_get_if_in_use, io_bind, io_ret.
  destruct (pm_usage st >? 0); [|apply keeps_power_refl].
  change (1 =? 0) with false; cbv beta iota.
  destruct id; try (repeat split; cbn; try lia; reflexivity);
    match goal with
    | |- context [let '(_, _) := ?c b in _] => destruct (c b)
    end; repeat split; cbn; try lia; reflexivity.
Qed.

Lemma fr_modify_range_keeps_power
    (cb : imx662 -> ctrl_id -> io (Z * imx662))
    (st : imx662) (id : ctrl_id) (min max step def : Z) (b : i2c_bus) :
  (forall s i b0, keeps_power s (snd (fst (cb s i b0)))) ->
  keeps_power st (fst (__v4l2_ctrl_modify_range cb st id min max step def b)).
Proof.
  intros Hcb. unfold __v4l2_ctrl_modify_range, io_bind, io_ret.
  destruct (_ =? _); [repeat split; reflexivity|].
  match goal with
  | |- context [cb ?s ?i b] =>
      pose proof (Hcb s i b) as H; destruct (cb s i b) as [[r s'] b']
  end.
  cbn [fst snd] in *. destruct H as (H1 & H2 & H3).
  repeat split; [rewrite H1 | rewrite H2 | rewrite H3]; reflexivity.
Qed.

Lemma fr_s_ctrl_keeps_power
    (cb : imx662 -> ctrl_id -> io (Z * imx662))
    (st : imx662) (id : ctrl_id) (v : Z) (b : i2c_bus) :
  (forall s i b0, keeps_power s (snd (fst (cb s i b0)))) ->
  keeps_power st (snd (fst (__v4l2_ctrl_s_ctrl cb st id v b))).
Proof.
  intros Hcb. unfold __v4l2_ctrl_s_ctrl, io_ret.
  destruct (_ =? _); [apply keeps_power_refl|].
  match goal with
  | |- context [cb ?s ?i b] => destruct (Hcb s i b) as (H1 & H2 & H3)
  end.
  repeat split; [rewrite H1 | rewrite H2 | rewrite H3]; reflexivity.
Qed.

Lemma fr_adjust_exposure_range_keeps_power (st : imx662) (b : i2c_bus) :
  keeps_power st (fst (imx662_adjust_exposure_range st b)).
Proof.
  apply fr_modify_range_keeps_power. intros; apply fr_apply_ctrl_keeps_power.
Qed.

Lemma fr_set_ctrl_vblank_keeps_power (st : imx662) (b : i2c_bus) :
  keeps_power st (snd (fst (set_ctrl_vblank st b))).
Proof.
  unfold set_ctrl_vblank, io_bind.
  pose proof (fr_adjust_exposure_range_keeps_power st b) as H1.
  destruct (imx662_adjust_exposure_range st b) as [st1 b1]. cbn [fst] in H1.
  exact (keeps_power_trans _ _ _ H1 (fr_apply_ctrl_keeps_power st1 _ b1)).
Qed.

Lemma fr_update_frame_rate_keeps_power (st : imx662) (v : Z) (b : i2c_bus) :
  keeps_power st (fst (imx662_update_frame_rate st v b)).
Proof.
  unfold imx662_update_frame_rate, io_bind, io_ret.
  set (st0 := set_frame_length st (update_frame_rate_length st v)).
  set (uv := u32 (frame_length st0 - height (mode st0))).
  set (cb := fun (s : imx662) (_ : ctrl_id) => set_ctrl_vblank s).
  assert (Hcb : forall s i b0, keeps_power s (snd (fst (cb s i b0))))
    by (intros; apply fr_set_ctrl_vblank_keeps_power).
  pose proof (fr_modify_range_keeps_power cb st0 V4L2_CID_VBLANK uv uv 1 uv b Hcb) as H1.
  destruct (__v4l2_ctrl_modify_range cb st0 V4L2_CID_VBLANK uv uv 1 uv b) as [st1 b1].
  pose proof (fr_s_ctrl_keeps_power cb st1 V4L2_CID_VBLANK uv b1 Hcb) as H2.
  destruct (__v4l2_ctrl_s_ctrl cb st1 V4L2_CID_VBLANK uv b1) as [[r st2] b2].
  cbn [fst snd] in *.
  exact (keeps_power_trans st st1 st2 H1 H2).
Qed.

Lemma fr_set_ctrl_keeps_power (st : imx662) (id : ctrl_id) (b : i2c_bus) :
  keeps_power st (snd (fst (imx662_set_ctrl st id b))).
Proof.
  unfold imx662_set_ctrl, io_bind.
  assert (H1 : keeps_power st
                 (fst (match id with
                       | V4L2_CID_FRAME_RATE =>
                           imx662_update_frame_rate st (val (ctrls st id))
                       | V4L2_CID_VBLANK => imx662_adjust_exposure_range st
                       | _ => io_ret st
                       end b))).
  { destruct id; try apply keeps_power_refl.
    - apply fr_adjust_exposure_range_keeps_power.
    - apply fr_update_frame_rate_keeps_power. }
  match type of H1 with
  | keeps_power st (fst (?c b)) => destruct (c b) as [st1 b1]
  end.
  cbn [fst] in H1.
  exact (keeps_power_trans _ _ _ H1 (fr_apply_ctrl_keeps_power st1 id b1)).
Qed.

Lemma fr_handler_setup_keeps_power (ids : list ctrl_id) (st : imx662) (b : i2c_bus) :
  keeps_power st (snd (fst (handler_setup_from imx662_set_ctrl ids st b))).
Proof.
  revert st b. induction ids as [|id ids IH]; intros st b; [apply keeps_power_refl|].
  cbn [handler_setup_from]. unfold io_bind, io_ret.
  pose proof (fr_set_ctrl_keeps_power st id b) as H1.
  destruct (imx662_set_ctrl st id b) as [[r st1] b1]. cbn [fst snd] in H1.
  destruct (truthy r); [exact H1|].
  exact (keeps_power_trans _ _ _ H1 (IH st1 b1)).
Qed.

Lemma fr_link_start_keeps_power (st : imx662) :
  keeps_power st (snd (link_start st)).
Proof.
  unfold link_start. destruct (gmsl st); [|apply keeps_power_refl].
  destruct (link_call _ (link st)) as [r g].
  destruct (truthy r); [repeat split; reflexivity|].
  destruct (link_call DesSetupStreaming g) as [r1 g1].
  destruct (truthy r1); [repeat split; reflexivity|].
  destruct (link_call DesStartStreaming g1) as [r2 g2]. repeat split; reflexivity.
Qed.

Lemma fr_start_streaming_keeps_power (st : imx662) (b : i2c_bus) :
  keeps_power st (snd (fst (imx662_start_streaming st b))).
Proof.
  unfold imx662_start_streaming, io_bind, io_ret.
  pose proof (fr_link_start_keeps_power st) as H0.
  destruct (link_start st) as [r0 st0]. cbn [snd] in H0.
  destruct (truthy r0); [exact H0|].
  destruct (imx662_set_mode st0 b) as [r1 b1].
  destruct (truthy r1); [exact H0|].
  pose proof (fr_handler_setup_keeps_power handler_ctrls st0 b1) as H2.
  fold (__v4l2_ctrl_handler_setup imx662_set_ctrl st0) in H2.
  destruct (__v4l2_ctrl_handler_setup imx662_set_ctrl st0 b1) as [[r2 st2] b2].
  cbn [fst snd] in H2.
  pose proof (keeps_power_trans _ _ _ H0 H2) as H02.
  destruct (truthy r2); [exact H02|].
  destruct (imx662_write_reg STANDBY 1 IMX662_MODE_STREAMING b2) as [r3 b3].
  destruct (truthy r3); [exact H02|].
  destruct (val (ctrls st2 V4L2_CID_OPERATION_MODE) =? MASTER_MODE);
    match goal with
    | |- context [let '(_, _) := ?c b3 in _] => destruct (c b3)
    end; exact H02.
Qed.

Lemma fr_stop_streaming_keeps_power (st : imx662) (b : i2c_bus) :
  keeps_power st (fst (imx662_stop_streaming st b)).
Proof.
  unfold imx662_stop_streaming, io_bind, io_ret.
  destruct (imx662_write_reg XMSTA 1 1 b) as [r1 b1].
  destruct (imx662_write_reg STANDBY 1 IMX662_MODE_STANDBY b1) as [r2 b2].
  cbn [fst]. destruct (gmsl st); [|apply keeps_power_refl].
  destruct (link_call SerBypassPclkDis (link st)) as [r g].
  destruct (link_call DesStopStreaming g) as [r' g']. repeat split; reflexivity.
Qed.

End FrStream.

(** X18: imx662_set_stream of fr_imx662.c keeps the references of runtime
    power management balanced, whatever the bus and the link partner
    answer.  For a request that changes the streaming state: a stop returns
    0, drops exactly one reference and clears the streaming flag; a start
    that succeeds holds exactly one more reference and sets the flag; a
    start that fails, at power-up, on the link or at any register write,
    gives its reference back and leaves the flag as it was. *)
Theorem set_stream_balances_power_references
    (st : Fr.imx662) (enable : Z) (b : i2c_bus) :
  of_bool (Fr.streaming st) <> enable ->
  let r := Fr.imx662_set_stream st enable b in
  let ret := fst (fst r) in
  let st' := snd (fst r) in
  if enable =? 0 then
    ret = 0 /\ Fr.pm_usage st' = Fr.pm_usage st - 1 /\ Fr.streaming st' = false
  else if ret =? 0 then
    Fr.pm_usage st' = Fr.pm_usage st + 1 /\ Fr.streaming st' = true
  else
    Fr.pm_usage st' = Fr.pm_usage st /\ Fr.streaming st' = Fr.streaming st.
Proof.
  intros Hne. cbv zeta. unfold Fr.imx662_set_stream.
  destruct (of_bool (Fr.streaming st) =? enable) eqn:Heq;
    [apply Z.eqb_eq in Heq; contradiction|].
  unfold truthy. destruct (enable =? 0) eqn:Hen; cbn [negb].
  - unfold io_bind, io_ret.
    pose proof (fr_stop_streaming_keeps_power st b) as (Hpm & _ & _).
    destruct (Fr.imx662_stop_streaming st b) as [st1 b1]. cbn [fst snd] in *.
    split; [reflexivity|]. split; [|reflexivity].
    cbn. lia.
  - unfold Fr.pm_runtime_get_sync, io_bind, io_ret.
    destruct (Fr.pm_resume st <? 0) eqn:Hres.
    + cbn [fst snd]. apply Z.ltb_lt in Hres.
      destruct (Fr.pm_resume st =? 0) eqn:H0; [apply Z.eqb_eq in H0; lia|].
      split; [cbn; lia | reflexivity].
    + pose proof (fr_start_streaming_keeps_power
                    (Fr.set_pm_usage st (Fr.pm_usage st + 1)) b) as (Hpm & Hstr & _).
      destruct (Fr.imx662_start_streaming (Fr.set_pm_usage st (Fr.pm_usage st + 1)) b)
        as [[ret st1] b1].
      cbn [fst snd] in Hpm, Hstr.
      destruct (ret =? 0) eqn:Hret; cbn [negb fst snd]; rewrite Hret.
      * split; [cbn; rewrite Hpm; reflexivity | reflexivity].
      * split; [cbn; rewrite Hpm; cbn; lia | cbn; rewrite Hstr; reflexivity].
Qed.

Lemma set_stream_balances_power_references_witness :
  let r := Fr.imx662_set_stream
             (FrSpec.sensor_in FrSpec.mode_12bit_full MEDIA_BUS_FMT_SRGGB12_1X12 0 false)
             1 (faulty_bus ∅ [0; 0; -5]) in
  fst (fst r) = - Fr.EIO /\ Fr.pm_usage (snd (fst r)) = 0 /\
  Fr.streaming (snd (fst r)) = false.
Proof.
  pose proof (set_stream_balances_power_references
                (FrSpec.sensor_in FrSpec.mode_12bit_full MEDIA_BUS_FMT_SRGGB12_1X12 0 false)
                1 (faulty_bus ∅ [0; 0; -5])) as H.
  cbv zeta in *.
  assert (Hret : fst (fst (Fr.imx662_set_stream
             (FrSpec.sensor_in FrSpec.mode_12bit_full MEDIA_BUS_FMT_SRGGB12_1X12 0 false)
             1 (faulty_bus ∅ [0; 0; -5]))) = - Fr.EIO) by (vm_compute; reflexivity).
  rewrite Hret in H |- *.
  split; [reflexivity|].
  apply H. vm_compute. discriminate.
Defined.

(** ** Stream start and stop on a bus without faults (fr_imx662.c) *)

Section FrStreamClean.
Import Fr FrPowerSpec.

Ltac fr_bus_clean Hb :=
  repeat first
    [ rewrite fr_write_hold_reg_healthy
        by (repeat first [apply healthy_store | apply fr_store_le_healthy
                         | apply store_entries_healthy]; try exact Hb; lia)
    | rewrite fr_write_reg_healthy
        by (repeat first [apply healthy_store | apply fr_store_le_healthy
                         | apply store_entries_healthy]; try exact Hb; lia)
    | rewrite fr_write_table_healthy
        by (repeat first [apply healthy_store | apply fr_store_le_healthy
                         | apply store_entries_healthy]; exact Hb)
    | progress cbv beta iota
    | progress change (truthy 0) with false ].

Ltac fr_healthy Hb :=
  repeat first [apply healthy_store | apply fr_store_le_healthy
               | apply store_entries_healthy]; exact Hb.

Lemma fr_set_test_pattern_healthy (st : imx662) (v : Z) (b : i2c_bus) :
  healthy b -> healthy (snd (imx662_set_test_pattern st v b)).
Proof.
  intros Hb. unfold imx662_set_test_pattern, io_bind, io_ret.
  destruct (truthy (u32 v)); fr_bus_clean Hb; cbn [snd]; fr_healthy Hb.
Qed.

(** On a bus without faults every control is applied with success. *)
Lemma fr_apply_ctrl_clean (st : imx662) (id : ctrl_id) (b : i2c_bus) :
  healthy b -> runs_clean (apply_ctrl st id b).
Proof.
  intros Hb. unfold runs_clean, apply_ctrl, pm_runtime_get_if_in_use.
  destruct (pm_usage st >? 0); [|split; [reflexivity | exact Hb]].
  change (1 =? 0) with false; cbv beta iota.
  destruct id;
    unfold imx662_set_exposure, imx662_set_frame_rate, imx662_set_blklvl,
      imx662_set_sync_mode, io_bind, io_ret;
    try (fr_bus_clean Hb; split; [reflexivity | cbn [snd]; fr_healthy Hb]).
  pose proof (fr_set_test_pattern_healthy
                (set_pm_usage st (pm_usage st + 1))
                (val (ctrls (set_pm_usage st (pm_usage st + 1)) V4L2_CID_TEST_PATTERN))
                b Hb) as H.
  destruct (imx662_set_test_pattern _ _ b) as [r b1].
  split; [reflexivity | exact H].
Qed.

Lemma fr_modify_range_healthy
    (cb : imx662 -> ctrl_id -> io (Z * imx662))
    (st : imx662) (id : ctrl_id) (min max step def : Z) (b : i2c_bus) :
  (forall s i b0, healthy b0 -> runs_clean (cb s i b0)) ->
  healthy b ->
  healthy (snd (__v4l2_ctrl_modify_range cb st id min max step def b)).
Proof.
  intros Hcb Hb. unfold __v4l2_ctrl_modify_range, io_bind, io_ret.
  destruct (_ =? _); [exact Hb|].
  match goal with
  | |- context [cb ?s ?i b] =>
      destruct (Hcb s i b Hb) as [_ H]; destruct (cb s i b) as [[r s'] b']
  end.
  exact H.
Qed.

Lemma fr_s_ctrl_clean
    (cb : imx662 -> ctrl_id -> io (Z * imx662))
    (st : imx662) (id : ctrl_id) (v : Z) (b : i2c_bus) :
  (forall s i b0, healthy b0 -> runs_clean (cb s i b0)) ->
  healthy b ->
  runs_clean (__v4l2_ctrl_s_ctrl cb st id v b).
Proof.
  intros Hcb Hb. unfold __v4l2_ctrl_s_ctrl, io_ret.
  destruct (_ =? _); [split; [reflexivity | exact Hb]|].
  apply Hcb. exact Hb.
Qed.

Lemma fr_adjust_exposure_range_healthy (st : imx662) (b : i2c_bus) :
  healthy b -> healthy (snd (imx662_adjust_exposure_range st b)).
Proof.
  apply fr_modify_range_healthy. intros; apply fr_apply_ctrl_clean; assumption.
Qed.

Lemma fr_set_ctrl_vblank_clean (st : imx662) (b : i2c_bus) :
  healthy b -> runs_clean (set_ctrl_vblank st b).
Proof.
  intros Hb. unfold set_ctrl_vblank, io_bind.
  pose proof (fr_adjust_exposure_range_healthy st b Hb) as H1.
  destruct (imx662_adjust_exposure_range st b) as [st1 b1]. cbn [snd] in H1.
  apply fr_apply_ctrl_clean. exact H1.
Qed.

Lemma fr_update_frame_rate_healthy (st : imx662) (v : Z) (b : i2c_bus) :
  healthy b -> healthy (snd (imx662_update_frame_rate st v b)).
Proof.
  intros Hb. unfold imx662_update_frame_rate, io_bind, io_ret.
  set (st0 := set_frame_length st (update_frame_rate_length st v)).
  set (uv := u32 (frame_length st0 - height (mode st0))).
  set (cb := fun (s : imx662) (_ : ctrl_id) => set_ctrl_vblank s).
  assert (Hcb : forall s i b0, healthy b0 -> runs_clean (cb s i b0))
    by (intros; apply fr_set_ctrl_vblank_clean; assumption).
  pose proof (fr_modify_range_healthy cb st0 V4L2_CID_VBLANK uv uv 1 uv b Hcb Hb) as H1.
  destruct (__v4l2_ctrl_modify_range cb st0 V4L2_CID_VBLANK uv uv 1 uv b) as [st1 b1].
  cbn [snd] in H1.
  destruct (fr_s_ctrl_clean cb st1 V4L2_CID_VBLANK uv b1 Hcb H1) as [_ H2].
  destruct (__v4l2_ctrl_s_ctrl cb st1 V4L2_CID_VBLANK uv b1) as [[r st2] b2].
  exact H2.
Qed.

Lemma fr_set_ctrl_clean (st : imx662) (id : ctrl_id) (b : i2c_bus) :
  healthy b -> runs_clean (imx662_set_ctrl st id b).
Proof.
  intros Hb. unfold imx662_set_ctrl, io_bind.
  assert (H1 : healthy
                 (snd (match id with
                       | V4L2_CID_FRAME_RATE =>
                           imx662_update_frame_rate st (val (ctrls st id))
                       | V4L2_CID_VBLANK => imx662_adjust_exposure_range st
                       | _ => io_ret st
                       end b))).
  { destruct id; try exact Hb.
    - apply fr_adjust_exposure_range_healthy. exact Hb.
    - apply fr_update_frame_rate_healthy. exact Hb. }
  match type of H1 with
  | healthy (snd (?c b)) => destruct (c b) as [st1 b1]
  end.
  cbn [snd] in H1. apply fr_apply_ctrl_clean. exact H1.
Qed.

Lemma fr_handler_setup_clean (ids : list ctrl_id) (st : imx662) (b : i2c_bus) :
  healthy b -> runs_clean (handler_setup_from imx662_set_ctrl ids st b).
Proof.
  revert st b. induction ids as [|id ids IH]; intros st b Hb;
    [split; [reflexivity | exact Hb]|].
  cbn [handler_setup_from]. unfold io_bind, io_ret.
  destruct (fr_set_ctrl_clean st id b Hb) as [H0 H1].
  destruct (imx662_set_ctrl st id b) as [[r st1] b1]. cbn [fst snd] in H0, H1.
  subst r. change (truthy 0) with false. cbv iota.
  apply IH. exact H1.
Qed.

(** The grabbed flags and the operation mode after the four grabs of
    [imx662_set_stream]. *)
Lemma fr_grab_all_ctrls (st : imx662) (g : bool) :
  let st' :=
    __v4l2_ctrl_grab
      (__v4l2_ctrl_grab
         (__v4l2_ctrl_grab
            (__v4l2_ctrl_grab (set_streaming st g) V4L2_CID_VFLIP g)
            V4L2_CID_HFLIP g)
         V4L2_CID_OPERATION_MODE g)
      V4L2_CID_SYNC_MODE g in
  grabbed (ctrls st' V4L2_CID_VFLIP) = g /\
  grabbed (ctrls st' V4L2_CID_HFLIP) = g /\
  grabbed (ctrls st' V4L2_CID_OPERATION_MODE) = g /\
  grabbed (ctrls st' V4L2_CID_SYNC_MODE) = g /\
  val (ctrls st' V4L2_CID_OPERATION_MODE) = val (ctrls st V4L2_CID_OPERATION_MODE) /\
  streaming st' = g /\ gmsl st' = gmsl st /\ pm_usage st' = pm_usage st.
Proof. cbv zeta. repeat split; reflexivity. Qed.

End FrStreamClean.

(** X24: a stream start followed by a stream stop through imx662_set_stream
    of fr_imx662.c, on a direct connection and a bus without faults.  For
    a stopped device in a mode of modes_12bit or modes_10bit, in master or
    slave operation, whose power-up succeeds: the start returns 0, sets
    the streaming flag, grabs the flip, operation-mode and sync-mode
    controls and leaves the sensor out of standby with XMSTA 0 in master
    and 1 in slave operation; the stop that follows returns 0, clears the
    flag, releases the four controls, leaves the sensor in standby with the
    master mode stopped, and the usage counter of runtime power management
    is back at its value before the start. *)
Theorem stream_start_then_stop (st : Fr.imx662) (b : i2c_bus) :
  healthy b ->
  Fr.streaming st = false ->
  Fr.gmsl st = false ->
  0 <= Fr.pm_resume st ->
  In (Fr.mode st) (Fr.modes_12bit ++ Fr.modes_10bit) ->
  val (Fr.ctrls st Fr.V4L2_CID_OPERATION_MODE) = Fr.MASTER_MODE \/
  val (Fr.ctrls st Fr.V4L2_CID_OPERATION_MODE) = Fr.SLAVE_MODE ->
  exists st1 b1 st2 b2,
    Fr.imx662_set_stream st 1 b = ((0, st1), b1) /\
    Fr.streaming st1 = true /\
    Fr.pm_usage st1 = Fr.pm_usage st + 1 /\
    grabbed (Fr.ctrls st1 Fr.V4L2_CID_VFLIP) = true /\
    grabbed (Fr.ctrls st1 Fr.V4L2_CID_HFLIP) = true /\
    grabbed (Fr.ctrls st1 Fr.V4L2_CID_OPERATION_MODE) = true /\
    grabbed (Fr.ctrls st1 Fr.V4L2_CID_SYNC_MODE) = true /\
    reg_get b1 Fr.STANDBY = Fr.IMX662_MODE_STREAMING /\
    reg_get b1 Fr.XMSTA =
      (if val (Fr.ctrls st1 Fr.V4L2_CID_OPERATION_MODE) =? Fr.MASTER_MODE
       then 0 else 1) /\
    Fr.imx662_set_stream st1 0 b1 = ((0, st2), b2) /\
    Fr.streaming st2 = false /\
    Fr.pm_usage st2 = Fr.pm_usage st /\
    grabbed (Fr.ctrls st2 Fr.V4L2_CID_VFLIP) = false /\
    grabbed (Fr.ctrls st2 Fr.V4L2_CID_HFLIP) = false /\
    grabbed (Fr.ctrls st2 Fr.V4L2_CID_OPERATION_MODE) = false /\
    grabbed (Fr.ctrls st2 Fr.V4L2_CID_SYNC_MODE) = false /\
    reg_get b2 Fr.STANDBY = Fr.IMX662_MODE_STANDBY /\
    reg_get b2 Fr.XMSTA = 1.
Proof.
  intros Hb Hoff Hdirect Hres Hin Hop.
  assert (Hlf : Fr.linkfreq (Fr.mode st) = Fr._IMX662_LINK_FREQ_720 \/
                Fr.linkfreq (Fr.mode st) = Fr._IMX662_LINK_FREQ_594).
  { cbn in Hin. destruct Hin as [<-|[<-|[<-|[<-|[<-|[<-|[<-|[]]]]]]]]; cbn; auto. }
  (* the start *)
  set (st0 := Fr.set_pm_usage st (Fr.pm_usage st + 1)).
  assert (Hstart : exists sa ba,
            Fr.imx662_start_streaming st0 b = ((0, sa), ba) /\ healthy ba /\
            FrPowerSpec.keeps_power st0 sa /\
            reg_get ba Fr.STANDBY = Fr.IMX662_MODE_STREAMING /\
            reg_get ba Fr.XMSTA =
              (if val (Fr.ctrls sa Fr.V4L2_CID_OPERATION_MODE) =? Fr.MASTER_MODE
               then 0 else 1)).
  { pose proof (fr_start_streaming_keeps_power st0 b) as Hkeep.
    unfold Fr.imx662_start_streaming in *. unfold Fr.link_start in *.
    change (Fr.gmsl st0) with (Fr.gmsl st) in *. rewrite Hdirect in *.
    unfold io_bind, io_ret in *.
    cbv beta iota in *. change (truthy 0) with false in *. cbv beta iota in *.
    rewrite (fr_set_mode_healthy st0 b Hb Hlf Hop) in *.
    cbv beta iota in *. change (truthy 0) with false in *. cbv beta iota in *.
    set (bm := MipiTableSpec.store_entries (FrTableSpec.set_mode_entries st0) b) in *.
    assert (Hbm : healthy bm) by (apply store_entries_healthy; exact Hb).
    destruct (fr_handler_setup_clean Fr.handler_ctrls st0 bm Hbm) as [Hr Hbh].
    fold (Fr.__v4l2_ctrl_handler_setup Fr.imx662_set_ctrl st0) in Hr, Hbh.
    destruct (Fr.__v4l2_ctrl_handler_setup Fr.imx662_set_ctrl st0 bm) as [[r sa] bh].
    cbn [fst snd] in Hr, Hbh. subst r.
    change (truthy 0) with false in *. cbv beta iota in *.
    rewrite (fr_write_reg_healthy Fr.STANDBY 1 Fr.IMX662_MODE_STREAMING bh Hbh) in * by lia.
    cbv beta iota in *. change (truthy 0) with false in *. cbv beta iota in *.
    change (Z.to_nat 1) with 1%nat in *. cbn [Fr.store_le] in *.
    set (bs := reg_store bh _ _) in *.
    assert (Hbs : healthy bs) by (apply healthy_store; exact Hbh).
    exists sa.
    destruct (val (Fr.ctrls sa Fr.V4L2_CID_OPERATION_MODE) =? Fr.MASTER_MODE);
      rewrite (fr_write_reg_healthy Fr.XMSTA 1 _ bs Hbs) in * by lia;
      cbn [fst snd] in Hkeep;
      (eexists; split; [reflexivity|]);
      (split; [apply fr_store_le_healthy; exact Hbs|]);
      (split; [exact Hkeep|]);
      change (Z.to_nat 1) with 1%nat; cbn [Fr.store_le]; unfold bs;
      change (u16 (u16 Fr.XMSTA)) with Fr.XMSTA;
      change (u16 (u16 Fr.STANDBY)) with Fr.STANDBY;
      (split; [rewrite reg_get_store_ne by (vm_compute; discriminate);
               apply reg_get_store_eq
              | apply reg_get_store_eq]). }
  destruct Hstart as (sa & ba & Hrun & Hba & (Hpm & Hstr & Hg) & Hstandby & Hxmsta).
  pose proof (fr_grab_all_ctrls sa true) as Hgrab1. cbv zeta in Hgrab1.
  set (st1 := Fr.__v4l2_ctrl_grab _ Fr.V4L2_CID_SYNC_MODE true) in Hgrab1.
  destruct Hgrab1 as (G1 & G2 & G3 & G4 & Gop & Gs & Gg & Gp).
  (* the stop *)
  assert (Hstop : exists sb bb,
            Fr.imx662_stop_streaming st1 ba = (sb, bb) /\
            FrPowerSpec.keeps_power st1 sb /\
            reg_get bb Fr.STANDBY = Fr.IMX662_MODE_STANDBY /\
            reg_get bb Fr.XMSTA = 1).
  { pose proof (fr_stop_streaming_keeps_power st1 ba) as Hkeep.
    unfold Fr.imx662_stop_streaming in *.
    rewrite Gg, Hg in *. change (Fr.gmsl st0) with (Fr.gmsl st) in *.
    rewrite Hdirect in *. unfold io_bind, io_ret in *.
    rewrite (fr_write_reg_healthy Fr.XMSTA 1 1 ba Hba) in * by lia.
    cbv beta iota in *.
    rewrite fr_write_reg_healthy in * by (try apply fr_store_le_healthy; try exact Hba; lia).
    cbn [fst] in Hkeep.
    eexists; eexists. split; [reflexivity|]. split; [exact Hkeep|].
    change (Z.to_nat 1) with 1%nat. cbn [Fr.store_le].
    change (u16 (u16 Fr.XMSTA)) with Fr.XMSTA.
    change (u16 (u16 Fr.STANDBY)) with Fr.STANDBY.
    split; [apply reg_get_store_eq|].
    rewrite reg_get_store_ne by (vm_compute; discriminate).
    apply reg_get_store_eq. }
  destruct Hstop as (sb & bb & Hrun2 & (Hpm2 & _ & _) & Hstandby2 & Hxmsta2).
  pose proof (fr_grab_all_ctrls (Fr.pm_runtime_put sb) false) as Hgrab2. cbv zeta in Hgrab2.
  set (st2 := Fr.__v4l2_ctrl_grab _ Fr.V4L2_CID_SYNC_MODE false) in Hgrab2.
  destruct Hgrab2 as (K1 & K2 & K3 & K4 & _ & Ks & _ & Kp).
  exists st1, ba, st2, bb.
  split.
  { unfold Fr.imx662_set_stream. rewrite Hoff.
    change (of_bool false =? 1) with false. cbv iota.
    change (truthy 1) with true. cbv iota.
    unfold Fr.pm_runtime_get_sync. fold st0.
    destruct (Fr.pm_resume st <? 0) eqn:Hlt; [apply Z.ltb_lt in Hlt; lia|].
    unfold io_bind, io_ret. rewrite Hrun.
    change (truthy 0) with false. cbv iota. reflexivity. }
  split; [exact Gs|].
  split; [rewrite Gp, Hpm; reflexivity|].
  split; [exact G1|]. split; [exact G2|]. split; [exact G3|]. split; [exact G4|].
  split; [exact Hstandby|].
  split; [rewrite Gop; exact Hxmsta|].
  split.
  { unfold Fr.imx662_set_stream. rewrite Gs.
    change (of_bool true =? 0) with false. cbv iota.
    change (truthy 0) with false. cbv iota.
    unfold io_bind, io_ret. rewrite Hrun2. reflexivity. }
  split; [exact Ks|].
  split; [rewrite Kp; cbn; rewrite Hpm2, Gp, Hpm; cbn; lia|].
  split; [exact K1|]. split; [exact K2|]. split; [exact K3|]. split; [exact K4|].
  split; [exact Hstandby2 | exact Hxmsta2].
Qed.

Lemma stream_start_then_stop_witness :
  exists st1 b1 st2 b2,
    Fr.imx662_set_stream
      (FrSpec.sensor_in FrSpec.mode_12bit_full MEDIA_BUS_FMT_SRGGB12_1X12 0 false)
      1 (bus_of ∅) = ((0, st1), b1) /\
    reg_get b1 Fr.STANDBY = 0 /\
    Fr.imx662_set_stream st1 0 b1 = ((0, st2), b2) /\
    reg_get b2 Fr.STANDBY = 1 /\
    Fr.pm_usage st2 = 0.
Proof.
  destruct (stream_start_then_stop
              (FrSpec.sensor_in FrSpec.mode_12bit_full MEDIA_BUS_FMT_SRGGB12_1X12 0 false)
              (bus_of ∅))
    as (st1 & b1 & st2 & b2 & H1 & _ & _ & _ & _ & _ & _ & H8 & _ & H10 & _ & H12 & _ & _ & _ & _ & H17 & _).
  - reflexivity.
  - reflexivity.
  - reflexivity.
  - cbn. lia.
  - vm_compute. tauto.
  - left. reflexivity.
  - exists st1, b1, st2, b2.
    split; [exact H1|]. split; [exact H8|]. split; [exact H10|].
    split; [exact H17 | exact H12].
Defined.

(** ** Exposure and gain of imx662.c *)

Section RpiControls.
Import Rpi.

Lemma rpi_write_reg_1byte_healthy (reg v : Z) (b : i2c_bus) :
  healthy b ->
  imx662_write_reg_1byte reg v b = (0, reg_store b (u16 reg) (u8 v)).
Proof.
  intros Hb. unfold imx662_write_reg_1byte. rewrite (transfer_healthy b Hb). reflexivity.
Qed.

Lemma rpi_write_reg_2byte_healthy (reg v : Z) (b : i2c_bus) :
  healthy b ->
  imx662_write_reg_2byte reg v b =
    (0, reg_store (reg_store b (u16 reg) (u8 (u16 v)))
                  (u16 (u16 reg + 1)) (u8 (Z.shiftr (u16 v) 8))).
Proof.
  intros Hb. unfold imx662_write_reg_2byte. rewrite (transfer_healthy b Hb). reflexivity.
Qed.

Lemma u64_small (z : Z) : 0 <= z < 2 ^ 64 -> u64 z = z.
Proof. intros H. unfold u64. apply Z.mod_small. exact H. Qed.

(** The quotient of [calculate_shr] for a line length above the offset. *)
Lemma rpi_exposure_quotient (e hmax : Z) :
  209 < hmax -> 1 <= e -> (e * hmax - 209) / hmax = e - 1.
Proof.
  intros Hh He. symmetry. apply (Z.div_unique _ _ _ (hmax - 209)); lia.
Qed.

Lemma rpi_calculate_shr_spec (e hmax vmax : Z) :
  209 < hmax < 2 ^ 16 -> 1 <= e -> e <= vmax -> vmax < 2 ^ 32 ->
  calculate_shr e hmax vmax 0 209 = vmax - e + 1.
Proof.
  intros Hh He Hev Hv. unfold calculate_shr, do_div.
  assert (He32 : u32 e = e) by (apply u32_small; lia).
  assert (Hh32 : u32 hmax = hmax) by (apply u32_small; lia).
  rewrite He32, Hh32.
  change (u32 209) with 209. change (u32 (0 + 1)) with 1.
  assert (Hprod : 0 <= e * hmax - 209 < 2 ^ 64) by nia.
  rewrite !(u64_small (e * hmax - 209) Hprod).
  rewrite rpi_exposure_quotient by lia.
  rewrite (u64_small vmax) by lia.
  replace (vmax * 1 - (e - 1)) with (vmax - e + 1) by lia.
  apply u32_small. lia.
Qed.

Lemma rpi_calculate_exposure_spec (hmax vmax shr : Z) :
  209 < hmax < 2 ^ 16 -> 0 <= shr <= vmax -> vmax < 2 ^ 32 ->
  calculate_v4l2_cid_exposure hmax vmax shr 0 209 = vmax - shr.
Proof.
  intros Hh Hs Hv. unfold calculate_v4l2_cid_exposure, do_div, clamp_t_u32.
  replace (vmax * (0 + 1)) with vmax by lia.
  rewrite (u64_small vmax) by lia.
  rewrite (u64_small (vmax - shr)) by lia.
  assert (H3 : 0 <= (vmax - shr) * hmax + 209 < 2 ^ 64) by nia.
  rewrite !(u64_small _ H3).
  rewrite (u32_small hmax) by lia.
  assert (Hq : ((vmax - shr) * hmax + 209) / hmax = vmax - shr).
  { symmetry. apply (Z.div_unique _ _ _ 209); lia. }
  rewrite Hq. change (u32 0) with 0. change (u32 4294967295) with 4294967295.
  rewrite (u32_small (vmax - shr)) by lia. lia.
Qed.

End RpiControls.

(** X19: the exposure arithmetic of imx662.c for a line length above 209
    ticks.  For every exposure of the range that
    calculate_min_max_v4l2_cid_exposure computes, calculate_shr gives the
    shutter VMAX - exposure + 1: one line above what the range was computed
    from, so that the shutters of the range run from min_SHR + 1 to one
    above the largest shutter min(VMAX - 4, 0xFFFF), and
    calculate_v4l2_cid_exposure maps the shutter back to the exposure
    minus one. *)
Theorem exposure_range_shutter_off_by_one (hmax vmax min_shr e : Z) :
  209 < hmax < 2 ^ 16 ->
  0 <= min_shr ->
  min_shr + 4 <= vmax ->
  vmax < 2 ^ 32 ->
  let range := Rpi.calculate_min_max_v4l2_cid_exposure hmax vmax min_shr 0 209 in
  fst range <= e <= snd range ->
  let shr := Rpi.calculate_shr e hmax vmax 0 209 in
  shr = vmax - e + 1 /\
  min_shr + 1 <= shr <= Z.min (vmax - 4) 0xFFFF + 1 /\
  Rpi.calculate_v4l2_cid_exposure hmax vmax shr 0 209 = e - 1.
Proof.
  intros Hh Hm Hmv Hv range He shr.
  unfold range, Rpi.calculate_min_max_v4l2_cid_exposure in He. cbn [fst snd] in He.
  replace ((0 + 1) * vmax) with vmax in He by lia.
  rewrite (u64_small vmax) in He by lia.
  rewrite (u64_small (vmax - 4)) in He by lia.
  rewrite !rpi_calculate_exposure_spec in He by lia.
  assert (Hshr : shr = vmax - e + 1)
    by (unfold shr; apply rpi_calculate_shr_spec; lia).
  split; [exact Hshr|]. split; [lia|].
  rewrite Hshr. rewrite rpi_calculate_exposure_spec by lia. lia.
Qed.

Lemma exposure_range_shutter_off_by_one_witness :
  Rpi.calculate_min_max_v4l2_cid_exposure 990 1250 20 0 209 = (4, 1230) /\
  Rpi.calculate_shr 1230 990 1250 0 209 = 21 /\
  Rpi.calculate_v4l2_cid_exposure 990 1250 21 0 209 = 1229.
Proof.
  split; [reflexivity|].
  destruct (exposure_range_shutter_off_by_one 990 1250 20 1230) as (Hs & _ & Hback).
  - lia.
  - lia.
  - lia.
  - lia.
  - vm_compute. split; discriminate.
  - split; [exact Hs|]. rewrite Hs in Hback. exact Hback.
Defined.

(** X20: the analogue gain of imx662_set_ctrl of imx662.c on a powered
    device and a bus without faults, for a control value of 0..240.  High
    conversion gain is switched on exactly for a value of at least 80 in a
    mode without HDR; the gain register then holds the value lowered by 51,
    but never less than 34.  The gain in effect, the register plus 51 with
    high conversion gain, therefore equals the control value, except for
    the values 80..84 without HDR, which all give 85.  The register hold is
    released. *)
Theorem analogue_gain_conversion_switch
    (st : Rpi.imx662) (v undef : Z) (b : i2c_bus) :
  healthy b ->
  Rpi.pm_usage st > 0 ->
  0 <= v <= 240 ->
  let hcg := negb (Rpi.hdr (Rpi.mode st)) && (80 <=? v) in
  exists b',
    Rpi.imx662_set_ctrl st Rpi.V4L2_CID_ANALOGUE_GAIN v undef b = ((0, st), b') /\
    reg_get b' Rpi.IMX662_REG_FDG_SEL0 = (if hcg then 1 else 0) /\
    reg16 b' Rpi.IMX662_REG_ANALOG_GAIN (Rpi.IMX662_REG_ANALOG_GAIN + 1) +
      (if hcg then 51 else 0) = (if hcg && (v <? 85) then 85 else v) /\
    reg_get b' 0x3001 = 0.
Proof.
  intros Hb Hpm Hv hcg.
  unfold Rpi.imx662_set_ctrl, Rpi.apply_ctrl, Rpi.pm_runtime_get_if_in_use,
    Rpi.imx662_register_hold, io_bind, io_ret.
  destruct (Rpi.pm_usage st >? 0) eqn:Hgt; [|rewrite Z.gtb_ltb in Hgt; apply Z.ltb_ge in Hgt; lia].
  change (1 =? 0) with false. cbv beta iota. cbn [Rpi.mode Rpi.hdr].
  change (v >=? Rpi.IMX662_ANA_GAIN_HCG_THRESHOLD) with (v >=? 80).
  assert (Hge : (v >=? 80) = (80 <=? v)) by (rewrite Z.geb_leb; reflexivity).
  rewrite Hge. fold hcg.
  set (g := if hcg then _ else v).
  assert (Hg : 0 <= g <= 240 /\
               g + (if hcg then 51 else 0) = (if hcg && (v <? 85) then 85 else v)).
  { unfold g, Rpi.IMX662_ANA_GAIN_HCG_LEVEL, Rpi.IMX662_ANA_GAIN_HCG_MIN.
    destruct hcg eqn:Hh; cbn [andb]; [|lia].
    assert (80 <= v).
    { unfold hcg in Hh. apply andb_true_iff in Hh. destruct Hh as [_ Hh].
      apply Z.leb_le in Hh. exact Hh. }
    destruct (v - 51 <? 34) eqn:H1; destruct (v <? 85) eqn:H2;
      try apply Z.ltb_lt in H1; try apply Z.ltb_ge in H1;
      try apply Z.ltb_lt in H2; try apply Z.ltb_ge in H2; lia. }
  destruct Hg as [Hgr Hgeff].
  rewrite (rpi_write_reg_1byte_healthy _ _ b Hb). cbv beta iota.
  rewrite rpi_write_reg_2byte_healthy by (repeat apply healthy_store; exact Hb).
  cbv beta iota.
  rewrite rpi_write_reg_1byte_healthy by (repeat apply healthy_store; exact Hb).
  cbv beta iota.
  rewrite rpi_write_reg_1byte_healthy by (repeat apply healthy_store; exact Hb).
  cbv beta iota.
  assert (Hst : Rpi.pm_runtime_put
                  (Rpi.mk_sensor (Rpi.exposure st) (Rpi.mode st) (Rpi.HMAX st)
                                 (Rpi.VMAX st) (Rpi.pm_usage st + 1)) = st).
  { unfold Rpi.pm_runtime_put. cbn. destruct st as [e m h vm p]. cbn. f_equal. lia. }
  rewrite Hst.
  eexists. split; [reflexivity|].
  unfold reg16.
  change (u16 Rpi.IMX662_REG_FDG_SEL0) with Rpi.IMX662_REG_FDG_SEL0.
  change (u16 (u16 Rpi.IMX662_REG_ANALOG_GAIN + 1)) with (Rpi.IMX662_REG_ANALOG_GAIN + 1).
  change (u16 Rpi.IMX662_REG_ANALOG_GAIN) with Rpi.IMX662_REG_ANALOG_GAIN.
  change (u16 12289) with 12289.
  repeat first
    [ rewrite reg_get_store_eq
    | rewrite reg_get_store_ne by (vm_compute; discriminate) ].
  assert (Hu : u16 g = g) by (unfold u16; apply Z.mod_small; lia).
  rewrite Hu.
  assert (Hlo : u8 g = g) by (unfold u8; apply Z.mod_small; lia).
  assert (Hhi : u8 (Z.shiftr g 8) = 0).
  { rewrite Z.shiftr_div_pow2 by lia. rewrite Z.div_small by lia. reflexivity. }
  rewrite Hlo, Hhi.
  split; [destruct hcg; reflexivity|].
  split; [lia|]. destruct hcg; reflexivity.
Qed.

Lemma analogue_gain_conversion_switch_witness :
  exists b',
    Rpi.imx662_set_ctrl (Rpi.mk_sensor (mk_ctrl 1000 52 49865 1 1000 false)
                                       Rpi.mode_2k60 990 1250 1)
                        Rpi.V4L2_CID_ANALOGUE_GAIN 82 0 (bus_of ∅)
      = ((0, Rpi.mk_sensor (mk_ctrl 1000 52 49865 1 1000 false) Rpi.mode_2k60 990 1250 1),
         b') /\
    reg_get b' Rpi.IMX662_REG_FDG_SEL0 = 1 /\
    reg16 b' Rpi.IMX662_REG_ANALOG_GAIN (Rpi.IMX662_REG_ANALOG_GAIN + 1) + 51 = 85.
Proof.
  destruct (analogue_gain_conversion_switch
              (Rpi.mk_sensor (mk_ctrl 1000 52 49865 1 1000 false) Rpi.mode_2k60 990 1250 1)
              82 0 (bus_of ∅)) as (b' & Hrun & Hsel & Hgain & _).
  - reflexivity.
  - cbn. lia.
  - lia.
  - exists b'. split; [exact Hrun|]. split; [exact Hsel | exact Hgain].
Defined.

(** ** Register tables, gain and exposure of components/imx662/imx662.c *)

Section EspBus.
Import Esp EspTableSpec.

Lemma esp_write_script (reg data e : Z) (rest : list Z) (b : i2c_bus) :
  script b = e :: rest ->
  imx662_write reg data b =
    if e =? ESP_OK
    then (ESP_OK, reg_store (mk_bus (regs b) (wlog b) rest) (u16 reg) (u8 data))
    else (e, mk_bus (regs b) (wlog b) rest).
Proof.
  intros Hs. unfold imx662_write, sccb_transfer. rewrite Hs. reflexivity.
Qed.

Lemma esp_read_script (reg old e : Z) (rest : list Z) (b : i2c_bus) :
  script b = e :: rest ->
  imx662_read reg old b =
    if e =? ESP_OK
    then ((ESP_OK, u8 (reg_get b (u16 reg))), mk_bus (regs b) (wlog b) rest)
    else ((e, old), mk_bus (regs b) (wlog b) rest).
Proof.
  intros Hs. unfold imx662_read, sccb_transfer. rewrite Hs. reflexivity.
Qed.

Lemma esp_write_outcome (reg data : Z) (b : i2c_bus) :
  let r := imx662_write reg data b in
  (fst r = ESP_OK /\ wlog (snd r) = wlog b ++ [(u16 reg, u8 data)] /\
   regs (snd r) = <[u16 reg := u8 data]> (regs b)) \/
  (fst r <> ESP_OK /\ wlog (snd r) = wlog b /\ regs (snd r) = regs b).
Proof.
  unfold imx662_write, sccb_transfer. destruct (script b) as [|e rest].
  - left. cbn. auto.
  - destruct (e =? ESP_OK) eqn:He.
    + left. cbn. auto.
    + right. apply Z.eqb_neq in He. cbn. auto.
Qed.

End EspBus.

(** X21: imx662_write_array of components/imx662/imx662.c on a bus
    without faults, for a table that holds an end marker (register 0xFFFF).
    It answers ESP_OK after writing, in the order of the table, the entries
    before the first end marker that are not delay entries (register
    0xEEEE); nothing behind the end marker is sent. *)
Theorem write_array_sends_table_up_to_end
    (entries junk : list (Z * Z)) (endv : Z) (b : i2c_bus) :
  healthy b ->
  Forall (fun e => EspTableSpec.is_end e = false) entries ->
  Esp.imx662_write_array (entries ++ (Esp.IMX662_REG_END, endv) :: junk) b =
    (Some Esp.ESP_OK,
     MipiTableSpec.store_entries
       (map EspTableSpec.entry
            (List.filter (fun e => negb (EspTableSpec.is_delay e)) entries)) b).
Proof.
  unfold Esp.imx662_write_array.
  revert b. induction entries as [|[reg v] entries IH]; intros b Hb Hne.
  - reflexivity.
  - apply Forall_cons in Hne. destruct Hne as [Hreg Hne].
    unfold EspTableSpec.is_end in Hreg. cbn [fst] in Hreg.
    cbn [app Esp.write_array_from List.filter].
    change (Esp.ESP_OK =? Esp.ESP_OK) with true. cbn [negb].
    rewrite Hreg. unfold EspTableSpec.is_delay at 1. cbn [fst].
    destruct (u16 reg =? Esp.IMX662_REG_DELAY); cbn [negb].
    + apply IH; assumption.
    + unfold io_bind. rewrite (esp_write_healthy reg v b Hb).
      cbn [map]. rewrite IH by (try apply healthy_store; assumption).
      reflexivity.
Qed.

Lemma write_array_sends_table_up_to_end_witness :
  Esp.imx662_write_array
    [(0x3000, 0x01); (Esp.IMX662_REG_DELAY, 10); (0x3001, 0x00);
     (Esp.IMX662_REG_END, 0); (0x3002, 0x01)] (bus_of ∅) =
  (Some Esp.ESP_OK,
   mk_bus (<[0x3001 := 0]> (<[0x3000 := 1]> ∅)) [(0x3000, 1); (0x3001, 0)] []).
Proof.
  apply (write_array_sends_table_up_to_end
           [(0x3000, 0x01); (Esp.IMX662_REG_DELAY, 10); (0x3001, 0x00)]
           [(0x3002, 0x01)] 0 (bus_of ∅)).
  - reflexivity.
  - repeat constructor.
Defined.

(** X22: imx662_set_gain of components/imx662/imx662.c on any bus.
    Whenever it answers ESP_OK the gain register pair holds the request cut
    to 240, the high register being zero; whenever it does not, the high
    register has not been written after a failed write of the low one: the
    write log has grown by at most the low register. *)
Theorem esp_set_gain_outcome (gain : Z) (b : i2c_bus) :
  let r := Esp.imx662_set_gain gain b in
  let code := Z.min 240 (u32 gain) in
  (fst r = Esp.ESP_OK ->
   reg16 (snd r) Esp.IMX662_REG_GAIN_L Esp.IMX662_REG_GAIN_H = code /\
   wlog (snd r) =
     wlog b ++ [(Esp.IMX662_REG_GAIN_L, code); (Esp.IMX662_REG_GAIN_H, 0)]) /\
  (fst r <> Esp.ESP_OK ->
   wlog (snd r) = wlog b \/
   wlog (snd r) = wlog b ++ [(Esp.IMX662_REG_GAIN_L, code)]).
Proof.
  cbv zeta. unfold Esp.imx662_set_gain.
  assert (Hg : 0 <= u32 gain) by (unfold u32; apply Z.mod_pos_bound; lia).
  assert (Hcode : u8 (Z.land (if u32 gain >? 240 then 240 else u32 gain) 255)
                  = Z.min 240 (u32 gain)).
  { rewrite byte0. destruct (u32 gain >? 240) eqn:Hgt.
    - apply Z.gtb_lt in Hgt. rewrite Z.min_l by lia. reflexivity.
    - rewrite Z.gtb_ltb in Hgt. apply Z.ltb_ge in Hgt.
      rewrite Z.min_r by lia. apply Z.mod_small. lia. }
  unfold io_bind, io_ret.
  pose proof (esp_write_outcome Esp.IMX662_REG_GAIN_L
                (Z.land (if u32 gain >? 240 then 240 else u32 gain) 255) b) as H1.
  cbv zeta in H1. rewrite Hcode in H1.
  change (u16 Esp.IMX662_REG_GAIN_L) with Esp.IMX662_REG_GAIN_L in H1.
  destruct (Esp.imx662_write Esp.IMX662_REG_GAIN_L _ b) as [r1 b1].
  cbn [fst snd] in H1.
  destruct H1 as [(Hr1 & Hw1 & Hs1) | (Hr1 & Hw1 & Hs1)].
  - subst r1. change (Esp.ESP_OK =? Esp.ESP_OK) with true. cbv beta iota.
    pose proof (esp_write_outcome Esp.IMX662_REG_GAIN_H 0 b1) as H2.
    cbv zeta in H2.
    change (u16 Esp.IMX662_REG_GAIN_H) with Esp.IMX662_REG_GAIN_H in H2.
    change (u8 0) with 0 in H2.
    destruct (Esp.imx662_write Esp.IMX662_REG_GAIN_H 0 b1) as [r2 b2].
    cbn [fst snd] in *.
    destruct H2 as [(Hr2 & Hw2 & Hs2) | (Hr2 & Hw2 & Hs2)].
    + split; [|intros Hne; contradiction].
      intros _. split.
      * unfold reg16, reg_get. rewrite Hs2, Hs1.
        rewrite lookup_insert_ne by (vm_compute; discriminate).
        rewrite !lookup_insert_eq. cbn [default from_option]. unfold id. lia.
      * rewrite Hw2, Hw1, <- app_assoc. reflexivity.
    + split; [intros He; contradiction|].
      intros _. right. rewrite Hw2, Hw1. reflexivity.
  - destruct (r1 =? Esp.ESP_OK) eqn:He; [apply Z.eqb_eq in He; contradiction|].
    cbn [fst snd]. split; [intros He'; contradiction|].
    intros _. left. exact Hw1.
Qed.

Lemma esp_set_gain_outcome_witness :
  reg16 (snd (Esp.imx662_set_gain 300 (bus_of ∅)))
        Esp.IMX662_REG_GAIN_L Esp.IMX662_REG_GAIN_H = 240.
Proof.
  apply (proj1 (esp_set_gain_outcome 300 (bus_of ∅))). reflexivity.
Defined.

(** X23: imx662_set_exposure of components/imx662/imx662.c when a read
    of the frame length fails.  All three VMAX registers are read whatever
    the first reads answer; when any of the three reads fails, the
    function answers the bitwise OR of the three outcomes, which is not
    ESP_OK, and writes no register. *)
Theorem esp_set_exposure_read_failure
    (exposure e1 e2 e3 : Z) (rest : list Z) (b : i2c_bus) :
  script b = e1 :: e2 :: e3 :: rest ->
  e1 <> Esp.ESP_OK \/ e2 <> Esp.ESP_OK \/ e3 <> Esp.ESP_OK ->
  Esp.imx662_set_exposure exposure b =
    (Z.lor (Z.lor e1 e2) e3, mk_bus (regs b) (wlog b) rest) /\
  Z.lor (Z.lor e1 e2) e3 <> Esp.ESP_OK.
Proof.
  intros Hs Hfail.
  assert (Hne : Z.lor (Z.lor e1 e2) e3 <> Esp.ESP_OK).
  { unfold Esp.ESP_OK in *. intros H0.
    apply Z.lor_eq_0_iff in H0. destruct H0 as [H0 H3].
    apply Z.lor_eq_0_iff in H0. destruct H0 as [H1 H2]. tauto. }
  split; [|exact Hne].
  unfold Esp.imx662_set_exposure, io_bind, io_ret.
  rewrite (esp_read_script _ _ e1 (e2 :: e3 :: rest) b Hs).
  destruct (e1 =? Esp.ESP_OK) eqn:H1;
    (erewrite (esp_read_script _ _ e2 (e3 :: rest)); [|reflexivity]);
    destruct (e2 =? Esp.ESP_OK) eqn:H2;
    (erewrite (esp_read_script _ _ e3 rest); [|reflexivity]);
    destruct (e3 =? Esp.ESP_OK) eqn:H3;
    cbv beta iota;
    try apply Z.eqb_eq in H1; try apply Z.eqb_eq in H2; try apply Z.eqb_eq in H3;
    subst;
    try (exfalso; tauto);
    (destruct (Z.lor (Z.lor _ _) _ =? Esp.ESP_OK) eqn:Hz;
     [apply Z.eqb_eq in Hz; contradiction | reflexivity]).
Qed.

Lemma esp_set_exposure_read_failure_witness :
  Esp.imx662_set_exposure 100 (faulty_bus ∅ [0; 263; 0]) =
    (263, mk_bus ∅ [] []).
Proof.
  apply (esp_set_exposure_read_failure 100 0 263 0 [] (faulty_bus ∅ [0; 263; 0])).
  - reflexivity.
  - right. left. discriminate.
Defined.
